(** * ConfGen: Excel / YAML to JunOS configuration generators

    A shallow embedding of

    - [MassGen/files (6)/juniper_excel_to_config.py] (inventory driven
      generator, one [.cfg] per switch),
    - [OOB-Config-Gen/V3/files (2)/juniper_excel_to_config.py] (the older
      single switch generator), and
    - [OOB-Jinja2/files (3)/generate_configs.py] (Jinja2 driven generator),

    followed by the properties of the per-sheet generators, of the
    per-switch assembly and of the inventory loop.

    Modelling conventions.
    - A Python [str] is a [string] of bytes; [lower], [upper] and [strip]
      act on the ASCII range.
    - A spreadsheet cell is a [cell]: a blank cell ([NaN], as pandas reads
      it), a text cell or an integer cell.  Float, boolean and date cells
      are not modelled.
    - Exceptions are values of [exn]; a computation that may raise returns
      a [result].
    - Objects that the scripts mutate or write (data frames returned by
      [pd.read_excel], the output directory, the terminal) live in a
      [world] that is threaded through the stateful functions. *)

From Stdlib Require Import String Ascii List ZArith Lia Bool Arith DecimalString.
Import ListNotations.
Open Scope list_scope.
Open Scope string_scope.

(* ===================================================================== *)
(** * Python string methods *)
(* ===================================================================== *)

Module PyStr.

Definition is_upper (c : ascii) : bool :=
  let n := nat_of_ascii c in ((65 <=? n) && (n <=? 90))%nat.

Definition is_lower (c : ascii) : bool :=
  let n := nat_of_ascii c in ((97 <=? n) && (n <=? 122))%nat.

Definition lower_char (c : ascii) : ascii :=
  if is_upper c then ascii_of_nat (nat_of_ascii c + 32) else c.

Definition upper_char (c : ascii) : ascii :=
  if is_lower c then ascii_of_nat (nat_of_ascii c - 32) else c.

Fixpoint map_chars (f : ascii -> ascii) (s : string) : string :=
  match s with
  | EmptyString => EmptyString
  | String c s' => String (f c) (map_chars f s')
  end.

(** [s.lower()] and [s.upper()] *)
Definition lower : string -> string := map_chars lower_char.
Definition upper : string -> string := map_chars upper_char.

(** The characters [str.strip()] removes: TAB, LF, VT, FF, CR, the
    separators FS, GS, RS, US and the space. *)
Definition is_space (c : ascii) : bool :=
  let n := nat_of_ascii c in
  (((9 <=? n) && (n <=? 13)) || ((28 <=? n) && (n <=? 32)))%nat.

Fixpoint lstrip (s : string) : string :=
  match s with
  | EmptyString => EmptyString
  | String c s' => if is_space c then lstrip s' else s
  end.

Fixpoint rstrip (s : string) : string :=
  match s with
  | EmptyString => EmptyString
  | String c s' =>
      match rstrip s' with
      | EmptyString => if is_space c then EmptyString else String c EmptyString
      | t => String c t
      end
  end.

(** [s.strip()] *)
Definition strip (s : string) : string := rstrip (lstrip s).

(** [s.startswith(p)] *)
Definition startswith (p s : string) : bool := String.prefix p s.

(** [sub in s] *)
Fixpoint contains (sub s : string) : bool :=
  String.prefix sub s
  || match s with
     | EmptyString => false
     | String _ s' => contains sub s'
     end.

(** [s.replace(old, new)]: the occurrences of [old] are found from left
    to right and do not overlap; [skip] counts the characters of a
    match that remain to be dropped. *)
Fixpoint replace_from (old new : string) (skip : nat) (s : string) : string :=
  match s with
  | EmptyString =>
      match skip, old with
      | 0, EmptyString => new
      | _, _ => EmptyString
      end
  | String c s' =>
      match skip with
      | S k => replace_from old new k s'
      | 0 =>
          if String.prefix old s then
            match String.length old with
            | 0 => new ++ String c (replace_from old new 0 s')
            | S k => new ++ replace_from old new k s'
            end
          else String c (replace_from old new 0 s')
      end
  end%string.

Definition replace (old new s : string) : string := replace_from old new 0 s.

(** [s.split(sep)] for a one character separator: never the empty list. *)
Fixpoint split (sep : ascii) (s : string) : list string :=
  match s with
  | EmptyString => [EmptyString]
  | String c s' =>
      if Ascii.eqb c sep then EmptyString :: split sep s'
      else match split sep s' with
           | h :: t => String c h :: t
           | [] => [String c EmptyString]
           end
  end.

(** [s.split(sep, 1)]: at most one cut, at the first separator. *)
Fixpoint split1 (sep : ascii) (s : string) : list string :=
  match s with
  | EmptyString => [EmptyString]
  | String c s' =>
      if Ascii.eqb c sep then [EmptyString; s']
      else match split1 sep s' with
           | h :: t => String c h :: t
           | [] => [String c EmptyString]
           end
  end.

(** [sep.join(l)] *)
Definition join (sep : string) (l : list string) : string := String.concat sep l.

(** [s * n] *)
Fixpoint times (s : string) (n : nat) : string :=
  match n with
  | 0 => EmptyString
  | S k => (s ++ times s k)%string
  end.

(** [str(z)] for an integer *)
Definition of_Z (z : Z) : string := NilZero.string_of_int (Z.to_int z).

(** [c in s] for a character *)
Fixpoint has_char (c : ascii) (s : string) : bool :=
  match s with
  | EmptyString => false
  | String d s' => Ascii.eqb d c || has_char c s'
  end.

End PyStr.

(* ===================================================================== *)
(** * Exceptions and results *)
(* ===================================================================== *)

Inductive exn : Type :=
| KeyError (key : string)
    (** a column or a dictionary key that does not exist *)
| AttributeError (type_name attribute : string)
    (** a [str] method called on a cell that is not text *)
| ValueError (message : string)
    (** unpacking a list of the wrong length, or a worksheet that does not
        exist *)
| UnboundLocalError (name : string)
    (** a local variable read before any assignment *)
| TemplateNotFound (name : string)
| TemplateError (message : string).
    (** any other exception of the template engine *)

Inductive result (A : Type) : Type :=
| Ok (a : A)
| Raise (e : exn).
Arguments Ok {A} a.
Arguments Raise {A} e.

Definition bind {A B} (m : result A) (k : A -> result B) : result B :=
  match m with
  | Ok a => k a
  | Raise e => Raise e
  end.

Declare Scope py_scope.
Delimit Scope py_scope with py.
Notation "x <- m ;; k" := (bind m (fun x => k))
  (at level 61, m at next level, right associativity) : py_scope.
Notation "' pat <- m ;; k" := (bind m (fun x => match x with pat => k end))
  (at level 61, pat pattern, m at next level, right associativity) : py_scope.
Open Scope py_scope.

Definition is_ok {A} (m : result A) : bool :=
  match m with Ok _ => true | Raise _ => false end.

(** [for x in l: acc = body(x, acc)], stopped by the first exception. *)
Fixpoint foldM {A S} (body : A -> S -> result S) (l : list A) (acc : S) : result S :=
  match l with
  | [] => Ok acc
  | x :: t => acc' <- body x acc ;; foldM body t acc'
  end.

(* ===================================================================== *)
(** * Cells, rows and data frames *)
(* ===================================================================== *)

Inductive cell : Type :=
| NaN                (** a blank cell *)
| Str (s : string)   (** a text cell *)
| Int (z : Z).       (** an integer cell *)

(** [pd.notna(c)] *)
Definition notna (c : cell) : bool :=
  match c with NaN => false | _ => true end.

(** [str(c)], also what an f-string and [str.format] substitute *)
Definition py_str (c : cell) : string :=
  match c with
  | NaN => "nan"
  | Str s => s
  | Int z => PyStr.of_Z z
  end.

(** [c == 'lit'] and [c != 'lit'] against a string literal *)
Definition eq_str (c : cell) (lit : string) : bool :=
  match c with
  | Str s => String.eqb s lit
  | _ => false
  end.

Definition ne_str (c : cell) (lit : string) : bool := negb (eq_str c lit).

(** The guard [pd.notna(c) and c != ''] found in every generator. *)
Definition filled (c : cell) : bool := notna c && ne_str c "".

Definition type_name (c : cell) : string :=
  match c with NaN => "float" | Str _ => "str" | Int _ => "int" end.

(** A [str] method applied to a cell: an [AttributeError] unless the cell
    is text. *)
Definition as_str (attribute : string) (c : cell) : result string :=
  match c with
  | Str s => Ok s
  | _ => Raise (AttributeError (type_name c) attribute)
  end.

(** A row as [iterrows] yields it: the column labels with their cells. *)
Definition row : Type := list (string * cell).

Fixpoint lookup (key : string) (r : row) : option cell :=
  match r with
  | [] => None
  | (k, c) :: t => if String.eqb k key then Some c else lookup key t
  end.

(** [row[key]] *)
Definition getitem (r : row) (key : string) : result cell :=
  match lookup key r with
  | Some c => Ok c
  | None => Raise (KeyError key)
  end.

(** [row.get(key, default)] *)
Definition get (r : row) (key : string) (default : cell) : cell :=
  match lookup key r with
  | Some c => c
  | None => default
  end.

(** A data frame: the column labels and, per row, the cells in column
    order.  A row that is shorter than the header is blank from there on. *)
Record DataFrame : Type := mkDataFrame {
  columns : list string;
  data : list (list cell)
}.

Fixpoint label (cols : list string) (cells : list cell) : row :=
  match cols with
  | [] => []
  | c :: cs => (c, hd NaN cells) :: label cs (tl cells)
  end.

(** [df.iterrows()], without the index *)
Definition iterrows (df : DataFrame) : list row :=
  map (label (columns df)) (data df).

(* ===================================================================== *)
(** * Per-sheet generators ([juniper_excel_to_config.py]) *)
(* ===================================================================== *)

(** [commands.append(line)] *)
Definition append (commands : list string) (line : string) : list string :=
  (commands ++ [line])%list.

(** The double quote character, which the templates put around passwords
    and descriptions. *)
Definition dquote : string := String (ascii_of_nat 34) EmptyString.

(** The dictionary [config_map] of [generate_system_config]: a key is
    absent ([None]), present with the value [None] ([Some None]) or
    present with a template. *)
Definition config_map (param : string) : option (option (string -> string)) :=
  if param =? "hostname" then
    Some (Some (fun v => "set system host-name " ++ v))
  else if param =? "serial_number" then
    Some None
  else if param =? "domain_name" then
    Some (Some (fun v => "set system domain-name " ++ v))
  else if param =? "root_password" then
    Some (Some (fun v =>
      "set system root-authentication encrypted-password " ++ dquote ++ v ++ dquote))
  else if param =? "time_zone" then
    Some (Some (fun v => "set system time-zone " ++ v))
  else if param =? "login_message" then
    Some (Some (fun v => "set system login message " ++ dquote ++ v ++ dquote))
  else None.

(** [config_map.get(param)] for a cell: a cell that is not text is no key
    of the dictionary. *)
Definition config_map_cell (param : cell) : option (option (string -> string)) :=
  match param with
  | Str s => config_map s
  | _ => None
  end.

Definition system_row (r : row) (acc : list string * option cell)
  : result (list string * option cell) :=
  let '(commands, serial_number) := acc in
  param <- getitem r "Parameter" ;;
  value <- getitem r "Value" ;;
  if filled value then
    if eq_str param "serial_number" then Ok (commands, Some value)
    else
      match config_map_cell param with
      | Some (Some template) =>
          Ok (append commands (template (py_str value)), serial_number)
      | _ =>
          p <- as_str "startswith" param ;;
          if PyStr.startswith "name_server" p then
            Ok (append commands ("set system name-server " ++ py_str value),
                serial_number)
          else Ok (commands, serial_number)
      end
  else Ok (commands, serial_number).

Definition generate_system_config (df : DataFrame)
  : result (list string * option cell) :=
  '(commands, serial_number) <-
     foldM system_row (iterrows df) (["# System Configuration"], None) ;;
  Ok (append commands "", serial_number).

Definition ntp_row (r : row) (commands : list string) : result (list string) :=
  server <- getitem r "NTP Server" ;;
  let prefer := get r "Prefer" (Str "NO") in
  if filled server then
    let cmd := "set system ntp server " ++ py_str server in
    let cmd := if PyStr.upper (py_str prefer) =? "YES"
               then cmd ++ " prefer" else cmd in
    Ok (append commands cmd)
  else Ok commands.

Definition generate_ntp_config (df : DataFrame) : result (list string) :=
  commands <- foldM ntp_row (iterrows df) ["# NTP Configuration"] ;;
  Ok (append commands "").

Definition syslog_row (r : row) (commands : list string) : result (list string) :=
  server <- getitem r "Syslog Server" ;;
  let facility := get r "Facility" (Str "any") in
  let level := get r "Level" (Str "info") in
  if filled server then
    Ok (append commands
          ("set system syslog host " ++ py_str server ++ " "
             ++ py_str facility ++ " " ++ py_str level))
  else Ok commands.

Definition generate_syslog_config (df : DataFrame) : result (list string) :=
  commands <- foldM syslog_row (iterrows df) ["# Syslog Configuration"] ;;
  Ok (append commands "").

Definition tacacs_row (r : row) (commands : list string) : result (list string) :=
  server <- getitem r "TACACS Server" ;;
  secret <- getitem r "Secret" ;;
  let port := get r "Port" (Str "49") in
  if filled server then
    let commands :=
      append commands
        ("set system tacplus-server " ++ py_str server
           ++ " secret " ++ dquote ++ py_str secret ++ dquote) in
    if notna port then
      Ok (append commands
            ("set system tacplus-server " ++ py_str server
               ++ " port " ++ py_str port))
    else Ok commands
  else Ok commands.

Definition generate_tacacs_config (df : DataFrame) : result (list string) :=
  commands <- foldM tacacs_row (iterrows df) ["# TACACS+ Configuration"] ;;
  Ok (append commands "").

Definition vlan_row (r : row) (commands : list string) : result (list string) :=
  vlan_id <- getitem r "VLAN ID" ;;
  vlan_name <- getitem r "VLAN Name" ;;
  let l3_interface := get r "L3 Interface" (Str "") in
  if filled vlan_id then
    let commands :=
      append commands
        ("set vlans " ++ py_str vlan_name ++ " vlan-id " ++ py_str vlan_id) in
    if filled l3_interface then
      Ok (append commands
            ("set vlans " ++ py_str vlan_name
               ++ " l3-interface " ++ py_str l3_interface))
    else Ok commands
  else Ok commands.

Definition generate_vlan_config (df : DataFrame) : result (list string) :=
  commands <- foldM vlan_row (iterrows df) ["# VLAN Configuration"] ;;
  Ok (append commands "").

(** [interface.split('.')[-1]] and [interface.split('.')[0]] *)
Definition irb_unit (interface : string) : string :=
  last (PyStr.split "." interface) "".

Definition irb_base (interface : string) : string :=
  hd "" (PyStr.split "." interface).

Definition irb_row (r : row) (commands : list string) : result (list string) :=
  interface <- getitem r "Interface" ;;
  ip_address <- getitem r "IP Address" ;;
  prefix <- getitem r "Prefix Length" ;;
  let description := get r "Description" (Str "") in
  if filled interface then
    i <- as_str "split" interface ;;
    let unit := irb_unit i in
    let base := irb_base i in
    let commands :=
      if filled description then
        append commands
          ("set interfaces " ++ base ++ " unit " ++ unit
             ++ " description " ++ dquote ++ py_str description ++ dquote)
      else commands in
    Ok (append commands
          ("set interfaces " ++ base ++ " unit " ++ unit
             ++ " family inet address " ++ py_str ip_address
             ++ "/" ++ py_str prefix))
  else Ok commands.

Definition generate_irb_config (df : DataFrame) : result (list string) :=
  commands <- foldM irb_row (iterrows df) ["# IRB Interface Configuration"] ;;
  Ok (append commands "").

(** The test on the [VLANs] text of [generate_interface_config]:
    [pd.notna(vlans) and vlans not in ('', 'nan')], where [vlans] is
    already a [str] (so [pd.notna] holds). *)
Definition vlans_given (vlans : string) : bool :=
  negb ((vlans =? "") || (vlans =? "nan")).

(** The same test in the V3 script: [pd.notna(vlans) and vlans != '']. *)
Definition vlans_given_v3 (vlans : string) : bool := negb (vlans =? "").

(** The body of the loop of [generate_interface_config]; the two scripts
    differ in the test [vlans_given] only. *)
Definition interface_row (vlans_given : string -> bool)
    (r : row) (commands : list string) : result (list string) :=
  interface <- getitem r "Interface" ;;
  let description := get r "Description" (Str "") in
  mode <- getitem r "Mode" ;;
  let vlans := py_str (get r "VLANs" (Str "")) in
  let native_vlan := get r "Native VLAN" (Str "") in
  let speed := get r "Speed" (Str "auto") in
  let duplex := get r "Duplex" (Str "auto") in
  let enabled := PyStr.upper (py_str (get r "Enabled" (Str "YES"))) in
  if filled interface then
    let i := py_str interface in
    let commands :=
      if filled description then
        append commands
          ("set interfaces " ++ i ++ " description "
             ++ dquote ++ py_str description ++ dquote)
      else commands in
    let commands :=
      if notna speed && ne_str speed "auto" then
        append commands ("set interfaces " ++ i ++ " speed " ++ py_str speed)
      else commands in
    let commands :=
      if notna duplex && ne_str duplex "auto" then
        append commands
          ("set interfaces " ++ i ++ " link-mode " ++ py_str duplex ++ "-duplex")
      else commands in
    let commands :=
      append commands
        ("set interfaces " ++ i ++ " unit 0 family ethernet-switching") in
    let commands :=
      if eq_str mode "trunk" then
        let commands :=
          append commands
            ("set interfaces " ++ i
               ++ " unit 0 family ethernet-switching interface-mode trunk") in
        let commands :=
          if vlans_given vlans then
            let vlan_list := PyStr.replace "," " " vlans in
            append commands
              ("set interfaces " ++ i
                 ++ " unit 0 family ethernet-switching vlan members ["
                 ++ vlan_list ++ "]")
          else commands in
        if filled native_vlan then
          append commands
            ("set interfaces " ++ i ++ " native-vlan-id " ++ py_str native_vlan)
        else commands
      else if eq_str mode "access" then
        let commands :=
          append commands
            ("set interfaces " ++ i
               ++ " unit 0 family ethernet-switching interface-mode access") in
        if vlans_given vlans then
          append commands
            ("set interfaces " ++ i
               ++ " unit 0 family ethernet-switching vlan members " ++ vlans)
        else commands
      else commands in
    if enabled =? "NO" then
      Ok (append commands ("set interfaces " ++ i ++ " disable"))
    else Ok commands
  else Ok commands.

Definition generate_interface_config (df : DataFrame) : result (list string) :=
  commands <-
    foldM (interface_row vlans_given) (iterrows df) ["# Interface Configuration"] ;;
  Ok (append commands "").

(** Truth value of an optional string: [None] and the empty string are
    false. *)
Definition truthy (s : option string) : bool :=
  match s with
  | None => false
  | Some s => negb (s =? "")
  end.

Definition value_of (s : option string) : string :=
  match s with
  | None => ""
  | Some s => s
  end.

Definition management_row (override_ip : option string)
    (r : row) (commands : list string) : result (list string) :=
  interface <- getitem r "Interface" ;;
  ip_address <-
    (if truthy override_ip then Ok (value_of override_ip)
     else c <- getitem r "IP Address" ;; Ok (py_str c)) ;;
  prefix <- getitem r "Prefix Length" ;;
  let gateway := get r "Gateway" (Str "") in
  let description := get r "Description" (Str "") in
  if filled interface then
    let i := py_str interface in
    let commands :=
      if filled description then
        append commands
          ("set interfaces " ++ i ++ " description "
             ++ dquote ++ py_str description ++ dquote)
      else commands in
    let commands :=
      append commands
        ("set interfaces " ++ i ++ " unit 0 family inet address "
           ++ ip_address ++ "/" ++ py_str prefix) in
    if filled gateway then
      Ok (append commands
            ("set routing-options static route 0.0.0.0/0 next-hop "
               ++ py_str gateway))
    else Ok commands
  else Ok commands.

Definition generate_management_config (df : DataFrame) (override_ip : option string)
  : result (list string) :=
  commands <-
    foldM (management_row override_ip) (iterrows df)
      ["# Management Interface Configuration"] ;;
  Ok (append commands "").

(** The dictionary [feature_map] of [generate_hardening_config]. *)
Definition feature_map (feature : string) : option (string -> string) :=
  if feature =? "ssh_protocol" then
    Some (fun _ => "set system services ssh protocol-version v2")
  else if feature =? "ssh_root_login" then
    Some (fun v => "set system services ssh root-login " ++ v)
  else if feature =? "max_sessions" then
    Some (fun v => "set system services ssh connection-limit " ++ v)
  else if feature =? "connection_limit" then
    Some (fun v => "set system services ssh rate-limit " ++ v)
  else if feature =? "authentication_order" then
    Some (fun v => "set system authentication-order [ " ++ v ++ " ]")
  else None.

(** [feature_map[feature]] *)
Definition feature_template (feature : string) : result (string -> string) :=
  match feature_map feature with
  | Some template => Ok template
  | None => Raise (KeyError feature)
  end.

Definition formatted_features : list string :=
  ["ssh_root_login"; "max_sessions"; "connection_limit"; "authentication_order"].

(** [feature in [...]] for a cell *)
Definition cell_in (c : cell) (l : list string) : bool :=
  existsb (eq_str c) l.

Definition hardening_row (r : row) (acc : list string * list string)
  : result (list string * list string) :=
  let '(commands, screen_commands) := acc in
  feature <- getitem r "Feature" ;;
  setting <- getitem r "Setting" ;;
  if notna feature && notna setting then
    if eq_str feature "ssh_protocol" && (py_str setting =? "v2") then
      template <- feature_template (py_str feature) ;;
      Ok (append commands (template ""), screen_commands)
    else if cell_in feature formatted_features then
      template <- feature_template (py_str feature) ;;
      Ok (append commands (template (py_str setting)), screen_commands)
    else
      f <- as_str "startswith" feature ;;
      if PyStr.startswith "screen_" f then
        let attack_type := PyStr.replace "_" "-" (PyStr.replace "screen_" "" f) in
        Ok (commands,
            append screen_commands
              ("set security screen ids-option untrust-screen " ++ attack_type
                 ++ " threshold " ++ py_str setting))
      else Ok (commands, screen_commands)
  else Ok (commands, screen_commands).

Definition generate_hardening_config (df : DataFrame) : result (list string) :=
  '(commands, screen_commands) <-
     foldM hardening_row (iterrows df)
       (["# Security Hardening Configuration"], []) ;;
  let commands :=
    match screen_commands with
    | [] => commands
    | _ => (append (append commands "") "# IDS Screen Configuration"
              ++ screen_commands)%list
    end in
  Ok (append commands "").

(** [a, b = value.split(':', 1)] *)
Definition split_pair (value : cell) : result (string * string) :=
  v <- as_str "split" value ;;
  match PyStr.split1 ":" v with
  | [a; b] => Ok (a, b)
  | _ => Raise (ValueError "not enough values to unpack (expected 2, got 1)")
  end.

Definition snmp_row (r : row) (commands : list string) : result (list string) :=
  name <- getitem r "Community/User" ;;
  snmp_type <- getitem r "Type" ;;
  let authorization := get r "Authorization" (Str "") in
  let privacy := get r "Privacy" (Str "") in
  let access := get r "Access" (Str "read-only") in
  if filled name then
    if eq_str snmp_type "community" then
      Ok (append commands
            ("set snmp community " ++ py_str name
               ++ " authorization " ++ py_str access))
    else if eq_str snmp_type "v3-user" then
      commands <-
        (if filled authorization then
           '(auth_protocol, auth_pass) <- split_pair authorization ;;
           Ok (append commands
                 ("set snmp v3 usm local-engine user " ++ py_str name
                    ++ " authentication-" ++ auth_protocol
                    ++ " authentication-password "
                    ++ dquote ++ auth_pass ++ dquote))
         else Ok commands) ;;
      if filled privacy then
        '(priv_protocol, priv_pass) <- split_pair privacy ;;
        Ok (append commands
              ("set snmp v3 usm local-engine user " ++ py_str name
                 ++ " privacy-" ++ priv_protocol
                 ++ " privacy-password " ++ dquote ++ priv_pass ++ dquote))
      else Ok commands
    else Ok commands
  else Ok commands.

Definition generate_snmp_config (df : DataFrame) : result (list string) :=
  commands <- foldM snmp_row (iterrows df) ["# SNMP Configuration"] ;;
  Ok (append commands "").

(* ===================================================================== *)
(** * The world of the scripts *)
(* ===================================================================== *)

(** What the scripts print, one constructor per [print] call, carrying the
    values that the call interpolates. *)
Inductive message : Type :=
| MissingColumns (missing : list string)
    (** [ERROR: Inventory sheet is missing columns for: {missing}] *)
| FoundColumns (found : list string)
    (** [Found columns: {list(df_inv.columns)}] *)
| Generated (out_file hostname mgmt_ip : string)
    (** the tick line printed after a file is written *)
| Summary (count : nat)
    (** [{len(generated)} config file(s) written to ...] *)
| Written (out_file : string)
    (** [Configuration written to {out_file}] *)
| ConfigText (config_text : string)
    (** [print(config_text)] of the V3 script *)
| Error (e : exn).
    (** [Error: {e}] followed by the traceback *)

(** - [sheets]: the workbook on disk, sheet names in workbook order, each
      with the frame that [pd.read_excel] parses from it;
    - [heap]: the [DataFrame] objects created so far, a reference being a
      position in the list;
    - [files]: the [write_text] calls so far, oldest first, with the file
      name relative to the output directory;
    - [stdout]: what was printed so far, oldest first. *)
Record world : Type := mkWorld {
  sheets : list (string * DataFrame);
  heap : list DataFrame;
  files : list (string * string);
  stdout : list message
}.

Definition M (A : Type) : Type := world -> result A * world.

Definition ret {A} (a : A) : M A := fun w => (Ok a, w).

Definition raise {A} (e : exn) : M A := fun w => (Raise e, w).

Definition bindM {A B} (m : M A) (k : A -> M B) : M B :=
  fun w =>
    match m w with
    | (Ok a, w') => k a w'
    | (Raise e, w') => (Raise e, w')
    end.

(** A computation without effects, run inside the world. *)
Definition lift {A} (m : result A) : M A := fun w => (m, w).

(** [try: m  except Exception as e: handler(e)] *)
Definition try_except {A} (m : M A) (handler : exn -> M A) : M A :=
  fun w =>
    match m w with
    | (Ok a, w') => (Ok a, w')
    | (Raise e, w') => handler e w'
    end.

Notation "x <~ m ;; k" := (bindM m (fun x => k))
  (at level 61, m at next level, right associativity) : py_scope.
Notation "m ;;; k" := (bindM m (fun _ => k))
  (at level 61, right associativity) : py_scope.

Fixpoint foldW {A S} (body : A -> S -> M S) (l : list A) (acc : S) : M S :=
  match l with
  | [] => ret acc
  | x :: t => acc' <~ body x acc ;; foldW body t acc'
  end.

Definition print (m : message) : M unit :=
  fun w => (Ok tt, mkWorld (sheets w) (heap w) (files w) (stdout w ++ [m])%list).

(** [out_file.write_text(text)] *)
Definition write_text (out_file text : string) : M unit :=
  fun w =>
    (Ok tt, mkWorld (sheets w) (heap w) (files w ++ [(out_file, text)])%list (stdout w)).

(** [xls.sheet_names] *)
Definition sheet_names : M (list string) :=
  fun w => (Ok (map fst (sheets w)), w).

Fixpoint find_sheet (name : string) (l : list (string * DataFrame)) : option DataFrame :=
  match l with
  | [] => None
  | (n, df) :: t => if String.eqb n name then Some df else find_sheet name t
  end.

(** [pd.read_excel(xls, sheet_name=name)]: a new [DataFrame] object, or a
    [ValueError] when the workbook has no such sheet. *)
Definition read_excel (name : string) : M nat :=
  fun w =>
    match find_sheet name (sheets w) with
    | Some df =>
        (Ok (length (heap w)),
         mkWorld (sheets w) (heap w ++ [df])%list (files w) (stdout w))
    | None => (Raise (ValueError ("Worksheet named '" ++ name ++ "' not found")), w)
    end.

Definition empty_frame : DataFrame := mkDataFrame [] [].

(** Reading the object behind a reference. *)
Definition load (ref : nat) : M DataFrame :=
  fun w => (Ok (nth ref (heap w) empty_frame), w).

Fixpoint update_nth {A} (n : nat) (f : A -> A) (l : list A) : list A :=
  match l, n with
  | [], _ => []
  | x :: t, 0 => f x :: t
  | x :: t, S k => x :: update_nth k f t
  end.

(** Mutating the object behind a reference. *)
Definition modify (ref : nat) (f : DataFrame -> DataFrame) : M unit :=
  fun w =>
    (Ok tt, mkWorld (sheets w) (update_nth ref f (heap w)) (files w) (stdout w)).

Fixpoint index_of (key : string) (l : list string) : option nat :=
  match l with
  | [] => None
  | k :: t =>
      if String.eqb k key then Some 0
      else match index_of key t with
           | Some i => Some (S i)
           | None => None
           end
  end.

(** [l[n] = v], the list being extended with blanks when it is short. *)
Fixpoint set_nth (n : nat) (v : cell) (l : list cell) : list cell :=
  match n, l with
  | 0, [] => [v]
  | 0, _ :: t => v :: t
  | S k, [] => NaN :: set_nth k v []
  | S k, x :: t => x :: set_nth k v t
  end.

(** [df.loc[df['Parameter'] == param, 'Value'] = value] on the content of
    a frame: a [KeyError] without a [Parameter] column; a [Value] column
    is added when there is none. *)
Definition assigned (df : DataFrame) (param value : string) : result DataFrame :=
  match index_of "Parameter" (columns df) with
  | None => Raise (KeyError "Parameter")
  | Some p =>
      let '(cols, v) :=
        match index_of "Value" (columns df) with
        | Some v => (columns df, v)
        | None => ((columns df ++ ["Value"])%list, length (columns df))
        end in
      let assign cells :=
        if eq_str (nth p cells NaN) param then set_nth v (Str value) cells
        else cells in
      Ok (mkDataFrame cols (map assign (data df)))
  end.

(** The assignment itself, in place on the object behind [ref]. *)
Definition loc_assign (ref : nat) (param value : string) : M unit :=
  df <~ load ref ;;
  df' <~ lift (assigned df param value) ;;
  modify ref (fun _ => df').

Notation "' pat <~ m ;; k" := (bindM m (fun x => match x with pat => k end))
  (at level 61, pat pattern, m at next level, right associativity) : py_scope.

(* ===================================================================== *)
(** * Core config builder, called once per switch *)
(* ===================================================================== *)

Definition newline : string := String (ascii_of_nat 10) EmptyString.

(** [x in l] for strings *)
Definition mem (x : string) (l : list string) : bool :=
  existsb (String.eqb x) l.

Definition header (serial_number hostname mgmt_ip : string) : list string :=
  [ "# Juniper EX Switch Configuration";
    "# Generated from Excel template";
    "# Switch Serial Number: " ++ serial_number;
    "# Hostname           : " ++ hostname;
    "# Management IP      : " ++ mgmt_ip;
    PyStr.times "#" 60;
    "" ].

(** The dictionary [sheet_handlers] of [build_config]. *)
Definition sheet_handlers (sheet_name : string)
  : option (DataFrame -> result (list string)) :=
  if sheet_name =? "NTP" then Some generate_ntp_config
  else if sheet_name =? "Syslog" then Some generate_syslog_config
  else if sheet_name =? "TACACS" then Some generate_tacacs_config
  else if sheet_name =? "VLANs" then Some generate_vlan_config
  else if sheet_name =? "IRB_Interfaces" then Some generate_irb_config
  else if sheet_name =? "Interfaces" then Some generate_interface_config
  else if sheet_name =? "Hardening" then Some generate_hardening_config
  else if sheet_name =? "SNMP" then Some generate_snmp_config
  else None.

(** The [System] sheet with the per-device values written into it. *)
Definition system_section (serial_number hostname : string)
    (all_commands : list string) : M (list string) :=
  names <~ sheet_names ;;
  if mem "System" names then
    df <~ read_excel "System" ;;
    loc_assign df "hostname" hostname ;;;
    loc_assign df "serial_number" serial_number ;;;
    d <~ load df ;;
    '(system_cmds, _) <~ lift (generate_system_config d) ;;
    ret (all_commands ++ system_cmds)%list
  else ret all_commands.

(** The body of [for sheet_name in xls.sheet_names]. *)
Definition handled_sheet (sheet_name : string) (all_commands : list string)
  : M (list string) :=
  match sheet_handlers sheet_name with
  | Some handler =>
      df <~ read_excel sheet_name ;;
      d <~ load df ;;
      cmds <~ lift (handler d) ;;
      ret (all_commands ++ cmds)%list
  | None => ret all_commands
  end.

(** The [Management] sheet with the per-device address. *)
Definition management_section (mgmt_ip : string) (all_commands : list string)
  : M (list string) :=
  names <~ sheet_names ;;
  if mem "Management" names then
    df <~ read_excel "Management" ;;
    d <~ load df ;;
    cmds <~ lift (generate_management_config d (Some mgmt_ip)) ;;
    ret (all_commands ++ cmds)%list
  else ret all_commands.

(** [build_config(xls, ...)] up to the final [join]; the workbook [xls] is
    the [sheets] of the world. *)
Definition build_config_lines (serial_number hostname mgmt_ip : string)
  : M (list string) :=
  let all_commands := header serial_number hostname mgmt_ip in
  all_commands <~ system_section serial_number hostname all_commands ;;
  names <~ sheet_names ;;
  all_commands <~ foldW handled_sheet names all_commands ;;
  management_section mgmt_ip all_commands.

Definition build_config (serial_number hostname mgmt_ip : string) : M string :=
  all_commands <~ build_config_lines serial_number hostname mgmt_ip ;;
  ret (PyStr.join newline all_commands).

(* ===================================================================== *)
(** * Entry point *)
(* ===================================================================== *)

(** A Python [dict] from strings to strings. *)
Definition dict : Type := list (string * string).

Fixpoint dict_get (key : string) (d : dict) : option string :=
  match d with
  | [] => None
  | (k, v) :: t => if String.eqb k key then Some v else dict_get key t
  end.

(** [d[key] = value] *)
Fixpoint dict_set (key value : string) (d : dict) : dict :=
  match d with
  | [] => [(key, value)]
  | (k, v) :: t =>
      if String.eqb k key then (k, value) :: t else (k, v) :: dict_set key value t
  end.

(** [d[key]] *)
Definition dict_getitem (d : dict) (key : string) : result string :=
  match dict_get key d with
  | Some v => Ok v
  | None => Raise (KeyError key)
  end.

(** [key in d] *)
Definition dict_mem (key : string) (d : dict) : bool :=
  match dict_get key d with Some _ => true | None => false end.

(** The body of the column detection loop. *)
Definition detect_column (col_map : dict) (col : string) : dict :=
  let lc := PyStr.replace " " "_" (PyStr.lower col) in
  if PyStr.contains "serial" lc then dict_set "serial" col col_map
  else if PyStr.contains "host" lc then dict_set "hostname" col col_map
  else if existsb (fun k => PyStr.contains k lc) ["ip"; "mgmt"; "management"]
  then dict_set "mgmt_ip" col col_map
  else col_map.

Definition detect_columns (cols : list string) : dict :=
  fold_left detect_column cols [].

Definition missing_columns (col_map : dict) : list string :=
  filter (fun k => negb (dict_mem k col_map)) ["serial"; "hostname"; "mgmt_ip"].

(** [not serial or serial.lower() in ('nan', 'serial number', '#', '')] *)
Definition placeholder (serial : string) : bool :=
  (serial =? "") || mem (PyStr.lower serial) ["nan"; "serial number"; "#"; ""].

(** [str(row[col_map[key]]).strip()] *)
Definition inventory_field (col_map : dict) (r : row) (key : string) : result string :=
  col <- dict_getitem col_map key ;;
  c <- getitem r col ;;
  Ok (PyStr.strip (py_str c)).

(** The body of the loop over the inventory rows. *)
Definition inventory_row (col_map : dict) (r : row) (generated : list string)
  : M (list string) :=
  serial <~ lift (inventory_field col_map r "serial") ;;
  hostname <~ lift (inventory_field col_map r "hostname") ;;
  mgmt_ip <~ lift (inventory_field col_map r "mgmt_ip") ;;
  if placeholder serial then ret generated
  else
    config_text <~ build_config serial hostname mgmt_ip ;;
    let out_file := serial ++ ".cfg" in
    write_text out_file config_text ;;;
    print (Generated out_file hostname mgmt_ip) ;;;
    ret (generated ++ [out_file])%list.

(** Inventory mode: one [.cfg] per row.  The [Inventory] entry of
    [sheets] is the frame that [read_excel] parses with [header=1]. *)
Definition inventory_mode : M (option (list string)) :=
  df_inv <~ read_excel "Inventory" ;;
  modify df_inv (fun df => mkDataFrame (map PyStr.strip (columns df)) (data df)) ;;;
  d <~ load df_inv ;;
  let col_map := detect_columns (columns d) in
  match missing_columns col_map with
  | [] =>
      generated <~ foldW (inventory_row col_map) (iterrows d) [] ;;
      print (Summary (length generated)) ;;;
      ret (Some generated)
  | missing =>
      print (MissingColumns missing) ;;;
      print (FoundColumns (columns d)) ;;;
      ret None
  end.

(** The body of the loop of the legacy mode over the [System] rows. *)
Definition legacy_row (r : row) (acc : option string * option string)
  : result (option string * option string) :=
  let '(serial, hostname) := acc in
  p <- getitem r "Parameter" ;;
  serial <-
    (if eq_str p "serial_number" then
       v <- getitem r "Value" ;;
       Ok (if notna v then Some (PyStr.strip (py_str v)) else serial)
     else Ok serial) ;;
  p <- getitem r "Parameter" ;;
  hostname <-
    (if eq_str p "hostname" then
       v <- getitem r "Value" ;;
       Ok (if notna v then Some (PyStr.strip (py_str v)) else hostname)
     else Ok hostname) ;;
  Ok (serial, hostname).

(** [df.empty] *)
Definition empty (df : DataFrame) : bool :=
  (length (data df) =? 0)%nat || (length (columns df) =? 0)%nat.

(** Legacy single file mode (no [Inventory] sheet). *)
Definition legacy_mode : M (option (list string)) :=
  df_sys <~ read_excel "System" ;;
  d <~ load df_sys ;;
  '(serial, hostname) <~ lift (foldM legacy_row (iterrows d) (None, None)) ;;
  names <~ sheet_names ;;
  mgmt_ip <~
    (if mem "Management" names then
       df_m <~ read_excel "Management" ;;
       m <~ load df_m ;;
       if negb (empty m) then
         c <~ lift (getitem (hd [] (iterrows m)) "IP Address") ;;
         ret (if notna c then py_str c else "0.0.0.0")
       else ret "0.0.0.0"
     else ret "0.0.0.0") ;;
  config_text <~
    build_config (if truthy serial then value_of serial else "UNKNOWN")
                 (if truthy hostname then value_of hostname else "unknown")
                 mgmt_ip ;;
  let out_name :=
    if truthy serial then value_of serial ++ ".cfg"
    else if truthy hostname then value_of hostname ++ ".cfg"
    else "switch.cfg" in
  write_text out_name config_text ;;;
  print (Written out_name) ;;;
  ret (Some [out_name]).

(** [convert_excel_to_junos(excel_file, output_dir)] for a workbook that
    exists; [None] is the value of a bare [return] and of falling off the
    [except] clause. *)
Definition convert_excel_to_junos : M (option (list string)) :=
  try_except
    (names <~ sheet_names ;;
     if mem "Inventory" names then inventory_mode else legacy_mode)
    (fun e => print (Error e) ;;; ret None).

(* ===================================================================== *)
(** * The V3 script ([OOB-Config-Gen/V3]) *)
(* ===================================================================== *)

(** The V3 script has the same generators, except that its interface
    generator tests the VLANs text against the empty string only and that
    its management generator has no override argument. *)
Module V3.

Definition generate_interface_config (df : DataFrame) : result (list string) :=
  commands <-
    foldM (interface_row vlans_given_v3) (iterrows df)
      ["# Interface Configuration"] ;;
  Ok (append commands "").

Definition generate_management_config (df : DataFrame) : result (list string) :=
  commands <-
    foldM (management_row None) (iterrows df)
      ["# Management Interface Configuration"] ;;
  Ok (append commands "").

Definition sheet_handlers (sheet_name : string)
  : option (DataFrame -> result (list string)) :=
  if sheet_name =? "NTP" then Some generate_ntp_config
  else if sheet_name =? "Syslog" then Some generate_syslog_config
  else if sheet_name =? "TACACS" then Some generate_tacacs_config
  else if sheet_name =? "VLANs" then Some generate_vlan_config
  else if sheet_name =? "IRB_Interfaces" then Some generate_irb_config
  else if sheet_name =? "Interfaces" then Some generate_interface_config
  else if sheet_name =? "Management" then Some generate_management_config
  else if sheet_name =? "Hardening" then Some generate_hardening_config
  else if sheet_name =? "SNMP" then Some generate_snmp_config
  else None.

(** Truth value of a cell ([if serial_number:]). *)
Definition cell_truthy (c : option cell) : bool :=
  match c with
  | None => false
  | Some NaN => true
  | Some (Str s) => negb (s =? "")
  | Some (Int z) => negb (z =? 0)%Z
  end.

Definition cell_text (c : option cell) : string :=
  match c with
  | None => "None"
  | Some c => py_str c
  end.

(** The loop that extracts the host name for the file name. *)
Definition hostname_row (r : row) (hostname : option cell) : result (option cell) :=
  p <- getitem r "Parameter" ;;
  if eq_str p "hostname" then
    v <- getitem r "Value" ;;
    Ok (if notna v then Some v else hostname)
  else Ok hostname.

(** The [System] sheet, processed first: the commands when the sheet is
    there ([system_commands] is not assigned otherwise), the serial
    number and the host name. *)
Definition system_first
  : M (option (list string) * option cell * option cell) :=
  names <~ sheet_names ;;
  if mem "System" names then
    df_system <~ read_excel "System" ;;
    d <~ load df_system ;;
    '(system_commands, serial_number) <~ lift (generate_system_config d) ;;
    hostname <~ lift (foldM hostname_row (iterrows d) None) ;;
    ret (Some system_commands, serial_number, hostname)
  else ret (None, None, None).

Definition handled_sheet (sheet_name : string) (all_commands : list string)
  : M (list string) :=
  match sheet_handlers sheet_name with
  | Some handler =>
      df <~ read_excel sheet_name ;;
      d <~ load df ;;
      commands <~ lift (handler d) ;;
      ret (all_commands ++ commands)%list
  | None => ret all_commands
  end.

(** The lines of the document, with the serial number and the host name
    found in the [System] sheet. *)
Definition config_lines : M (list string * option cell * option cell) :=
  '(system_commands, serial_number, hostname) <~ system_first ;;
  let all_commands :=
    [ "# Juniper EX Switch Configuration";
      "# Generated from Excel template" ] in
  let all_commands :=
    if cell_truthy serial_number then
      append all_commands ("# Switch Serial Number: " ++ cell_text serial_number)
    else all_commands in
  let all_commands := append (append all_commands (PyStr.times "#" 60)) "" in
  all_commands <~
    (match system_commands with
     | Some system_commands => ret (all_commands ++ system_commands)%list
     | None => raise (UnboundLocalError "system_commands")
     end) ;;
  names <~ sheet_names ;;
  all_commands <~ foldW handled_sheet names all_commands ;;
  ret (all_commands, serial_number, hostname).

(** [convert_excel_to_junos(excel_file, output_file)] for a workbook
    that exists. *)
Definition convert_excel_to_junos (output_file : option string)
  : M (option (string * option string)) :=
  try_except
    ('(all_commands, serial_number, hostname) <~ config_lines ;;
     let config_text := PyStr.join newline all_commands in
     let final_output_file :=
       if truthy output_file then output_file
       else if cell_truthy serial_number then
         Some (cell_text serial_number ++ ".cfg")
       else if cell_truthy hostname then
         Some (cell_text hostname ++ ".cfg")
       else None in
     (if truthy final_output_file then
        write_text (value_of final_output_file) config_text ;;;
        print (Written (value_of final_output_file))
      else print (ConfigText config_text)) ;;;
     ret (Some (config_text, final_output_file)))
    (fun e => print (Error e) ;;; ret None).

End V3.

(* ===================================================================== *)
(** * The Jinja2 generator ([OOB-Jinja2/generate_configs.py]) *)
(* ===================================================================== *)

Module Jinja.

(** A device entry of the YAML file. *)
Definition device : Type := dict.

(** A loaded template: rendering it with a context gives text or raises. *)
Definition template : Type := device -> result string.

(** The Jinja2 environment: [env.get_template(filename)]. *)
Definition environment : Type := string -> result template.

(** What [datetime.now()] returns. *)
Record datetime : Type := mkDatetime {
  year : nat; month : nat; day : nat;
  hour : nat; minute : nat; second : nat
}.

Definition digits (width n : nat) : string :=
  let s := PyStr.of_Z (Z.of_nat n) in
  PyStr.times "0" (width - String.length s) ++ s.

(** [t.strftime("%Y-%m-%d %H:%M:%S")] *)
Definition strftime (t : datetime) : string :=
  digits 4 (year t) ++ "-" ++ digits 2 (month t) ++ "-" ++ digits 2 (day t)
    ++ " " ++ digits 2 (hour t) ++ ":" ++ digits 2 (minute t)
    ++ ":" ++ digits 2 (second t).

(** [render_template]: [None] when the template is not found or when
    rendering raises (the log records are not modelled). *)
Definition render_template (env : environment) (template_name : string)
    (context : device) : result (option string) :=
  let filename := template_name ++ ".j2" in
  match env filename with
  | Raise (TemplateNotFound _) => Ok None
  | Raise e => Raise e
  | Ok tmpl =>
      match tmpl context with
      | Ok text => Ok (Some text)
      | Raise _ => Ok None
      end
  end.

Definition header (serial model hostname now_str : string) : string :=
  "# ============================================================" ++ newline
    ++ "# Device  : " ++ serial ++ newline
    ++ "# Model   : " ++ model ++ newline
    ++ "# Host    : " ++ hostname ++ newline
    ++ "# Generated: " ++ now_str ++ newline
    ++ "# ============================================================"
    ++ newline ++ newline.

(** The body of the loop over the template names. *)
Definition section (env : environment) (device_ : device)
    (tmpl_name : string) (sections : list string) : result (list string) :=
  rendered <- render_template env tmpl_name device_ ;;
  if truthy rendered then
    let sections :=
      append sections
        ("# ---- " ++ PyStr.replace "_" " " (PyStr.upper tmpl_name) ++ " "
           ++ PyStr.times "─" (Nat.max 0 (50 - String.length tmpl_name))
           ++ " #" ++ newline) in
    Ok (append sections (PyStr.strip (value_of rendered) ++ newline ++ newline))
  else Ok sections.

(** [generate_device_config(device, env, template_names)], with the
    clock reading [now] that the call takes. *)
Definition generate_device_config (device_ : device) (env : environment)
    (template_names : list string) (now : datetime) : result string :=
  serial <- dict_getitem device_ "serial" ;;
  model <- dict_getitem device_ "model" ;;
  let now_str := strftime now in
  let hostname :=
    match dict_get "hostname" device_ with Some h => h | None => "N/A" end in
  let header := header serial model hostname now_str in
  sections <- foldM (section env device_) template_names [header] ;;
  Ok (PyStr.join "" sections).

End Jinja.

(* ===================================================================== *)
(** * The assembly as a function of the workbook *)
(* ===================================================================== *)

(** What [build_config] computes, written as a function of the workbook
    content and of the three per-device values; [build_config_lines] is
    compared with it below. *)

Definition system_part (wb : list (string * DataFrame))
    (serial_number hostname : string) : result (list string) :=
  match find_sheet "System" wb with
  | Some df =>
      df <- assigned df "hostname" hostname ;;
      df <- assigned df "serial_number" serial_number ;;
      '(system_cmds, _) <- generate_system_config df ;;
      Ok system_cmds
  | None => Ok []
  end.

Definition handled_part (wb : list (string * DataFrame)) (sheet_name : string)
    (all_commands : list string) : result (list string) :=
  match sheet_handlers sheet_name with
  | Some handler =>
      match find_sheet sheet_name wb with
      | Some df => cmds <- handler df ;; Ok (all_commands ++ cmds)%list
      | None =>
          Raise (ValueError ("Worksheet named '" ++ sheet_name ++ "' not found"))
      end
  | None => Ok all_commands
  end.

Definition management_part (wb : list (string * DataFrame)) (mgmt_ip : string)
  : result (list string) :=
  match find_sheet "Management" wb with
  | Some df => generate_management_config df (Some mgmt_ip)
  | None => Ok []
  end.

(** Header, then [System], then the handled sheets in workbook order,
    then [Management]. *)
Definition assemble (wb : list (string * DataFrame))
    (serial_number hostname mgmt_ip : string) : result (list string) :=
  system_cmds <- system_part wb serial_number hostname ;;
  handled_cmds <- foldM (handled_part wb) (map fst wb) [] ;;
  management_cmds <- management_part wb mgmt_ip ;;
  Ok (header serial_number hostname mgmt_ip
        ++ system_cmds ++ handled_cmds ++ management_cmds)%list.

(** Two worlds that differ in their [DataFrame] objects only. *)
Definition same_outside_heap (w w' : world) : Prop :=
  sheets w' = sheets w /\ files w' = files w /\ stdout w' = stdout w.

(** The same for the V3 script: its document, with the serial number and
    the host name that name the output file. *)
Definition handled_part_v3 (wb : list (string * DataFrame)) (sheet_name : string)
    (all_commands : list string) : result (list string) :=
  match V3.sheet_handlers sheet_name with
  | Some handler =>
      match find_sheet sheet_name wb with
      | Some df => cmds <- handler df ;; Ok (all_commands ++ cmds)%list
      | None =>
          Raise (ValueError ("Worksheet named '" ++ sheet_name ++ "' not found"))
      end
  | None => Ok all_commands
  end.

Definition serial_line_v3 (serial_number : option cell) : list string :=
  if V3.cell_truthy serial_number
  then ["# Switch Serial Number: " ++ V3.cell_text serial_number]
  else [].

Definition header_v3 (serial_number : option cell) : list string :=
  ([ "# Juniper EX Switch Configuration"; "# Generated from Excel template" ]
     ++ serial_line_v3 serial_number
     ++ [ PyStr.times "#" 60; "" ])%list.

Definition assemble_v3 (wb : list (string * DataFrame))
  : result (list string * option cell * option cell) :=
  match find_sheet "System" wb with
  | Some df =>
      '(system_commands, serial_number) <- generate_system_config df ;;
      hostname <- foldM V3.hostname_row (iterrows df) None ;;
      handled_commands <- foldM (handled_part_v3 wb) (map fst wb) [] ;;
      Ok ((header_v3 serial_number ++ system_commands ++ handled_commands)%list,
          serial_number, hostname)
  | None => Raise (UnboundLocalError "system_commands")
  end.

(** The order in which the dictionary [sheet_handlers] is written. *)
Definition declared_order : list string :=
  ["NTP"; "Syslog"; "TACACS"; "VLANs"; "IRB_Interfaces"; "Interfaces";
   "Hardening"; "SNMP"].

(** The assembly that walks the handled domains in the declared order,
    taking those that the workbook has. *)
Definition assemble_in_declared_order (wb : list (string * DataFrame))
    (serial_number hostname mgmt_ip : string) : result (list string) :=
  system_cmds <- system_part wb serial_number hostname ;;
  handled_cmds <-
    foldM (handled_part wb)
      (filter (fun name => mem name (map fst wb)) declared_order) [] ;;
  management_cmds <- management_part wb mgmt_ip ;;
  Ok (header serial_number hostname mgmt_ip
        ++ system_cmds ++ handled_cmds ++ management_cmds)%list.

(* ===================================================================== *)
(** * Sample workbooks *)
(* ===================================================================== *)

Module Sample.

Definition system : DataFrame :=
  mkDataFrame ["Parameter"; "Value"]
    [ [Str "hostname"; Str ""];
      [Str "serial_number"; Str ""];
      [Str "domain_name"; Str "example.com"] ].

Definition ntp : DataFrame :=
  mkDataFrame ["NTP Server"; "Prefer"]
    [ [Str "10.0.0.5"; Str "yes"] ].

Definition snmp : DataFrame :=
  mkDataFrame ["Community/User"; "Type"; "Authorization"; "Privacy"; "Access"]
    [ [Str "public"; Str "community"; NaN; NaN; Str "read-only"] ].

Definition management : DataFrame :=
  mkDataFrame ["Interface"; "IP Address"; "Prefix Length"; "Gateway"]
    [ [Str "me0"; Str "192.168.1.1"; Int 24; Str "192.168.1.254"] ].

(** A workbook whose [SNMP] sheet comes before its [NTP] sheet. *)
Definition snmp_before_ntp : world :=
  mkWorld [("SNMP", snmp); ("NTP", ntp)] [] [] [].

End Sample.

Module SampleJinja.

Definition device : Jinja.device := [("serial", "FW3523AB0001"); ("model", "EX4100")].

(** An environment with one template, [ntp.j2]. *)
Definition env : Jinja.environment :=
  fun filename =>
    if filename =? "ntp.j2" then
      Ok (fun context =>
            serial <- dict_getitem context "serial" ;;
            Ok ("set system ntp server 10.0.0.5" ++ newline))
    else Raise (TemplateNotFound filename).

Definition midnight : Jinja.datetime := Jinja.mkDatetime 2024 1 1 0 0 0.
Definition one_second_later : Jinja.datetime := Jinja.mkDatetime 2024 1 1 0 0 1.

End SampleJinja.

Module SampleJinjaDocuments.

Definition document (now : Jinja.datetime) : string :=
  match
    Jinja.generate_device_config SampleJinja.device SampleJinja.env ["ntp"] now
  with
  | Ok doc => doc
  | Raise _ => ""
  end.

Definition at_midnight : string :=
  Eval vm_compute in document SampleJinja.midnight.

Definition one_second_later : string :=
  Eval vm_compute in document SampleJinja.one_second_later.

(** The world of [Sample.snmp_before_ntp] after some earlier work. *)
Definition used_world : world :=
  mkWorld (sheets Sample.snmp_before_ntp) [Sample.ntp; Sample.snmp]
    [("OLD.cfg", "# old")] [Summary 1].

End SampleJinjaDocuments.

(* ===================================================================== *)
(** * The domains and their discriminator fields *)
(* ===================================================================== *)

Inductive domain : Type :=
| System | NTP | Syslog | TACACS | VLANs | IRB_Interfaces | Interfaces
| Management | Hardening | SNMP.

(** The lines that the generator of a domain returns. *)
Definition mapper (d : domain) (override_ip : option string) (df : DataFrame)
  : result (list string) :=
  match d with
  | System => '(commands, _) <- generate_system_config df ;; Ok commands
  | NTP => generate_ntp_config df
  | Syslog => generate_syslog_config df
  | TACACS => generate_tacacs_config df
  | VLANs => generate_vlan_config df
  | IRB_Interfaces => generate_irb_config df
  | Interfaces => generate_interface_config df
  | Management => generate_management_config df override_ip
  | Hardening => generate_hardening_config df
  | SNMP => generate_snmp_config df
  end.

(** The field whose blankness makes a generator pass over a row. *)
Definition discriminator (d : domain) : string :=
  match d with
  | System => "Value"
  | NTP => "NTP Server"
  | Syslog => "Syslog Server"
  | TACACS => "TACACS Server"
  | VLANs => "VLAN ID"
  | IRB_Interfaces => "Interface"
  | Interfaces => "Interface"
  | Management => "Interface"
  | Hardening => "Feature"
  | SNMP => "Community/User"
  end.

(** The columns that a generator reads with [row[...]], which raises when
    the column does not exist. *)
Definition mandatory (d : domain) (override_ip : option string) : list string :=
  match d with
  | System => ["Parameter"; "Value"]
  | NTP => ["NTP Server"]
  | Syslog => ["Syslog Server"]
  | TACACS => ["TACACS Server"; "Secret"]
  | VLANs => ["VLAN ID"; "VLAN Name"]
  | IRB_Interfaces => ["Interface"; "IP Address"; "Prefix Length"]
  | Interfaces => ["Interface"; "Mode"]
  | Management =>
      if truthy override_ip then ["Interface"; "Prefix Length"]
      else ["Interface"; "IP Address"; "Prefix Length"]
  | Hardening => ["Feature"; "Setting"]
  | SNMP => ["Community/User"; "Type"]
  end.

Definition domain_header (d : domain) : string :=
  match d with
  | System => "# System Configuration"
  | NTP => "# NTP Configuration"
  | Syslog => "# Syslog Configuration"
  | TACACS => "# TACACS+ Configuration"
  | VLANs => "# VLAN Configuration"
  | IRB_Interfaces => "# IRB Interface Configuration"
  | Interfaces => "# Interface Configuration"
  | Management => "# Management Interface Configuration"
  | Hardening => "# Security Hardening Configuration"
  | SNMP => "# SNMP Configuration"
  end.

(** A blank cell: nothing in it, or the empty text. *)
Definition blank (c : cell) : bool :=
  match c with
  | NaN => true
  | Str s => s =? ""
  | Int _ => false
  end.

(** The cells of a row of a frame with the columns [cols] have a blank
    discriminator field. *)
Definition blank_at (d : domain) (cols : list string) (cells : list cell) : bool :=
  match lookup (discriminator d) (label cols cells) with
  | Some c => blank c
  | None => false
  end.

(* ===================================================================== *)
(** * Inventory records *)
(* ===================================================================== *)

(** A serial cell that is blank or holds a placeholder: an empty cell,
    text that is empty once stripped, or text that reads, once stripped
    and whatever its case, [serial number] or [#]. *)
Definition blank_or_placeholder (c : cell) : bool :=
  match c with
  | NaN => true
  | Str s =>
      (PyStr.strip s =? "")
      || mem (PyStr.lower (PyStr.strip s)) ["serial number"; "#"]
  | Int _ => false
  end.

(** The assignment of [assigned] on the cells of one row, [p] and [v]
    being the positions of the [Parameter] and [Value] columns. *)
Definition assign_row (p v : nat) (param value : string) (cells : list cell)
  : list cell :=
  if eq_str (nth p cells NaN) param then set_nth v (Str value) cells else cells.

(** A world in which nothing has happened yet. *)
Definition pristine (wb : list (string * DataFrame)) : world :=
  mkWorld wb [] [] [].

Module SampleInventory.

Definition col_map : dict :=
  [("serial", "Serial Number"); ("hostname", "Hostname"); ("mgmt_ip", "Mgmt IP")].

Definition labelled (serial hostname mgmt_ip : cell) : row :=
  [("Serial Number", serial); ("Hostname", hostname); ("Mgmt IP", mgmt_ip)].

Definition inventory : DataFrame :=
  mkDataFrame ["#"; " Serial Number"; "Hostname "; "Mgmt IP"]
    [ [Int 1; Str "ABC123"; Str "sw1"; Str "10.0.0.1"];
      [Int 2; NaN; Str "sw2"; Str "10.0.0.2"];
      [Int 3; Str "XYZ789"; NaN; Str "10.0.0.3"] ].

(** The third record of [inventory], as the loop sees it once the column
    names are stripped: its host name cell is blank. *)
Definition third_record : row :=
  labelled (Str "XYZ789") NaN (Str "10.0.0.3").

(** A workbook with an inventory and three shared sheets. *)
Definition workbook : list (string * DataFrame) :=
  [ ("Inventory", inventory); ("System", Sample.system);
    ("NTP", Sample.ntp); ("Management", Sample.management) ].

(** An inventory without a column for the management address. *)
Definition without_address : DataFrame :=
  mkDataFrame ["Serial Number"; "Hostname"; "Model"]
    [ [Str "ABC123"; Str "sw1"; Str "EX4100"] ].

End SampleInventory.

Module SampleDocuments.

(** The document of the third switch of [SampleInventory.inventory],
    built on the workbook alone. *)
Definition third_switch : string :=
  Eval vm_compute in
    match
      fst (build_config "XYZ789" "nan" "10.0.0.3"
             (pristine SampleInventory.workbook))
    with
    | Ok text => text
    | Raise _ => ""
    end.

(** The workbook after earlier work: objects on the heap, a file, output. *)
Definition used_world : world :=
  mkWorld SampleInventory.workbook [Sample.system; Sample.ntp]
    [("OLD.cfg", "# old")] [Summary 1].

End SampleDocuments.

(* ===================================================================== *)
(** * SNMP rows without a colon *)
(* ===================================================================== *)

(** A cell that the SNMP generator splits at the first colon although it
    has none: a non-empty text without a colon. *)
Definition colonless (c : cell) : bool :=
  match c with
  | Str s => negb (s =? "") && negb (PyStr.has_char ":" s)
  | _ => false
  end.

(** A row of type [v3-user], with a name, whose [Authorization] or
    [Privacy] value has no colon. *)
Definition malformed_v3_user (r : row) : bool :=
  match lookup "Community/User" r, lookup "Type" r with
  | Some name, Some snmp_type =>
      filled name && eq_str snmp_type "v3-user"
      && (colonless (get r "Authorization" (Str ""))
          || colonless (get r "Privacy" (Str "")))
  | _, _ => false
  end.

Module SampleSnmp.

Definition columns_ : list string :=
  ["Community/User"; "Type"; "Authorization"; "Privacy"; "Access"].

Definition community : list cell :=
  [Str "public"; Str "community"; NaN; NaN; Str "read-only"].

Definition malformed : list cell :=
  [Str "admin3"; Str "v3-user"; Str "invalidnocolon"; NaN; NaN].

Definition inventory : DataFrame :=
  mkDataFrame ["Serial Number"; "Hostname"; "Mgmt IP"]
    [ [Str "ABC123"; Str "sw1"; Str "10.0.0.1"];
      [Str "XYZ789"; Str "sw2"; Str "10.0.0.2"] ].

(** Two switches and an SNMP sheet with the given rows. *)
Definition workbook (snmp_rows : list (list cell)) : list (string * DataFrame) :=
  [ ("Inventory", inventory); ("System", Sample.system);
    ("SNMP", mkDataFrame columns_ snmp_rows) ].

End SampleSnmp.

(** A computation that leaves the workbook and the output directory as
    they are. *)
Definition quiet {A} (m : M A) : Prop :=
  forall w, sheets (snd (m w)) = sheets w /\ files (snd (m w)) = files w.

(** A computation that, on the workbook [wb], raises without having
    written a file. *)
Definition fails_quietly {A} (wb : list (string * DataFrame)) (m : M A) : Prop :=
  forall w,
    sheets w = wb ->
    is_ok (fst (m w)) = false /\ files (snd (m w)) = files w.

(** What a run leaves to be seen: the value it returns, the files it has
    written and what it has printed. *)
Definition outcome {A} (run : result A * world)
  : result A * list (string * string) * list message :=
  (fst run, files (snd run), stdout (snd run)).

(** A world whose workbook has the inventory frame [inventory] as its
    first sheet of that name. *)
Definition with_inventory (sheets_before sheets_after : list (string * DataFrame))
    (inventory : DataFrame) (objects : list DataFrame)
    (written : list (string * string)) (printed : list message) : world :=
  mkWorld (sheets_before ++ ("Inventory", inventory) :: sheets_after)%list
    objects written printed.

(** Two workbooks with the same sheet names that differ at most in the
    frame of their [Inventory] sheet. *)
Definition same_but_inventory (wb wb' : list (string * DataFrame)) : Prop :=
  map fst wb = map fst wb'
  /\ forall name, name <> "Inventory" -> find_sheet name wb = find_sheet name wb'.

(* ===================================================================== *)
(** * Further notions about the generators *)
(* ===================================================================== *)

(** The domains whose generator calls no [str] method on a cell and
    unpacks nothing: their loop body only reads cells and formats them. *)
Definition reads_only (d : domain) : bool :=
  match d with
  | NTP | Syslog | TACACS | VLANs | Interfaces | Management => true
  | System | IRB_Interfaces | Hardening | SNMP => false
  end.

(** The lines of a section between its header comment and its closing
    empty line. *)
Definition body_of (lines : list string) : list string :=
  removelast (tl lines).

(** What the rows of a [Hardening] frame contribute: the commands that go
    right under the header and the screen commands. *)
Definition hardening_parts (df : DataFrame) : result (list string * list string) :=
  foldM hardening_row (iterrows df) ([], []).

(** The section made of these two parts: the screen commands, when there
    are any, come last under a heading of their own. *)
Definition hardening_lines (commands screen_commands : list string) : list string :=
  ("# Security Hardening Configuration" :: commands
     ++ match screen_commands with
        | [] => []
        | _ => "" :: "# IDS Screen Configuration" :: screen_commands
        end
     ++ [""])%list.

Module SampleLines.

(** The lines of the document of the third switch of the sample
    inventory. *)
Definition third_switch : list string :=
  Eval vm_compute in
    match
      fst (build_config_lines "XYZ789" "nan" "10.0.0.3"
             (pristine SampleInventory.workbook))
    with
    | Ok lines => lines
    | Raise _ => []
    end.

End SampleLines.

(* ===================================================================== *)
(** * Further notions about a run *)
(* ===================================================================== *)

(** The name of an output file: a stem that is not empty, then [.cfg]. *)
Definition cfg_name (name : string) : Prop :=
  exists stem, stem <> "" /\ name = stem ++ ".cfg".

(** A computation that writes no file and prints nothing, and leaves the
    workbook as it is. *)
Definition silent {A} (m : M A) : Prop :=
  forall w, same_outside_heap w (snd (m w)).

(** Whether the detection loop files the column [col] under [key]. *)
Definition taken_for (key col : string) : bool :=
  match dict_get key (detect_column [] col) with
  | Some _ => true
  | None => false
  end.

(* ===================================================================== *)
(** * The Jinja2 generator: loading the devices and the main loop *)
(* ===================================================================== *)

Module JinjaMain.

(** How a function that may call [sys.exit] ends. *)
Inductive ending (A : Type) : Type :=
| Returns (a : A)
| Exits (code : nat).

Arguments Returns {A} a.
Arguments Exits {A} code.

(** The validation loop of [load_devices]: a device without a [serial]
    stops the program, a device without a [model] gets [EX4100]. *)
Fixpoint validate (devices : list Jinja.device) : ending (list Jinja.device) :=
  match devices with
  | [] => Returns []
  | dev :: rest =>
      if negb (dict_mem "serial" dev) then Exits 1
      else
        let dev :=
          if negb (dict_mem "model" dev) then dict_set "model" "EX4100" dev
          else dev in
        match validate rest with
        | Returns rest => Returns (dev :: rest)
        | Exits code => Exits code
        end
  end.

(** [load_devices(devices_file)] for a file that exists, [devices] being
    [data.get("devices", [])] (the log records are not modelled). *)
Definition load_devices (devices : list Jinja.device)
  : ending (list Jinja.device) :=
  match devices with
  | [] => Exits 1
  | _ => validate devices
  end.

(** [write_config(output_dir, serial, config)], the file name being
    relative to the output directory. *)
Definition write_config (serial config : string) : M string :=
  let out_file := serial ++ ".conf" in
  write_text out_file config ;;;
  ret out_file.

(** The arguments of the command line that [main] reads, the paths
    apart. *)
Record args : Type := mkArgs {
  serial : option string;
  templates_list : list string;
  dry_run : bool
}.

(** [[d for d in devices if d["serial"] == args.serial]] *)
Fixpoint select (wanted : string) (devices : list Jinja.device)
  : result (list Jinja.device) :=
  match devices with
  | [] => Ok []
  | d :: rest =>
      s <- dict_getitem d "serial" ;;
      rest <- select wanted rest ;;
      Ok (if s =? wanted then d :: rest else rest)
  end.

(** The body of the loop of [main] over the devices, with the clock
    reading [now] that [generate_device_config] takes; [results] holds
    the lists [results["ok"]] and [results["failed"]]. *)
Definition device_step (a : args) (env : Jinja.environment)
    (device_now : Jinja.device * Jinja.datetime)
    (results : list string * list string) : M (list string * list string) :=
  let '(device_, now) := device_now in
  let '(ok, failed) := results in
  serial <~ lift (dict_getitem device_ "serial") ;;
  config <~ lift (Jinja.generate_device_config device_ env (templates_list a) now) ;;
  if dry_run a then
    print (ConfigText (newline ++ PyStr.times "═" 60)) ;;;
    print (ConfigText config) ;;;
    ret (ok, failed)
  else
    out_file <~ write_config serial config ;;
    ret ((ok ++ [serial])%list, failed).

(** [main()], with the parsed arguments, the content of the devices file,
    the environment that [build_jinja_env] returns and the clock readings
    that the calls of [generate_device_config] take, in order. *)
Definition main (a : args) (devices : list Jinja.device)
    (env : Jinja.environment) (clock : nat -> Jinja.datetime) : M (ending unit) :=
  match load_devices devices with
  | Exits code => ret (Exits code)
  | Returns devices =>
      devices <~
        (if truthy (serial a) then lift (select (value_of (serial a)) devices)
         else ret devices) ;;
      match truthy (serial a), devices with
      | true, [] => ret (Exits 1)
      | _, _ =>
          '(ok, failed) <~
            foldW (device_step a env)
              (combine devices (map clock (seq 0 (length devices)))) ([], []) ;;
          if negb (dry_run a) then
            match failed with
            | [] => ret (Returns tt)
            | _ => ret (Exits 1)
            end
          else ret (Returns tt)
      end
  end.

End JinjaMain.

(** Whether a template contributes nothing for a device: it is not
    found, its rendering raises, or it renders the empty text. *)
Definition renders_nothing (env : Jinja.environment) (device_ : Jinja.device)
    (tmpl_name : string) : bool :=
  match Jinja.render_template env tmpl_name device_ with
  | Ok rendered => negb (truthy rendered)
  | Raise _ => false
  end.

(** Whether an environment finds the template or reports it missing. *)
Definition found_or_missing (env : Jinja.environment) (tmpl_name : string) : bool :=
  match env (tmpl_name ++ ".j2") with
  | Ok _ => true
  | Raise (TemplateNotFound _) => true
  | Raise _ => false
  end.

(** The [serial] entry of a device, for the name of its file. *)
Definition serial_of (device_ : Jinja.device) : string :=
  match dict_get "serial" device_ with
  | Some s => s
  | None => ""
  end.

Module SampleJinjaMain.

(** Two devices, the second without a model. *)
Definition devices : list Jinja.device :=
  [ SampleJinja.device; [("serial", "FW3523AB0002"); ("hostname", "sw2")] ].

Definition all_devices : JinjaMain.args :=
  JinjaMain.mkArgs None ["ntp"; "syslog"] false.

Definition clock (n : nat) : Jinja.datetime := Jinja.mkDatetime 2024 1 1 0 0 n.

End SampleJinjaMain.

(** The devices that [main] generates for: the loaded ones, or those of
    them with the serial number asked for. *)
Definition chosen (a : JinjaMain.args) (loaded : list Jinja.device)
  : list Jinja.device :=
  if truthy (JinjaMain.serial a) then
    filter (fun d => serial_of d =? value_of (JinjaMain.serial a)) loaded
  else loaded.

(** What the calls of [generate_device_config] of the loop of [main]
    give, one per device and clock reading. *)
Definition documents (a : JinjaMain.args) (env : Jinja.environment)
    (runs : list (Jinja.device * Jinja.datetime)) : list (result string) :=
  map (fun run =>
         Jinja.generate_device_config (fst run) env (JinjaMain.templates_list a)
           (snd run))
      runs.

(* ===================================================================== *)
(** * Further notions about the [System] sheet *)
(* ===================================================================== *)

(** A parameter name that [generate_system_config] knows nothing of: no
    key of [config_map], and no [name_server] at its start. *)
Definition unknown_parameter (param : string) : bool :=
  match config_map param with
  | Some _ => false
  | None => negb (PyStr.startswith "name_server" param)
  end.

(** A [System] row with a value whose parameter cell is not text. *)
Definition value_without_name (r : row) : bool :=
  match lookup "Parameter" r, lookup "Value" r with
  | Some (Str _), Some _ => false
  | Some _, Some value => filled value
  | _, _ => false
  end.

(** Whether the [System] sheet of a workbook has a row for the parameter
    [param]: a row that [df['Parameter'] == param] selects. *)
Definition system_has (param : string) (wb : list (string * DataFrame)) : bool :=
  match find_sheet "System" wb with
  | Some df =>
      existsb (fun r => match lookup "Parameter" r with
                        | Some c => eq_str c param
                        | None => false
                        end)
        (iterrows df)
  | None => false
  end.

Module SampleNoHostname.

(** A workbook whose [System] sheet has no [hostname] row. *)
Definition workbook : list (string * DataFrame) :=
  [ ("System",
     mkDataFrame ["Parameter"; "Value"]
       [ [Str "serial_number"; Str "TEMPLATE"]; [Str "time_zone"; Str "UTC"] ]);
    ("NTP", Sample.ntp) ].

Definition lines : list string :=
  Eval vm_compute in
    match fst (build_config_lines "ABC123" "sw1" "10.0.0.1" (pristine workbook)) with
    | Ok lines => lines
    | Raise _ => []
    end.

End SampleNoHostname.

(** The address that the legacy mode takes from a [Management] frame
    whose [IP Address] column it can read: the one of the first row, or
    [0.0.0.0] when the frame is empty or the cell is blank. *)
Definition first_address (m : DataFrame) : string :=
  if empty m then "0.0.0.0"
  else
    match lookup "IP Address" (hd [] (iterrows m)) with
    | Some c => if notna c then py_str c else "0.0.0.0"
    | None => "0.0.0.0"
    end.

Module SampleLegacy.

(** A workbook without inventory whose [Management] sheet has two rows
    with an address each. *)
Definition workbook : list (string * DataFrame) :=
  [ ("System",
     mkDataFrame ["Parameter"; "Value"]
       [ [Str "hostname"; Str "sw1"]; [Str "serial_number"; Str "ABC123"] ]);
    ("Management",
     mkDataFrame ["Interface"; "IP Address"; "Prefix Length"]
       [ [Str "me0"; Str "192.168.1.1"; Int 24];
         [Str "vme"; Str "192.168.1.2"; Int 24] ]) ].

End SampleLegacy.

(* ===================================================================== *)
(** * General lemmas *)
(* ===================================================================== *)

Lemma foldM_app {A S} (body : A -> S -> result S) (l1 l2 : list A) (acc : S) :
  foldM body (l1 ++ l2) acc = (acc' <- foldM body l1 acc ;; foldM body l2 acc').
Proof.
  revert acc. induction l1 as [|x l1 IH]; intros acc; simpl; [reflexivity|].
  destruct (body x acc); simpl; auto.
Qed.

(** A row on which the body does nothing can be removed. *)
Lemma foldM_skip {A S} (body : A -> S -> result S) (l1 l2 : list A) (x : A) (acc : S) :
  (forall a, body x a = Ok a) ->
  foldM body (l1 ++ x :: l2) acc = foldM body (l1 ++ l2) acc.
Proof.
  intros Hx. rewrite !foldM_app. destruct (foldM body l1 acc); simpl; auto.
  rewrite Hx. reflexivity.
Qed.

Lemma foldM_all_skip {A S} (body : A -> S -> result S) (l : list A) (acc : S) :
  (forall x, In x l -> forall a, body x a = Ok a) ->
  foldM body l acc = Ok acc.
Proof.
  induction l as [|x l IH]; intros H; simpl; [reflexivity|].
  rewrite (H x (or_introl eq_refl)). simpl. apply IH.
  intros y Hy. apply H. right. exact Hy.
Qed.

Lemma foldW_app {A S} (body : A -> S -> M S) (l1 l2 : list A) (acc : S) (w : world) :
  foldW body (l1 ++ l2) acc w
  = (acc' <~ foldW body l1 acc ;; foldW body l2 acc') w.
Proof.
  revert acc w. induction l1 as [|x l1 IH]; intros acc w; simpl.
  - reflexivity.
  - unfold bindM. destruct (body x acc w) as [[a|e] w1]; [|reflexivity].
    rewrite IH. reflexivity.
Qed.

Lemma nth_length_app {A} (l : list A) (x d : A) :
  nth (length l) (l ++ [x]) d = x.
Proof. induction l; simpl; auto. Qed.

Lemma update_nth_length_app {A} (f : A -> A) (l : list A) (x : A) :
  update_nth (length l) f (l ++ [x]) = (l ++ [f x])%list.
Proof. induction l; simpl; [reflexivity | now f_equal]. Qed.

Lemma mem_find_sheet (name : string) (wb : list (string * DataFrame)) :
  mem name (map fst wb)
  = match find_sheet name wb with Some _ => true | None => false end.
Proof.
  induction wb as [|[n df] wb IH]; simpl; [reflexivity|].
  rewrite String.eqb_sym. destruct (String.eqb n name); simpl; auto.
Qed.

Lemma same_outside_heap_refl (w : world) : same_outside_heap w w.
Proof. repeat split. Qed.

Lemma same_outside_heap_trans (w1 w2 w3 : world) :
  same_outside_heap w1 w2 -> same_outside_heap w2 w3 -> same_outside_heap w1 w3.
Proof.
  unfold same_outside_heap. intros (A1 & A2 & A3) (B1 & B2 & B3).
  repeat split; congruence.
Qed.

(* ===================================================================== *)
(** * The builder against the assembly *)
(* ===================================================================== *)

Lemma system_section_spec (s h : string) (acc : list string) (w : world) :
  exists w',
    system_section s h acc w
    = ((cmds <- system_part (sheets w) s h ;; Ok (acc ++ cmds)%list), w')
    /\ same_outside_heap w w'.
Proof.
  unfold system_section, system_part, sheet_names, bindM.
  rewrite mem_find_sheet.
  unfold read_excel.
  destruct (find_sheet "System" (sheets w)) as [df|] eqn:E.
  - unfold loc_assign, load, lift, modify, bindM, ret. simpl. rewrite E. simpl.
    rewrite nth_length_app.
    destruct (assigned df "hostname" h) as [df1|e]; simpl.
    2:{ eexists. split; [reflexivity|]. repeat split. }
    rewrite update_nth_length_app, nth_length_app.
    destruct (assigned df1 "serial_number" s) as [df2|e]; simpl.
    2:{ eexists. split; [reflexivity|]. repeat split. }
    rewrite update_nth_length_app, nth_length_app.
    destruct (generate_system_config df2) as [[cmds sn]|e]; simpl;
      (eexists; split; [reflexivity|]; repeat split).
  - unfold ret. simpl. rewrite app_nil_r.
    eexists; split; [reflexivity|]. repeat split.
Qed.

Lemma handled_sheet_spec (name : string) (acc : list string) (w : world) :
  exists w',
    handled_sheet name acc w = (handled_part (sheets w) name acc, w')
    /\ same_outside_heap w w'.
Proof.
  unfold handled_sheet, handled_part.
  destruct (sheet_handlers name) as [handler|].
  - unfold bindM, read_excel.
    destruct (find_sheet name (sheets w)) as [df|] eqn:E.
    + unfold load, lift, ret. simpl. rewrite nth_length_app.
      destruct (handler df); simpl; (eexists; split; [reflexivity|]; repeat split).
    + eexists; split; [reflexivity|]; repeat split.
  - eexists; split; [reflexivity|]; repeat split.
Qed.

Lemma handled_sheets_spec (names : list string) (acc : list string) (w : world) :
  exists w',
    foldW handled_sheet names acc w = (foldM (handled_part (sheets w)) names acc, w')
    /\ same_outside_heap w w'.
Proof.
  revert acc w. induction names as [|n names IH]; intros acc w; simpl.
  - eexists; split; [reflexivity|]; repeat split.
  - unfold bindM.
    destruct (handled_sheet_spec n acc w) as (w1 & -> & Hw1).
    destruct (handled_part (sheets w) n acc) as [acc'|e]; simpl.
    + destruct (IH acc' w1) as (w2 & Hrun & Hw2). rewrite Hrun.
      pose proof Hw1 as (Hs & _). rewrite Hs.
      eexists; split; [reflexivity|].
      eapply same_outside_heap_trans; eauto.
    + eexists; split; [reflexivity|]; assumption.
Qed.

Lemma management_section_spec (ip : string) (acc : list string) (w : world) :
  exists w',
    management_section ip acc w
    = ((cmds <- management_part (sheets w) ip ;; Ok (acc ++ cmds)%list), w')
    /\ same_outside_heap w w'.
Proof.
  unfold management_section, management_part, sheet_names, bindM.
  rewrite mem_find_sheet. unfold read_excel.
  destruct (find_sheet "Management" (sheets w)) as [df|] eqn:E.
  - unfold load, lift, ret. simpl. rewrite E. simpl. rewrite nth_length_app.
    destruct (generate_management_config df (Some ip)); simpl;
      (eexists; split; [reflexivity|]; repeat split).
  - unfold ret. simpl. rewrite app_nil_r.
    eexists; split; [reflexivity|]; repeat split.
Qed.

Lemma foldM_handled_part_shift (wb : list (string * DataFrame)) (names : list string)
    (pre acc : list string) :
  foldM (handled_part wb) names (pre ++ acc)%list
  = (r <- foldM (handled_part wb) names acc ;; Ok (pre ++ r)%list).
Proof.
  revert acc. induction names as [|n names IH]; intros acc; simpl; [reflexivity|].
  unfold handled_part at 1 3.
  destruct (sheet_handlers n) as [handler|]; simpl; [|apply IH].
  destruct (find_sheet n wb) as [df|]; simpl; [|reflexivity].
  destruct (handler df) as [cmds|e]; simpl; [|reflexivity].
  rewrite <- app_assoc. apply IH.
Qed.

Lemma foldM_handled_part_v3_shift (wb : list (string * DataFrame)) (names : list string)
    (pre acc : list string) :
  foldM (handled_part_v3 wb) names (pre ++ acc)%list
  = (r <- foldM (handled_part_v3 wb) names acc ;; Ok (pre ++ r)%list).
Proof.
  revert acc. induction names as [|n names IH]; intros acc; simpl; [reflexivity|].
  unfold handled_part_v3 at 1 3.
  destruct (V3.sheet_handlers n) as [handler|]; simpl; [|apply IH].
  destruct (find_sheet n wb) as [df|]; simpl; [|reflexivity].
  destruct (handler df) as [cmds|e]; simpl; [|reflexivity].
  rewrite <- app_assoc. apply IH.
Qed.

Lemma build_config_lines_spec (s h ip : string) (w : world) :
  exists w',
    build_config_lines s h ip w = (assemble (sheets w) s h ip, w')
    /\ same_outside_heap w w'.
Proof.
  unfold build_config_lines, assemble, bindM.
  destruct (system_section_spec s h (header s h ip) w) as (w1 & -> & Hw1).
  pose proof Hw1 as (Hs1 & _).
  destruct (system_part (sheets w) s h) as [sys|e]; cbn [bind].
  2:{ eexists; split; [reflexivity|]; assumption. }
  unfold sheet_names. cbn beta iota.
  destruct (handled_sheets_spec (map fst (sheets w1)) (header s h ip ++ sys) w1)
    as (w2 & Hrun & Hw2).
  rewrite Hrun.
  pose proof Hw2 as (Hs2 & _). rewrite Hs1.
  rewrite <- (app_nil_r (header s h ip ++ sys)), foldM_handled_part_shift.
  destruct (foldM (handled_part (sheets w)) (map fst (sheets w)) [])
    as [mid|e]; cbn [bind].
  2:{ eexists; split; [reflexivity|]. eapply same_outside_heap_trans; eauto. }
  destruct (management_section_spec ip ((header s h ip ++ sys) ++ mid)%list w2)
    as (w3 & -> & Hw3).
  rewrite Hs2, Hs1.
  assert (Hw3' : same_outside_heap w w3).
  { eapply same_outside_heap_trans; [|eassumption].
    eapply same_outside_heap_trans; eauto. }
  destruct (management_part (sheets w) ip) as [mg|e]; cbn [bind];
    rewrite <- ?app_assoc; eexists; (split; [reflexivity | exact Hw3']).
Qed.

Lemma handled_sheet_v3_spec (name : string) (acc : list string) (w : world) :
  exists w',
    V3.handled_sheet name acc w = (handled_part_v3 (sheets w) name acc, w')
    /\ same_outside_heap w w'.
Proof.
  unfold V3.handled_sheet, handled_part_v3.
  destruct (V3.sheet_handlers name) as [handler|].
  - unfold bindM, read_excel.
    destruct (find_sheet name (sheets w)) as [df|] eqn:E.
    + unfold load, lift, ret. simpl. rewrite nth_length_app.
      destruct (handler df); simpl; (eexists; split; [reflexivity|]; repeat split).
    + eexists; split; [reflexivity|]; repeat split.
  - eexists; split; [reflexivity|]; repeat split.
Qed.

Lemma handled_sheets_v3_spec (names : list string) (acc : list string) (w : world) :
  exists w',
    foldW V3.handled_sheet names acc w
    = (foldM (handled_part_v3 (sheets w)) names acc, w')
    /\ same_outside_heap w w'.
Proof.
  revert acc w. induction names as [|n names IH]; intros acc w; simpl.
  - eexists; split; [reflexivity|]; repeat split.
  - unfold bindM.
    destruct (handled_sheet_v3_spec n acc w) as (w1 & -> & Hw1).
    destruct (handled_part_v3 (sheets w) n acc) as [acc'|e]; simpl.
    + destruct (IH acc' w1) as (w2 & Hrun & Hw2). rewrite Hrun.
      pose proof Hw1 as (Hs & _). rewrite Hs.
      eexists; split; [reflexivity|].
      eapply same_outside_heap_trans; eauto.
    + eexists; split; [reflexivity|]; assumption.
Qed.

Lemma config_lines_v3_spec (w : world) :
  exists w',
    V3.config_lines w = (assemble_v3 (sheets w), w') /\ same_outside_heap w w'.
Proof.
  unfold V3.config_lines, V3.system_first, assemble_v3, sheet_names, bindM.
  rewrite mem_find_sheet. unfold read_excel.
  destruct (find_sheet "System" (sheets w)) as [df|] eqn:E.
  - unfold load, lift, ret. cbn beta iota. rewrite E. cbn beta iota.
    cbn [sheets heap files stdout]. rewrite nth_length_app.
    destruct (generate_system_config df) as [[sys sn]|e]; cbn [bind].
    2:{ eexists; split; [reflexivity|]; repeat split. }
    destruct (foldM V3.hostname_row (iterrows df) None) as [hn|e]; cbn [bind].
    2:{ eexists; split; [reflexivity|]; repeat split. }
    match goal with
    | |- context [foldW V3.handled_sheet ?names ?acc ?w1] =>
        destruct (handled_sheets_v3_spec names acc w1) as (w2 & Hrun & Hw2);
        rewrite Hrun
    end.
    cbn [sheets] in *.
    rewrite <- (app_nil_r (_ ++ sys)), foldM_handled_part_v3_shift.
    destruct (foldM (handled_part_v3 (sheets w)) (map fst (sheets w)) [])
      as [all|e]; cbn [bind];
      (eexists; split;
       [ unfold header_v3, serial_line_v3, append;
         destruct (V3.cell_truthy sn); rewrite <- ?app_assoc; reflexivity |]);
      destruct Hw2 as (? & ? & ?); repeat split; assumption.
  - unfold raise. cbn.
    eexists; split; [reflexivity|]; repeat split.
Qed.

(* ===================================================================== *)
(** * Order of the domains in the generated document *)
(* ===================================================================== *)



(* ===================================================================== *)
(** * Determinism of the per-device assembly *)
(* ===================================================================== *)

Lemma string_app_assoc (a b c : string) : (a ++ b) ++ c = a ++ (b ++ c).
Proof. induction a; simpl; [reflexivity | now f_equal]. Qed.

Lemma string_app_nil_r (a : string) : a ++ "" = a.
Proof. induction a; simpl; [reflexivity | now f_equal]. Qed.

Lemma string_length_app (a b : string) :
  String.length (a ++ b) = String.length a + String.length b.
Proof. induction a; simpl; [reflexivity | now f_equal]. Qed.

Lemma string_app_inv_head (x a b : string) : x ++ a = x ++ b -> a = b.
Proof. induction x; simpl; intros H; [exact H | injection H; auto]. Qed.

Lemma string_app_inv_tail (x a b : string) : a ++ x = b ++ x -> a = b.
Proof.
  revert b. induction a as [|c a IH]; intros [|d b] H; simpl in *.
  - reflexivity.
  - apply (f_equal String.length) in H. simpl in H.
    rewrite string_length_app in H. lia.
  - apply (f_equal String.length) in H. simpl in H.
    rewrite string_length_app in H. lia.
  - injection H as -> H. f_equal. auto.
Qed.

Lemma join_empty_cons (x : string) (l : list string) :
  PyStr.join "" (x :: l) = x ++ PyStr.join "" l.
Proof.
  unfold PyStr.join. destruct l; simpl; [now rewrite string_app_nil_r | reflexivity].
Qed.

Lemma section_shift (env : Jinja.environment) (dev : Jinja.device)
    (names : list string) (pre acc : list string) :
  foldM (Jinja.section env dev) names (pre ++ acc)%list
  = (r <- foldM (Jinja.section env dev) names acc ;; Ok (pre ++ r)%list).
Proof.
  revert acc. induction names as [|n names IH]; intros acc; simpl; [reflexivity|].
  unfold Jinja.section at 1 3.
  destruct (Jinja.render_template env n dev) as [rendered|e]; simpl; [|reflexivity].
  destruct (truthy rendered); simpl; [|apply IH].
  unfold append. rewrite <- !app_assoc. rewrite !app_assoc.
  rewrite <- (app_assoc pre). rewrite <- app_assoc. apply IH.
Qed.

Lemma generate_device_config_shape (dev : Jinja.device) (env : Jinja.environment)
    (names : list string) (now : Jinja.datetime) (doc : string) :
  Jinja.generate_device_config dev env names now = Ok doc ->
  exists serial model body,
    doc = Jinja.header serial model
            (match dict_get "hostname" dev with Some h => h | None => "N/A" end)
            (Jinja.strftime now)
          ++ PyStr.join "" body
    /\ dict_getitem dev "serial" = Ok serial
    /\ dict_getitem dev "model" = Ok model
    /\ foldM (Jinja.section env dev) names [] = Ok body.
Proof.
  unfold Jinja.generate_device_config.
  destruct (dict_getitem dev "serial") as [serial|]; cbn [bind]; [|discriminate].
  destruct (dict_getitem dev "model") as [model|]; cbn [bind]; [|discriminate].
  match goal with
  | |- context [foldM ?f names [?x]] =>
      change (foldM f names [x]) with (foldM f names ([x] ++ [])%list);
      rewrite section_shift
  end.
  destruct (foldM (Jinja.section env dev) names []) as [body|]; cbn [bind];
    [|discriminate].
  intros H. exists serial, model, body.
  split; [|repeat split].
  assert (E : forall a b : string, Ok a = Ok b -> b = a) by (intros a b [=]; auto).
  apply E in H. rewrite H. apply join_empty_cons.
Qed.

Lemma header_split (serial model hostname : string) :
  exists before after,
    forall now_str,
      Jinja.header serial model hostname now_str = before ++ now_str ++ after.
Proof.
  exists ("# ============================================================" ++ newline
          ++ "# Device  : " ++ serial ++ newline
          ++ "# Model   : " ++ model ++ newline
          ++ "# Host    : " ++ hostname ++ newline
          ++ "# Generated: "),
         (newline
          ++ "# ============================================================"
          ++ newline ++ newline).
  intros now_str. unfold Jinja.header. rewrite !string_app_assoc. reflexivity.
Qed.

Lemma header_injective (serial model hostname now1 now2 rest : string) :
  Jinja.header serial model hostname now1 ++ rest
  = Jinja.header serial model hostname now2 ++ rest ->
  now1 = now2.
Proof.
  destruct (header_split serial model hostname) as (before & after & Hsplit).
  rewrite !Hsplit, !string_app_assoc. intros H.
  apply string_app_inv_head in H.
  rewrite <- !string_app_assoc in H.
  apply string_app_inv_tail in H. apply string_app_inv_tail in H. exact H.
Qed.

Lemma build_config_spec (s h ip : string) (w : world) :
  exists w',
    build_config s h ip w
    = ((lines <- assemble (sheets w) s h ip ;; Ok (PyStr.join newline lines)), w')
    /\ same_outside_heap w w'.
Proof.
  unfold build_config, bindM.
  destruct (build_config_lines_spec s h ip w) as (w' & -> & Hw').
  destruct (assemble (sheets w) s h ip); cbn [bind]; unfold ret;
    eexists; (split; [reflexivity | exact Hw']).
Qed.

(** C3, as stated, fails for [generate_device_config]: the header of its
    document carries the time of the call, so two calls with the same
    device, the same templates and the same template order, one second
    apart, give different documents. *)
Lemma generate_device_config_depends_on_clock :
  Jinja.generate_device_config SampleJinja.device SampleJinja.env ["ntp"]
    SampleJinja.midnight
  <> Jinja.generate_device_config SampleJinja.device SampleJinja.env ["ntp"]
       SampleJinja.one_second_later.
Proof. vm_compute. intros H. discriminate H. Qed.

(** C3, amended: two calls of [build_config] on the same workbook with the
    same serial number, host name and management address return the same
    document, whatever objects, files and output earlier work has left in
    the world.  Two calls of [generate_device_config] with the same
    device, environment and template names that both return a document
    return the same document exactly when the clock readings of the two
    calls format to the same time stamp. *)
Theorem documents_identical_up_to_clock
    (serial_number hostname mgmt_ip : string) (w1 w2 : world)
    (dev : Jinja.device) (env : Jinja.environment) (names : list string)
    (now1 now2 : Jinja.datetime) (doc1 doc2 : string)
    (Hsheets : sheets w1 = sheets w2)
    (Hdoc1 : Jinja.generate_device_config dev env names now1 = Ok doc1)
    (Hdoc2 : Jinja.generate_device_config dev env names now2 = Ok doc2) :
  fst (build_config serial_number hostname mgmt_ip w1)
  = fst (build_config serial_number hostname mgmt_ip w2)
  /\ (doc1 = doc2 <-> Jinja.strftime now1 = Jinja.strftime now2).
Proof.
  split.
  - destruct (build_config_spec serial_number hostname mgmt_ip w1) as (w1' & -> & _).
    destruct (build_config_spec serial_number hostname mgmt_ip w2) as (w2' & -> & _).
    cbn [fst]. rewrite Hsheets. reflexivity.
  - apply generate_device_config_shape in Hdoc1, Hdoc2.
    destruct Hdoc1 as (s1 & m1 & b1 & -> & Hs1 & Hm1 & Hb1).
    destruct Hdoc2 as (s2 & m2 & b2 & -> & Hs2 & Hm2 & Hb2).
    assert (s2 = s1) by congruence. assert (m2 = m1) by congruence.
    assert (b2 = b1) by congruence. subst.
    split.
    + apply header_injective.
    + intros ->. reflexivity.
Qed.

Lemma documents_identical_up_to_clock_witness :
  (sheets Sample.snmp_before_ntp = sheets SampleJinjaDocuments.used_world
   /\ Jinja.generate_device_config SampleJinja.device SampleJinja.env ["ntp"]
        SampleJinja.midnight = Ok SampleJinjaDocuments.at_midnight
   /\ Jinja.generate_device_config SampleJinja.device SampleJinja.env ["ntp"]
        SampleJinja.one_second_later = Ok SampleJinjaDocuments.one_second_later)
  /\ fst (build_config "S1" "sw1" "10.0.0.1" Sample.snmp_before_ntp)
     = fst (build_config "S1" "sw1" "10.0.0.1" SampleJinjaDocuments.used_world)
  /\ (SampleJinjaDocuments.at_midnight = SampleJinjaDocuments.one_second_later
      <-> Jinja.strftime SampleJinja.midnight
          = Jinja.strftime SampleJinja.one_second_later).
Proof.
  assert (H1 : sheets Sample.snmp_before_ntp = sheets SampleJinjaDocuments.used_world)
    by reflexivity.
  assert (H2 : Jinja.generate_device_config SampleJinja.device SampleJinja.env ["ntp"]
                 SampleJinja.midnight = Ok SampleJinjaDocuments.at_midnight)
    by (vm_compute; reflexivity).
  assert (H3 : Jinja.generate_device_config SampleJinja.device SampleJinja.env ["ntp"]
                 SampleJinja.one_second_later
               = Ok SampleJinjaDocuments.one_second_later)
    by (vm_compute; reflexivity).
  split; [auto|].
  exact (documents_identical_up_to_clock "S1" "sw1" "10.0.0.1"
           Sample.snmp_before_ntp SampleJinjaDocuments.used_world
           SampleJinja.device SampleJinja.env ["ntp"]
           SampleJinja.midnight SampleJinja.one_second_later
           SampleJinjaDocuments.at_midnight SampleJinjaDocuments.one_second_later
           H1 H2 H3).
Defined.

(* ===================================================================== *)
(** * Rows with a blank discriminator field *)
(* ===================================================================== *)

Lemma lookup_label (key : string) (cols : list string) (cells : list cell) :
  In key cols -> exists c, lookup key (label cols cells) = Some c.
Proof.
  revert cells. induction cols as [|k cols IH]; intros cells H; [destruct H|].
  simpl. destruct (String.eqb_spec k key) as [->|Hne].
  - eexists. reflexivity.
  - destruct H as [H|H]; [contradiction|]. apply IH, H.
Qed.

Lemma getitem_label (key : string) (cols : list string) (cells : list cell) :
  In key cols -> exists c, getitem (label cols cells) key = Ok c.
Proof.
  intros H. destruct (lookup_label key cols cells H) as (c & Hc).
  exists c. unfold getitem. rewrite Hc. reflexivity.
Qed.

Lemma filled_blank (c : cell) : filled c = negb (blank c).
Proof. destruct c as [|s|z]; try reflexivity. Qed.

Lemma blank_at_getitem (d : domain) (cols : list string) (cells : list cell) :
  blank_at d cols cells = true ->
  exists c, getitem (label cols cells) (discriminator d) = Ok c /\ blank c = true.
Proof.
  unfold blank_at, getitem.
  destruct (lookup (discriminator d) (label cols cells)) as [c|]; [|discriminate].
  intros H. exists c. split; [reflexivity | exact H].
Qed.

Lemma blank_text (s : string) : blank (Str s) = true -> s = "".
Proof. simpl. apply String.eqb_eq. Qed.

(** [present key] records that the column [key], a mandatory one, can be
    read in the row at hand. *)
Ltac present key :=
  match goal with
  | Hcols : incl _ ?cols |- context [label ?cols ?cells] =>
      let c := fresh "c" in
      let Hc := fresh "Hc" in
      destruct (getitem_label key cols cells) as (c & Hc);
      [apply Hcols; simpl; tauto | rewrite ?Hc]
  end.

Ltac blank_start :=
  let Hcols := fresh "Hcols" in
  let Hb := fresh "Hb" in
  let c := fresh "disc" in
  let Hc := fresh "Hdisc" in
  intros Hcols Hb;
  apply blank_at_getitem in Hb; destruct Hb as (c & Hc & Hb);
  cbn [discriminator] in Hc.

Section BlankRows.

Variables (cols : list string) (cells : list cell) (override_ip : option string).

Lemma blank_row_system acc :
  incl (mandatory System override_ip) cols -> blank_at System cols cells = true ->
  system_row (label cols cells) acc = Ok acc.
Proof.
  blank_start. unfold system_row. destruct acc as [commands sn].
  present "Parameter". rewrite Hdisc. cbn [bind].
  rewrite filled_blank, Hb. reflexivity.
Qed.

Lemma blank_row_ntp acc :
  incl (mandatory NTP override_ip) cols -> blank_at NTP cols cells = true ->
  ntp_row (label cols cells) acc = Ok acc.
Proof.
  blank_start. unfold ntp_row. rewrite Hdisc. cbn [bind].
  rewrite filled_blank, Hb. reflexivity.
Qed.

Lemma blank_row_syslog acc :
  incl (mandatory Syslog override_ip) cols -> blank_at Syslog cols cells = true ->
  syslog_row (label cols cells) acc = Ok acc.
Proof.
  blank_start. unfold syslog_row. rewrite Hdisc. cbn [bind].
  rewrite filled_blank, Hb. reflexivity.
Qed.

Lemma blank_row_tacacs acc :
  incl (mandatory TACACS override_ip) cols -> blank_at TACACS cols cells = true ->
  tacacs_row (label cols cells) acc = Ok acc.
Proof.
  blank_start. unfold tacacs_row. rewrite Hdisc. present "Secret". cbn [bind].
  rewrite filled_blank, Hb. reflexivity.
Qed.

Lemma blank_row_vlan acc :
  incl (mandatory VLANs override_ip) cols -> blank_at VLANs cols cells = true ->
  vlan_row (label cols cells) acc = Ok acc.
Proof.
  blank_start. unfold vlan_row. rewrite Hdisc. present "VLAN Name". cbn [bind].
  rewrite filled_blank, Hb. reflexivity.
Qed.

Lemma blank_row_irb acc :
  incl (mandatory IRB_Interfaces override_ip) cols ->
  blank_at IRB_Interfaces cols cells = true ->
  irb_row (label cols cells) acc = Ok acc.
Proof.
  blank_start. unfold irb_row. rewrite Hdisc.
  present "IP Address". present "Prefix Length". cbn [bind].
  rewrite filled_blank, Hb. reflexivity.
Qed.

Lemma blank_row_interface vlans_test acc :
  incl (mandatory Interfaces override_ip) cols ->
  blank_at Interfaces cols cells = true ->
  interface_row vlans_test (label cols cells) acc = Ok acc.
Proof.
  blank_start. unfold interface_row. rewrite Hdisc. present "Mode". cbn [bind].
  rewrite filled_blank, Hb. reflexivity.
Qed.

Lemma blank_row_management acc :
  incl (mandatory Management override_ip) cols ->
  blank_at Management cols cells = true ->
  management_row override_ip (label cols cells) acc = Ok acc.
Proof.
  blank_start. unfold management_row. rewrite Hdisc. cbn [mandatory] in Hcols.
  destruct (truthy override_ip).
  - present "Prefix Length". cbn [bind]. rewrite filled_blank, Hb. reflexivity.
  - present "IP Address". present "Prefix Length". cbn [bind].
    rewrite filled_blank, Hb. reflexivity.
Qed.

Lemma blank_row_hardening acc :
  incl (mandatory Hardening override_ip) cols ->
  blank_at Hardening cols cells = true ->
  hardening_row (label cols cells) acc = Ok acc.
Proof.
  blank_start. unfold hardening_row. destruct acc as [commands screen].
  rewrite Hdisc. present "Setting". cbn [bind].
  destruct disc as [|s|z]; [reflexivity | | discriminate].
  apply blank_text in Hb. subst s.
  destruct (notna c); reflexivity.
Qed.

Lemma blank_row_snmp acc :
  incl (mandatory SNMP override_ip) cols -> blank_at SNMP cols cells = true ->
  snmp_row (label cols cells) acc = Ok acc.
Proof.
  blank_start. unfold snmp_row. rewrite Hdisc. present "Type". cbn [bind].
  rewrite filled_blank, Hb. reflexivity.
Qed.

End BlankRows.

Lemma foldM_rows_skip {S} (body : row -> S -> result S) (cols : list string)
    (before after : list (list cell)) (cells : list cell) (acc : S) :
  (forall a, body (label cols cells) a = Ok a) ->
  foldM body (iterrows (mkDataFrame cols (before ++ cells :: after))) acc
  = foldM body (iterrows (mkDataFrame cols (before ++ after))) acc.
Proof.
  intros H. unfold iterrows. cbn [columns data]. rewrite !map_app. cbn [map].
  apply foldM_skip. exact H.
Qed.

Lemma foldM_rows_all_skip {S} (body : row -> S -> result S) (cols : list string)
    (rows : list (list cell)) (test : list cell -> bool) (acc : S) :
  (forall cells a, test cells = true -> body (label cols cells) a = Ok a) ->
  forallb test rows = true ->
  foldM body (iterrows (mkDataFrame cols rows)) acc = Ok acc.
Proof.
  intros H Hall. unfold iterrows. cbn [columns data].
  apply foldM_all_skip. intros r Hr a.
  apply in_map_iff in Hr. destruct Hr as (cells & <- & Hin).
  apply H. rewrite forallb_forall in Hall. apply Hall, Hin.
Qed.



(* ===================================================================== *)
(** * Boolean-like fields *)
(* ===================================================================== *)

Lemma getitem_cons_other (k key : string) (c : cell) (r : row) :
  String.eqb k key = false -> getitem ((k, c) :: r) key = getitem r key.
Proof. intros H. unfold getitem. simpl. rewrite H. reflexivity. Qed.

Lemma get_cons_other (k key : string) (c d : cell) (r : row) :
  String.eqb k key = false -> get ((k, c) :: r) key d = get r key d.
Proof. intros H. unfold get. simpl. rewrite H. reflexivity. Qed.

Lemma get_cons_same (k : string) (c d : cell) (r : row) :
  get ((k, c) :: r) k d = c.
Proof. unfold get. simpl. rewrite String.eqb_refl. reflexivity. Qed.

Lemma getitem_cons_same (k : string) (c : cell) (r : row) :
  getitem ((k, c) :: r) k = Ok c.
Proof. unfold getitem. simpl. rewrite String.eqb_refl. reflexivity. Qed.



(* ===================================================================== *)
(** * Interface names without a unit *)
(* ===================================================================== *)

Lemma split_without_separator (sep : ascii) (s : string) :
  PyStr.has_char sep s = false -> PyStr.split sep s = [s].
Proof.
  induction s as [|c s IH]; simpl; [reflexivity|].
  intros H. apply orb_false_iff in H. destruct H as (Hc & Hs).
  rewrite Hc, (IH Hs). reflexivity.
Qed.

Lemma split1_without_separator (sep : ascii) (s : string) :
  PyStr.has_char sep s = false -> PyStr.split1 sep s = [s].
Proof.
  induction s as [|c s IH]; simpl; [reflexivity|].
  intros H. apply orb_false_iff in H. destruct H as (Hc & Hs).
  rewrite Hc, (IH Hs). reflexivity.
Qed.

Lemma filled_text (s : string) : s <> "" -> filled (Str s) = true.
Proof.
  intros H. unfold filled, ne_str. simpl.
  apply String.eqb_neq in H. rewrite H. reflexivity.
Qed.

(** C6, as stated, fails: for the interface value [irb], which has no
    dot, the unit of the emitted line is [irb], not 0. *)
Lemma irb_without_dot_unit_is_not_zero :
  generate_irb_config
    (mkDataFrame ["Interface"; "IP Address"; "Prefix Length"]
       [[Str "irb"; Str "10.0.0.1"; Int 24]])
  = Ok [ "# IRB Interface Configuration";
         "set interfaces irb unit irb family inet address 10.0.0.1/24";
         "" ]
  /\ generate_irb_config
       (mkDataFrame ["Interface"; "IP Address"; "Prefix Length"]
          [[Str "irb"; Str "10.0.0.1"; Int 24]])
     <> Ok [ "# IRB Interface Configuration";
             "set interfaces irb unit 0 family inet address 10.0.0.1/24";
             "" ].
Proof. split; [vm_compute; reflexivity | vm_compute; discriminate]. Qed.

(** C6, amended: for an IRB row whose [Interface] value is a non-empty
    text without a dot, the whole value is both the base interface and the
    unit of the emitted lines [set interfaces <value> unit <value> ...];
    there is no default unit. *)
Theorem irb_without_dot_uses_whole_value
    (r : row) (interface : string) (ip_address prefix : cell)
    (commands : list string)
    (Hfilled : interface <> "")
    (Hdot : PyStr.has_char "." interface = false)
    (Hip : getitem r "IP Address" = Ok ip_address)
    (Hprefix : getitem r "Prefix Length" = Ok prefix) :
  irb_base interface = interface
  /\ irb_unit interface = interface
  /\ irb_row (("Interface", Str interface) :: r) commands
     = Ok (append
             (if filled (get r "Description" (Str "")) then
                append commands
                  ("set interfaces " ++ interface ++ " unit " ++ interface
                     ++ " description "
                     ++ dquote ++ py_str (get r "Description" (Str "")) ++ dquote)
              else commands)
             ("set interfaces " ++ interface ++ " unit " ++ interface
                ++ " family inet address " ++ py_str ip_address
                ++ "/" ++ py_str prefix)).
Proof.
  assert (Hbase : irb_base interface = interface).
  { unfold irb_base. rewrite split_without_separator by exact Hdot. reflexivity. }
  assert (Hunit : irb_unit interface = interface).
  { unfold irb_unit. rewrite split_without_separator by exact Hdot. reflexivity. }
  repeat split; try assumption.
  unfold irb_row.
  rewrite getitem_cons_same, !getitem_cons_other, !get_cons_other by reflexivity.
  rewrite Hip, Hprefix. cbn [bind]. rewrite (filled_text _ Hfilled).
  cbn [as_str bind]. rewrite Hbase, Hunit. reflexivity.
Qed.

Lemma irb_without_dot_uses_whole_value_witness :
  ("irb" <> ""
   /\ PyStr.has_char "." "irb" = false
   /\ getitem [("IP Address", Str "10.0.0.1"); ("Prefix Length", Int 24)] "IP Address"
      = Ok (Str "10.0.0.1")
   /\ getitem [("IP Address", Str "10.0.0.1"); ("Prefix Length", Int 24)] "Prefix Length"
      = Ok (Int 24))
  /\ irb_base "irb" = "irb"
  /\ irb_unit "irb" = "irb"
  /\ irb_row
       (("Interface", Str "irb")
          :: [("IP Address", Str "10.0.0.1"); ("Prefix Length", Int 24)])
       ["# IRB Interface Configuration"]
     = Ok (append
             (if filled (get [("IP Address", Str "10.0.0.1"); ("Prefix Length", Int 24)]
                           "Description" (Str ""))
              then
                append ["# IRB Interface Configuration"]
                  ("set interfaces " ++ "irb" ++ " unit " ++ "irb"
                     ++ " description " ++ dquote
                     ++ py_str (get [("IP Address", Str "10.0.0.1");
                                     ("Prefix Length", Int 24)]
                                  "Description" (Str ""))
                     ++ dquote)
              else ["# IRB Interface Configuration"])
             ("set interfaces " ++ "irb" ++ " unit " ++ "irb"
                ++ " family inet address " ++ py_str (Str "10.0.0.1")
                ++ "/" ++ py_str (Int 24))).
Proof.
  assert (H1 : "irb" <> "") by discriminate.
  assert (H2 : PyStr.has_char "." "irb" = false) by reflexivity.
  assert (H3 : getitem [("IP Address", Str "10.0.0.1"); ("Prefix Length", Int 24)]
                 "IP Address" = Ok (Str "10.0.0.1")) by reflexivity.
  assert (H4 : getitem [("IP Address", Str "10.0.0.1"); ("Prefix Length", Int 24)]
                 "Prefix Length" = Ok (Int 24)) by reflexivity.
  split; [auto|].
  exact (irb_without_dot_uses_whole_value
           [("IP Address", Str "10.0.0.1"); ("Prefix Length", Int 24)]
           "irb" (Str "10.0.0.1") (Int 24) ["# IRB Interface Configuration"]
           H1 H2 H3 H4).
Defined.

(* ===================================================================== *)
(** * Inventory mode: the required columns *)
(* ===================================================================== *)

(** C8: in inventory mode, when the column detection leaves one of
    [serial], [hostname], [mgmt_ip] without a column, the run returns
    without a result and without writing any file, after printing the
    list of the missing fields and the list of the columns it found. *)
Theorem missing_columns_abort_the_run
    (w : world) (df : DataFrame) (missing : list string)
    (Hinventory : find_sheet "Inventory" (sheets w) = Some df)
    (Hmissing : missing_columns (detect_columns (map PyStr.strip (columns df)))
                = missing)
    (Hsome : missing <> []) :
  fst (convert_excel_to_junos w) = Ok None
  /\ files (snd (convert_excel_to_junos w)) = files w
  /\ stdout (snd (convert_excel_to_junos w))
     = (stdout w
          ++ [MissingColumns missing;
              FoundColumns (map PyStr.strip (columns df))])%list.
Proof.
  unfold convert_excel_to_junos, try_except, bindM, sheet_names.
  rewrite mem_find_sheet, Hinventory.
  unfold inventory_mode, bindM, read_excel. rewrite Hinventory.
  unfold modify, load. cbn [sheets heap files stdout].
  rewrite update_nth_length_app, nth_length_app. cbn [columns].
  rewrite Hmissing.
  destruct missing as [|m missing]; [contradiction|].
  unfold print, ret. cbn. rewrite <- app_assoc. repeat split.
Qed.

Lemma missing_columns_abort_the_run_witness :
  (find_sheet "Inventory"
     (sheets (pristine [("Inventory", SampleInventory.without_address);
                        ("System", Sample.system)]))
   = Some SampleInventory.without_address
   /\ missing_columns
        (detect_columns (map PyStr.strip (columns SampleInventory.without_address)))
      = ["mgmt_ip"]
   /\ ["mgmt_ip"] <> [])
  /\ fst (convert_excel_to_junos
            (pristine [("Inventory", SampleInventory.without_address);
                       ("System", Sample.system)]))
     = Ok None
  /\ files (snd (convert_excel_to_junos
                   (pristine [("Inventory", SampleInventory.without_address);
                              ("System", Sample.system)])))
     = files (pristine [("Inventory", SampleInventory.without_address);
                        ("System", Sample.system)])
  /\ stdout (snd (convert_excel_to_junos
                    (pristine [("Inventory", SampleInventory.without_address);
                               ("System", Sample.system)])))
     = (stdout (pristine [("Inventory", SampleInventory.without_address);
                          ("System", Sample.system)])
          ++ [MissingColumns ["mgmt_ip"];
              FoundColumns
                (map PyStr.strip (columns SampleInventory.without_address))])%list.
Proof.
  assert (H1 : find_sheet "Inventory"
                 (sheets (pristine [("Inventory", SampleInventory.without_address);
                                    ("System", Sample.system)]))
               = Some SampleInventory.without_address) by reflexivity.
  assert (H2 : missing_columns
                 (detect_columns
                    (map PyStr.strip (columns SampleInventory.without_address)))
               = ["mgmt_ip"]) by (vm_compute; reflexivity).
  assert (H3 : ["mgmt_ip"] <> @nil string) by discriminate.
  split; [auto|].
  exact (missing_columns_abort_the_run _ _ _ H1 H2 H3).
Defined.

(* ===================================================================== *)
(** * Inventory mode: placeholder records *)
(* ===================================================================== *)

Lemma foldW_skip {A S} (body : A -> S -> M S) (l1 l2 : list A) (x : A)
    (acc : S) (w : world) :
  (forall a w', body x a w' = (Ok a, w')) ->
  foldW body (l1 ++ x :: l2) acc w = foldW body (l1 ++ l2) acc w.
Proof.
  intros Hx. rewrite !foldW_app. unfold bindM.
  destruct (foldW body l1 acc w) as [[a|e] w1]; [|reflexivity].
  simpl. unfold bindM. rewrite Hx. reflexivity.
Qed.

Lemma blank_or_placeholder_skipped (c : cell) :
  blank_or_placeholder c = true -> placeholder (PyStr.strip (py_str c)) = true.
Proof.
  destruct c as [|s|z]; simpl; [reflexivity | | discriminate].
  unfold placeholder. intros H.
  destruct (PyStr.strip s =? "") eqn:E; [reflexivity|].
  simpl in H |- *.
  destruct (PyStr.lower (PyStr.strip s) =? "nan"); [reflexivity|].
  simpl. unfold mem in H. simpl in H.
  rewrite !orb_false_r in H. 
  destruct (PyStr.lower (PyStr.strip s) =? "serial number"); [reflexivity|].
  simpl in *. rewrite H. reflexivity.
Qed.

(** The loop passes over a record whose serial cell is blank or holds a
    placeholder. *)
Lemma inventory_loop_skips_placeholder
    (col_map : dict) (before after : list row) (r : row)
    (generated : list string) (w : world)
    (col : string) (c : cell) (hostname mgmt_ip : string)
    (Hcol : dict_getitem col_map "serial" = Ok col)
    (Hcell : getitem r col = Ok c)
    (Hplaceholder : blank_or_placeholder c = true)
    (Hhostname : inventory_field col_map r "hostname" = Ok hostname)
    (Hmgmt_ip : inventory_field col_map r "mgmt_ip" = Ok mgmt_ip) :
  foldW (inventory_row col_map) (before ++ r :: after) generated w
  = foldW (inventory_row col_map) (before ++ after) generated w.
Proof.
  apply foldW_skip. intros a w'.
  unfold inventory_row, bindM, lift.
  unfold inventory_field at 1. rewrite Hcol. cbn [bind]. rewrite Hcell. cbn [bind].
  rewrite Hhostname, Hmgmt_ip.
  rewrite (blank_or_placeholder_skipped c Hplaceholder). reflexivity.
Qed.

(* ===================================================================== *)
(** * Inventory mode: one device does not depend on the others *)
(* ===================================================================== *)

(** What the body of the inventory loop does for a record that qualifies:
    it builds the document, a function of the workbook and of the three
    fields, and then writes and announces it. *)
Lemma inventory_row_qualifying (col_map : dict) (r : row) (generated : list string)
    (w : world) (serial hostname mgmt_ip : string) :
  inventory_field col_map r "serial" = Ok serial ->
  inventory_field col_map r "hostname" = Ok hostname ->
  inventory_field col_map r "mgmt_ip" = Ok mgmt_ip ->
  placeholder serial = false ->
  exists w1,
    same_outside_heap w w1
    /\ inventory_row col_map r generated w
       = match (lines <- assemble (sheets w) serial hostname mgmt_ip ;;
                Ok (PyStr.join newline lines)) with
         | Ok text =>
             (Ok (generated ++ [(serial ++ ".cfg")%string])%list,
              mkWorld (sheets w1) (heap w1)
                (files w1 ++ [((serial ++ ".cfg")%string, text)])%list
                (stdout w1
                   ++ [Generated (serial ++ ".cfg")%string hostname mgmt_ip])%list)
         | Raise e => (Raise e, w1)
         end.
Proof.
  intros Hs Hh Hi Hq.
  destruct (build_config_spec serial hostname mgmt_ip w) as (w1 & Hrun & Hw1).
  exists w1. split; [exact Hw1|].
  unfold inventory_row, bindM, lift. rewrite Hs, Hh, Hi, Hq, Hrun.
  destruct (lines <- assemble (sheets w) serial hostname mgmt_ip ;;
            Ok (PyStr.join newline lines)) as [text|e]; reflexivity.
Qed.

Lemma inventory_row_frame (col_map : dict) (r : row) (generated : list string)
    (w : world) :
  sheets (snd (inventory_row col_map r generated w)) = sheets w
  /\ exists extra,
       files (snd (inventory_row col_map r generated w)) = (files w ++ extra)%list.
Proof.
  destruct (inventory_field col_map r "serial") as [serial|e] eqn:Hs.
  2:{ unfold inventory_row, bindM, lift. rewrite Hs. cbn.
      split; [reflexivity | exists []; now rewrite app_nil_r]. }
  destruct (inventory_field col_map r "hostname") as [hostname|e] eqn:Hh.
  2:{ unfold inventory_row, bindM, lift. rewrite Hs, Hh. cbn.
      split; [reflexivity | exists []; now rewrite app_nil_r]. }
  destruct (inventory_field col_map r "mgmt_ip") as [mgmt_ip|e] eqn:Hi.
  2:{ unfold inventory_row, bindM, lift. rewrite Hs, Hh, Hi. cbn.
      split; [reflexivity | exists []; now rewrite app_nil_r]. }
  destruct (placeholder serial) eqn:Hq.
  { unfold inventory_row, bindM, lift. rewrite Hs, Hh, Hi, Hq. cbn.
    split; [reflexivity | exists []; now rewrite app_nil_r]. }
  destruct (inventory_row_qualifying col_map r generated w _ _ _ Hs Hh Hi Hq)
    as (w1 & (Hsh & Hfi & _) & ->).
  destruct (lines <- assemble (sheets w) serial hostname mgmt_ip ;;
            Ok (PyStr.join newline lines)) as [text|e]; cbn [snd sheets files].
  - split; [exact Hsh|]. rewrite Hfi. eexists. reflexivity.
  - split; [exact Hsh|]. rewrite Hfi. exists []. now rewrite app_nil_r.
Qed.

Lemma inventory_loop_frame (col_map : dict) (rows : list row)
    (generated : list string) (w : world) :
  sheets (snd (foldW (inventory_row col_map) rows generated w)) = sheets w
  /\ exists extra,
       files (snd (foldW (inventory_row col_map) rows generated w))
       = (files w ++ extra)%list.
Proof.
  revert generated w. induction rows as [|r rows IH]; intros generated w.
  - cbn. split; [reflexivity | exists []; now rewrite app_nil_r].
  - cbn [foldW]. unfold bindM.
    destruct (inventory_row_frame col_map r generated w) as (Hsh & extra & Hfi).
    destruct (inventory_row col_map r generated w) as [[g|e] w1]; cbn [snd] in *.
    + destruct (IH g w1) as (Hsh' & extra' & Hfi').
      split; [congruence|]. exists (extra ++ extra')%list.
      rewrite Hfi', Hfi, app_assoc. reflexivity.
    + split; [exact Hsh|]. exists extra. exact Hfi.
Qed.



(* ===================================================================== *)
(** * Inventory mode: placeholder records, in the whole run *)
(* ===================================================================== *)

Lemma dict_get_set (key k value : string) (d : dict) :
  dict_get key (dict_set k value d)
  = if String.eqb k key then Some value else dict_get key d.
Proof.
  induction d as [|[k' v'] d IH]; simpl.
  - reflexivity.
  - destruct (String.eqb_spec k' k) as [->|Hne]; simpl.
    + destruct (String.eqb k key); reflexivity.
    + destruct (String.eqb_spec k' key) as [->|Hne'].
      * destruct (String.eqb_spec k key) as [->|]; [contradiction | reflexivity].
      * exact IH.
Qed.

Lemma detect_column_in (d : dict) (c key col : string) :
  dict_get key (detect_column d c) = Some col ->
  col = c \/ dict_get key d = Some col.
Proof.
  unfold detect_column.
  repeat match goal with
         | |- context [if ?b then _ else _] => destruct b
         end;
    rewrite ?dict_get_set;
    try match goal with
        | |- context [String.eqb ?a key] => destruct (String.eqb a key)
        end;
    intros H; try (inversion H; subst); auto.
Qed.

Lemma detect_columns_from (cols : list string) (d : dict) (key col : string) :
  dict_get key (fold_left detect_column cols d) = Some col ->
  In col cols \/ dict_get key d = Some col.
Proof.
  revert d. induction cols as [|c cols IH]; intros d H; simpl in *; [auto|].
  apply IH in H. destruct H as [H|H]; [auto|].
  apply detect_column_in in H. destruct H as [->|H]; auto.
Qed.

Lemma detect_columns_in (cols : list string) (key col : string) :
  dict_get key (detect_columns cols) = Some col -> In col cols.
Proof.
  intros H. apply detect_columns_from in H. destruct H as [H|H];
    [exact H | discriminate].
Qed.

Lemma nothing_missing (col_map : dict) (key : string) :
  missing_columns col_map = [] ->
  In key ["serial"; "hostname"; "mgmt_ip"] ->
  exists col, dict_get key col_map = Some col.
Proof.
  unfold missing_columns, dict_mem. cbn [filter].
  destruct (dict_get "serial" col_map) as [c1|] eqn:E1; cbn [negb]; [|discriminate].
  destruct (dict_get "hostname" col_map) as [c2|] eqn:E2; cbn [negb]; [|discriminate].
  destruct (dict_get "mgmt_ip" col_map) as [c3|] eqn:E3; cbn [negb]; [|discriminate].
  intros _ Hkey. simpl in Hkey.
  destruct Hkey as [<-|[<-|[<-|[]]]]; eexists; eassumption || reflexivity.
Qed.

(** Once every field has its column, reading a field never raises. *)
Lemma inventory_field_located (cols : list string) (cells : list cell) (key : string) :
  missing_columns (detect_columns cols) = [] ->
  In key ["serial"; "hostname"; "mgmt_ip"] ->
  exists text, inventory_field (detect_columns cols) (label cols cells) key = Ok text.
Proof.
  intros Hmissing Hkey.
  destruct (nothing_missing _ key Hmissing Hkey) as (col & Hcol).
  destruct (lookup_label col cols cells (detect_columns_in _ _ _ Hcol)) as (c & Hc).
  unfold inventory_field, dict_getitem, getitem. rewrite Hcol. cbn [bind].
  rewrite Hc. cbn [bind]. eexists. reflexivity.
Qed.

Lemma foldM_ext {A S} (f g : A -> S -> result S) (l : list A) (acc : S) :
  (forall x a, f x a = g x a) -> foldM f l acc = foldM g l acc.
Proof.
  intros H. revert acc. induction l as [|x l IH]; intros acc; simpl; [reflexivity|].
  rewrite H. destruct (g x acc); simpl; auto.
Qed.

Lemma find_sheet_app (name : string) (wb1 wb2 : list (string * DataFrame)) :
  find_sheet name (wb1 ++ wb2)
  = match find_sheet name wb1 with
    | Some df => Some df
    | None => find_sheet name wb2
    end.
Proof.
  induction wb1 as [|[n d] wb1 IH]; simpl; [reflexivity|].
  destruct (String.eqb n name); [reflexivity | exact IH].
Qed.

Lemma same_but_inventory_frames (wb1 wb2 : list (string * DataFrame))
    (d d' : DataFrame) :
  same_but_inventory (wb1 ++ ("Inventory", d) :: wb2)
                     (wb1 ++ ("Inventory", d') :: wb2).
Proof.
  split.
  - rewrite !map_app. reflexivity.
  - intros name Hname. rewrite !find_sheet_app. cbn [find_sheet].
    destruct (String.eqb_spec "Inventory" name) as [<-|]; [contradiction|].
    reflexivity.
Qed.

Lemma assemble_same_but_inventory (wb wb' : list (string * DataFrame))
    (serial_number hostname mgmt_ip : string) :
  same_but_inventory wb wb' ->
  assemble wb serial_number hostname mgmt_ip
  = assemble wb' serial_number hostname mgmt_ip.
Proof.
  intros (Hnames & Hfind). unfold assemble, system_part, management_part.
  rewrite <- Hnames, <- !Hfind by discriminate.
  rewrite (foldM_ext (handled_part wb) (handled_part wb')); [reflexivity|].
  intros name acc. unfold handled_part.
  destruct (String.eqb_spec name "Inventory") as [->|Hne]; [reflexivity|].
  rewrite (Hfind name Hne). reflexivity.
Qed.

Lemma inventory_row_same (col_map : dict) (r : row) (generated : list string)
    (w w' : world) :
  same_but_inventory (sheets w) (sheets w') ->
  files w = files w' ->
  stdout w = stdout w' ->
  outcome (inventory_row col_map r generated w)
  = outcome (inventory_row col_map r generated w')
  /\ sheets (snd (inventory_row col_map r generated w)) = sheets w
  /\ sheets (snd (inventory_row col_map r generated w')) = sheets w'.
Proof.
  intros Hsheets Hfiles Hstdout. unfold outcome.
  destruct (inventory_field col_map r "serial") as [serial|e] eqn:Hs.
  2:{ unfold inventory_row, bindM, lift. rewrite Hs. cbn.
      rewrite Hfiles, Hstdout. auto. }
  destruct (inventory_field col_map r "hostname") as [hostname|e] eqn:Hh.
  2:{ unfold inventory_row, bindM, lift. rewrite Hs, Hh. cbn.
      rewrite Hfiles, Hstdout. auto. }
  destruct (inventory_field col_map r "mgmt_ip") as [mgmt_ip|e] eqn:Hi.
  2:{ unfold inventory_row, bindM, lift. rewrite Hs, Hh, Hi. cbn.
      rewrite Hfiles, Hstdout. auto. }
  destruct (placeholder serial) eqn:Hq.
  { unfold inventory_row, bindM, lift. rewrite Hs, Hh, Hi, Hq. cbn.
    rewrite Hfiles, Hstdout. auto. }
  destruct (inventory_row_qualifying col_map r generated w _ _ _ Hs Hh Hi Hq)
    as (w1 & (Hsh & Hfi & Hout) & ->).
  destruct (inventory_row_qualifying col_map r generated w' _ _ _ Hs Hh Hi Hq)
    as (w1' & (Hsh' & Hfi' & Hout') & ->).
  rewrite (assemble_same_but_inventory _ _ serial hostname mgmt_ip Hsheets).
  destruct (assemble (sheets w') serial hostname mgmt_ip) as [lines|e];
    cbn [bind fst snd sheets files stdout];
    rewrite Hfi, Hfi', Hout, Hout', Hfiles, Hstdout; auto.
Qed.

Lemma inventory_loop_same (col_map : dict) (rows : list row)
    (generated : list string) (w w' : world) :
  same_but_inventory (sheets w) (sheets w') ->
  files w = files w' ->
  stdout w = stdout w' ->
  outcome (foldW (inventory_row col_map) rows generated w)
  = outcome (foldW (inventory_row col_map) rows generated w').
Proof.
  revert generated w w'.
  induction rows as [|r rows IH]; intros generated w w' Hsheets Hfiles Hstdout.
  - unfold outcome. cbn. congruence.
  - cbn [foldW]. unfold bindM.
    destruct (inventory_row_same col_map r generated w w' Hsheets Hfiles Hstdout)
      as (Hout & Hsh & Hsh').
    unfold outcome in Hout.
    destruct (inventory_row col_map r generated w) as [[g|e] w1];
      destruct (inventory_row col_map r generated w') as [[g'|e'] w1'];
      cbn [fst snd] in *; inversion Hout; subst.
    + apply IH; congruence.
    + unfold outcome. cbn. congruence.
Qed.



(** The sample inventory has three records, the second with a blank
    serial: two files are written and counted. *)
Example two_of_three_records_written :
  outcome (convert_excel_to_junos (pristine SampleInventory.workbook))
  = (Ok (Some ["ABC123.cfg"; "XYZ789.cfg"]),
     files (snd (convert_excel_to_junos (pristine SampleInventory.workbook))),
     [ Generated "ABC123.cfg" "sw1" "10.0.0.1";
       Generated "XYZ789.cfg" "nan" "10.0.0.3";
       Summary 2 ])
  /\ map fst (files (snd (convert_excel_to_junos (pristine SampleInventory.workbook))))
     = ["ABC123.cfg"; "XYZ789.cfg"].
Proof. split; vm_compute; reflexivity. Qed.

(* ===================================================================== *)
(** * Inventory mode: blank host name and address cells *)
(* ===================================================================== *)

Lemma index_of_lookup (key : string) (cols : list string) (cells : list cell) (i : nat) :
  index_of key cols = Some i ->
  lookup key (label cols cells) = Some (nth i cells NaN).
Proof.
  revert cells i. induction cols as [|k cols IH]; intros cells i H; [discriminate|].
  simpl in *. destruct (String.eqb k key).
  - injection H as <-. destruct cells; reflexivity.
  - destruct (index_of key cols) as [j|] eqn:E; [|discriminate].
    injection H as <-. rewrite (IH (tl cells) j eq_refl).
    destruct cells; [destruct j|]; reflexivity.
Qed.

Lemma index_of_nth (key : string) (cols : list string) (i : nat) :
  index_of key cols = Some i -> nth i cols "" = key /\ i < length cols.
Proof.
  revert i. induction cols as [|k cols IH]; intros i H; [discriminate|].
  simpl in *. destruct (String.eqb_spec k key) as [->|Hne].
  - injection H as <-. split; [reflexivity | lia].
  - destruct (index_of key cols) as [j|]; [|discriminate].
    injection H as <-. destruct (IH j eq_refl). split; [assumption | lia].
Qed.

Lemma index_of_app (key : string) (cols more : list string) (i : nat) :
  index_of key cols = Some i -> index_of key (cols ++ more)%list = Some i.
Proof.
  revert i. induction cols as [|k cols IH]; intros i H; [discriminate|].
  simpl in *. destruct (String.eqb k key); [exact H|].
  destruct (index_of key cols) as [j|]; [|discriminate].
  rewrite (IH j eq_refl). exact H.
Qed.

Lemma index_of_app_new (key : string) (cols : list string) :
  index_of key cols = None ->
  index_of key (cols ++ [key])%list = Some (length cols).
Proof.
  induction cols as [|k cols IH]; intros H; simpl in *.
  - rewrite String.eqb_refl. reflexivity.
  - destruct (String.eqb k key); [discriminate|].
    destruct (index_of key cols); [discriminate|]. rewrite IH; reflexivity.
Qed.

Lemma nth_set_nth_same (v : nat) (x : cell) (l : list cell) :
  nth v (set_nth v x l) NaN = x.
Proof.
  revert l. induction v as [|v IH]; intros [|y l]; simpl; auto.
Qed.

Lemma nth_set_nth_other (p v : nat) (x : cell) (l : list cell) :
  p <> v -> nth p (set_nth v x l) NaN = nth p l NaN.
Proof.
  revert p l. induction v as [|v IH]; intros [|p] [|y l] H; simpl; auto;
    try contradiction.
  - destruct p; reflexivity.
  - rewrite IH by lia. destruct p; reflexivity.
Qed.

Lemma assigned_spec (df : DataFrame) (param value : string) (p : nat) :
  index_of "Parameter" (columns df) = Some p ->
  exists cols v,
    assigned df param value
    = Ok (mkDataFrame cols (map (assign_row p v param value) (data df)))
    /\ index_of "Parameter" cols = Some p
    /\ index_of "Value" cols = Some v
    /\ p <> v
    /\ (forall v0, index_of "Value" (columns df) = Some v0 -> v = v0).
Proof.
  intros Hp. unfold assigned. rewrite Hp.
  destruct (index_of "Value" (columns df)) as [v|] eqn:Hv.
  - exists (columns df), v. repeat split; try assumption.
    + intros ->. apply index_of_nth in Hp, Hv.
      destruct Hp as (Hp & _), Hv as (Hv & _). congruence.
    + intros v0 [= ->]. reflexivity.
  - exists (columns df ++ ["Value"])%list, (length (columns df)).
    repeat split.
    + apply index_of_app, Hp.
    + apply index_of_app_new, Hv.
    + apply index_of_nth in Hp. lia.
    + intros v0 [=].
Qed.

Lemma system_row_grows (r : row) (commands commands' : list string)
    (sn sn' : option cell) :
  system_row r (commands, sn) = Ok (commands', sn') ->
  exists extra, commands' = (commands ++ extra)%list.
Proof.
  unfold system_row.
  destruct (getitem r "Parameter") as [param|]; cbn [bind]; [|discriminate].
  destruct (getitem r "Value") as [value|]; cbn [bind]; [|discriminate].
  destruct (filled value); cbv iota.
  2:{ intros H; inversion H; subst; clear H. exists []. now rewrite app_nil_r. }
  destruct (eq_str param "serial_number"); cbv iota.
  { intros H; inversion H; subst; clear H. exists []. now rewrite app_nil_r. }
  destruct (config_map_cell param) as [[template|]|]; cbv iota.
  - intros H; inversion H; subst; clear H. eexists. reflexivity.
  - destruct (as_str "startswith" param) as [p|]; cbn [bind]; [|discriminate].
    destruct (PyStr.startswith "name_server" p); cbv iota; intros H; inversion H; subst; clear H.
    + eexists. reflexivity.
    + exists []. now rewrite app_nil_r.
  - destruct (as_str "startswith" param) as [p|]; cbn [bind]; [|discriminate].
    destruct (PyStr.startswith "name_server" p); cbv iota; intros H; inversion H; subst; clear H.
    + eexists. reflexivity.
    + exists []. now rewrite app_nil_r.
Qed.

Lemma system_rows_grow (rows : list row) (commands commands' : list string)
    (sn sn' : option cell) :
  foldM system_row rows (commands, sn) = Ok (commands', sn') ->
  exists extra, commands' = (commands ++ extra)%list.
Proof.
  revert commands sn. induction rows as [|r rows IH]; intros commands sn;
    cbn [foldM].
  - intros H; inversion H; subst; clear H. exists []. now rewrite app_nil_r.
  - destruct (system_row r (commands, sn)) as [[c1 sn1]|] eqn:E; cbn [bind];
      [|discriminate].
    intros H. apply system_row_grows in E. destruct E as (e1 & ->).
    apply IH in H. destruct H as (e2 & ->).
    exists (e1 ++ e2)%list. now rewrite app_assoc.
Qed.

Lemma system_row_hostname (r : row) (commands : list string) (sn : option cell)
    (hostname : string) :
  getitem r "Parameter" = Ok (Str "hostname") ->
  getitem r "Value" = Ok (Str hostname) ->
  hostname <> "" ->
  system_row r (commands, sn)
  = Ok (append commands ("set system host-name " ++ hostname), sn).
Proof.
  intros Hp Hv Hne. unfold system_row. rewrite Hp, Hv. cbn [bind].
  rewrite (filled_text _ Hne). reflexivity.
Qed.

Lemma generate_system_config_hostname (cols : list string)
    (before after : list (list cell)) (cells : list cell) (p v : nat)
    (hostname : string) (commands : list string) (sn : option cell) :
  index_of "Parameter" cols = Some p ->
  index_of "Value" cols = Some v ->
  nth p cells NaN = Str "hostname" ->
  nth v cells NaN = Str hostname ->
  hostname <> "" ->
  generate_system_config (mkDataFrame cols (before ++ cells :: after))
  = Ok (commands, sn) ->
  In ("set system host-name " ++ hostname) commands.
Proof.
  intros Hp Hv Hparam Hvalue Hne. unfold generate_system_config, iterrows.
  cbn [columns data]. rewrite map_app. cbn [map]. rewrite foldM_app.
  destruct (foldM system_row (map (label cols) before) _) as [[c1 sn1]|];
    cbn [bind]; [|discriminate].
  cbn [foldM].
  rewrite (system_row_hostname _ c1 sn1 hostname); try assumption.
  2:{ unfold getitem. rewrite (index_of_lookup _ _ _ _ Hp), Hparam. reflexivity. }
  2:{ unfold getitem. rewrite (index_of_lookup _ _ _ _ Hv), Hvalue. reflexivity. }
  cbn [bind].
  destruct (foldM system_row (map (label cols) after) _) as [[c2 sn2]|] eqn:E;
    cbn [bind]; [|discriminate].
  intros H; inversion H; subst; clear H. apply system_rows_grow in E. destruct E as (extra & ->).
  unfold append. rewrite !in_app_iff. simpl. tauto.
Qed.

Lemma system_part_hostname (wb : list (string * DataFrame)) (df : DataFrame)
    (serial_number hostname : string) (p : nat) (cells : list cell)
    (commands : list string) :
  find_sheet "System" wb = Some df ->
  index_of "Parameter" (columns df) = Some p ->
  In cells (data df) ->
  nth p cells NaN = Str "hostname" ->
  hostname <> "" ->
  system_part wb serial_number hostname = Ok commands ->
  In ("set system host-name " ++ hostname) commands.
Proof.
  intros Hdf Hp Hin Hparam Hne. unfold system_part. rewrite Hdf.
  destruct (assigned_spec df "hostname" hostname p Hp)
    as (cols1 & v1 & -> & Hp1 & Hv1 & Hpv1 & _).
  cbn [bind].
  destruct (assigned_spec (mkDataFrame cols1
              (map (assign_row p v1 "hostname" hostname) (data df)))
              "serial_number" serial_number p Hp1)
    as (cols2 & v2 & -> & Hp2 & Hv2 & Hpv2 & Hsame).
  cbn [bind data columns] in *.
  specialize (Hsame v1 Hv1). subst v2.
  apply in_split in Hin. destruct Hin as (before & after & ->).
  rewrite !map_app. cbn [map].
  destruct (generate_system_config _) as [[cmds sn]|] eqn:E; cbn [bind];
    [|discriminate].
  intros H. inversion H. subst. clear H.
  assert (H1 : assign_row p v1 "serial_number" serial_number
                 (assign_row p v1 "hostname" hostname cells)
               = set_nth v1 (Str hostname) cells).
  { unfold assign_row at 2. rewrite Hparam. cbn [eq_str]. rewrite String.eqb_refl.
    unfold assign_row. rewrite nth_set_nth_other by exact Hpv1.
    rewrite Hparam. reflexivity. }
  rewrite H1 in E.
  eapply generate_system_config_hostname in E; try eassumption.
  - rewrite nth_set_nth_other by exact Hpv1. exact Hparam.
  - apply nth_set_nth_same.
Qed.

Lemma assemble_lines (wb : list (string * DataFrame))
    (serial_number hostname mgmt_ip : string) (lines : list string) :
  assemble wb serial_number hostname mgmt_ip = Ok lines ->
  exists system_cmds rest,
    system_part wb serial_number hostname = Ok system_cmds
    /\ lines = (header serial_number hostname mgmt_ip ++ system_cmds ++ rest)%list.
Proof.
  unfold assemble.
  destruct (system_part wb serial_number hostname) as [sys|]; cbn [bind];
    [|discriminate].
  destruct (foldM (handled_part wb) (map fst wb) []) as [mid|]; cbn [bind];
    [|discriminate].
  destruct (management_part wb mgmt_ip) as [mg|]; cbn [bind]; [|discriminate].
  intros H. inversion H. exists sys, (mid ++ mg)%list. split; reflexivity.
Qed.



(** The document of such a record in the sample workbook. *)
Example third_switch_lines :
  fst (build_config_lines "XYZ789" "nan" "10.0.0.3"
         (pristine SampleInventory.workbook))
  = Ok [ "# Juniper EX Switch Configuration";
         "# Generated from Excel template";
         "# Switch Serial Number: XYZ789";
         "# Hostname           : nan";
         "# Management IP      : 10.0.0.3";
         "############################################################";
         "";
         "# System Configuration";
         "set system host-name nan";
         "set system domain-name example.com";
         "";
         "# NTP Configuration";
         "set system ntp server 10.0.0.5 prefer";
         "";
         "# Management Interface Configuration";
         "set interfaces me0 unit 0 family inet address 10.0.0.3/24";
         "set routing-options static route 0.0.0.0/0 next-hop 192.168.1.254";
         "" ].
Proof. vm_compute. reflexivity. Qed.

(* ===================================================================== *)
(** * SNMP rows without a colon *)
(* ===================================================================== *)

Lemma colonless_raises (c : cell) :
  colonless c = true -> filled c = true /\ is_ok (split_pair c) = false.
Proof.
  destruct c as [|s|z]; simpl; try discriminate.
  intros H. apply andb_true_iff in H. destruct H as (Hne & Hcolon).
  apply negb_true_iff in Hcolon. split.
  - unfold filled, ne_str. simpl. exact Hne.
  - unfold split_pair. cbn [as_str bind].
    rewrite (split1_without_separator _ _ Hcolon). reflexivity.
Qed.

Lemma malformed_v3_user_raises (r : row) (commands : list string) :
  malformed_v3_user r = true -> is_ok (snmp_row r commands) = false.
Proof.
  unfold malformed_v3_user, snmp_row, getitem.
  destruct (lookup "Community/User" r) as [name|]; [|discriminate].
  destruct (lookup "Type" r) as [snmp_type|]; [|discriminate].
  intros H. apply andb_true_iff in H. destruct H as (H & Hcolon).
  apply andb_true_iff in H. destruct H as (Hname & Htype).
  cbn [bind]. rewrite Hname.
  assert (Hcommunity : eq_str snmp_type "community" = false).
  { destruct snmp_type as [|s|z]; try reflexivity. simpl in *.
    apply String.eqb_eq in Htype. subst s. reflexivity. }
  rewrite Hcommunity, Htype.
  destruct (colonless (get r "Authorization" (Str ""))) eqn:Hauth.
  - apply colonless_raises in Hauth. destruct Hauth as (-> & Hsplit).
    destruct (split_pair (get r "Authorization" (Str ""))); [discriminate|].
    reflexivity.
  - simpl in Hcolon. apply colonless_raises in Hcolon.
    destruct Hcolon as (Hfilled & Hsplit).
    destruct (filled (get r "Authorization" (Str ""))).
    + destruct (split_pair (get r "Authorization" (Str ""))) as [[a b]|];
        [|reflexivity].
      cbn [bind]. rewrite Hfilled.
      destruct (split_pair (get r "Privacy" (Str ""))); [discriminate|].
      reflexivity.
    + cbn [bind]. rewrite Hfilled.
      destruct (split_pair (get r "Privacy" (Str ""))); [discriminate|].
      reflexivity.
Qed.

Lemma foldM_raises {A S} (body : A -> S -> result S) (test : A -> bool)
    (l : list A) (acc : S) :
  (forall x a, test x = true -> is_ok (body x a) = false) ->
  existsb test l = true ->
  is_ok (foldM body l acc) = false.
Proof.
  intros Hbody. revert acc. induction l as [|x l IH]; intros acc H; [discriminate|].
  cbn [foldM]. simpl in H.
  destruct (body x acc) as [a|e] eqn:E; [|reflexivity].
  cbn [bind]. destruct (test x) eqn:Hx.
  - specialize (Hbody x acc Hx). rewrite E in Hbody. discriminate.
  - apply IH. exact H.
Qed.

Lemma bind_raises {A B} (m : result A) (k : A -> result B) :
  is_ok m = false -> is_ok (bind m k) = false.
Proof. destruct m; [discriminate | reflexivity]. Qed.

Lemma generate_snmp_config_raises (df : DataFrame) :
  existsb malformed_v3_user (iterrows df) = true ->
  is_ok (generate_snmp_config df) = false.
Proof.
  intros H. unfold generate_snmp_config. apply bind_raises.
  apply (foldM_raises snmp_row malformed_v3_user); [|exact H].
  intros r a. apply malformed_v3_user_raises.
Qed.

Lemma find_sheet_In (name : string) (wb : list (string * DataFrame)) (df : DataFrame) :
  find_sheet name wb = Some df -> In name (map fst wb).
Proof.
  induction wb as [|[n d] wb IH]; [discriminate|]. simpl.
  destruct (String.eqb_spec n name) as [->|]; [left; reflexivity|].
  intros H. right. apply IH, H.
Qed.

Lemma handled_parts_raise (wb : list (string * DataFrame)) (df : DataFrame)
    (names : list string) (acc : list string) :
  find_sheet "SNMP" wb = Some df ->
  is_ok (generate_snmp_config df) = false ->
  In "SNMP" names ->
  is_ok (foldM (handled_part wb) names acc) = false.
Proof.
  intros Hdf Hraise. revert acc.
  induction names as [|n names IH]; intros acc Hin; [destruct Hin|].
  cbn [foldM].
  destruct (handled_part wb n acc) as [acc'|e] eqn:E; [|reflexivity].
  cbn [bind]. destruct Hin as [->|Hin]; [|apply IH, Hin].
  unfold handled_part in E. cbn [sheet_handlers] in E.
  replace (sheet_handlers "SNMP") with (Some generate_snmp_config) in E
    by reflexivity.
  rewrite Hdf in E.
  destruct (generate_snmp_config df); discriminate.
Qed.

Lemma assemble_raises (wb : list (string * DataFrame)) (df : DataFrame)
    (serial_number hostname mgmt_ip : string) :
  find_sheet "SNMP" wb = Some df ->
  existsb malformed_v3_user (iterrows df) = true ->
  is_ok (assemble wb serial_number hostname mgmt_ip) = false.
Proof.
  intros Hdf Hbad. unfold assemble.
  destruct (system_part wb serial_number hostname); [|reflexivity].
  cbn [bind]. apply bind_raises.
  eapply handled_parts_raise; eauto using generate_snmp_config_raises, find_sheet_In.
Qed.

Lemma build_config_raises (w : world) (df : DataFrame)
    (serial_number hostname mgmt_ip : string) :
  find_sheet "SNMP" (sheets w) = Some df ->
  existsb malformed_v3_user (iterrows df) = true ->
  is_ok (fst (build_config serial_number hostname mgmt_ip w)) = false
  /\ same_outside_heap w (snd (build_config serial_number hostname mgmt_ip w)).
Proof.
  intros Hdf Hbad.
  destruct (build_config_spec serial_number hostname mgmt_ip w) as (w1 & -> & Hw1).
  split; [|exact Hw1]. cbn [fst]. apply bind_raises.
  eapply assemble_raises; eassumption.
Qed.

Section Quiet.

Context {A B : Type}.

Lemma quiet_ret (a : A) : quiet (ret a).
Proof. intros w. split; reflexivity. Qed.

Lemma quiet_lift (m : result A) : quiet (lift m).
Proof. intros w. split; reflexivity. Qed.

Lemma quiet_bind (m : M A) (k : A -> M B) :
  quiet m -> (forall a, quiet (k a)) -> quiet (bindM m k).
Proof.
  intros Hm Hk w. unfold bindM. specialize (Hm w).
  destruct (m w) as [[a|e] w1]; cbn [snd] in *; [|exact Hm].
  destruct (Hk a w1) as (H1 & H2). destruct Hm as (H3 & H4).
  split; congruence.
Qed.

Lemma fails_quietly_bind_l (wb : list (string * DataFrame)) (m : M A) (k : A -> M B) :
  fails_quietly wb m -> fails_quietly wb (bindM m k).
Proof.
  intros Hm w Hw. unfold bindM. specialize (Hm w Hw).
  destruct (m w) as [[a|e] w1]; cbn [fst snd] in *; [|exact Hm].
  destruct Hm. discriminate.
Qed.

Lemma fails_quietly_bind_r (wb : list (string * DataFrame)) (m : M A) (k : A -> M B) :
  quiet m -> (forall a, fails_quietly wb (k a)) -> fails_quietly wb (bindM m k).
Proof.
  intros Hm Hk w Hw. unfold bindM. destruct (Hm w) as (H1 & H2).
  destruct (m w) as [[a|e] w1]; cbn [fst snd] in *.
  - destruct (Hk a w1) as (H3 & H4); [congruence|]. split; congruence.
  - split; [reflexivity | exact H2].
Qed.

End Quiet.

Lemma quiet_sheet_names : quiet sheet_names.
Proof. intros w. split; reflexivity. Qed.

Lemma quiet_read_excel (name : string) : quiet (read_excel name).
Proof.
  intros w. unfold read_excel.
  destruct (find_sheet name (sheets w)); split; reflexivity.
Qed.

Lemma quiet_load (ref : nat) : quiet (load ref).
Proof. intros w. split; reflexivity. Qed.

Lemma quiet_modify (ref : nat) (f : DataFrame -> DataFrame) : quiet (modify ref f).
Proof. intros w. split; reflexivity. Qed.

Lemma quiet_print (m : message) : quiet (print m).
Proof. intros w. split; reflexivity. Qed.

Section MalformedSnmp.

Variables (wb : list (string * DataFrame)) (df : DataFrame).
Hypothesis Hsnmp : find_sheet "SNMP" wb = Some df.
Hypothesis Hmalformed : existsb malformed_v3_user (iterrows df) = true.

Lemma build_config_fails_quietly (serial_number hostname mgmt_ip : string) :
  fails_quietly wb (build_config serial_number hostname mgmt_ip).
Proof.
  intros w Hw. subst wb.
  destruct (build_config_raises w df serial_number hostname mgmt_ip Hsnmp Hmalformed)
    as (H1 & _ & H2 & _).
  split; assumption.
Qed.

Lemma legacy_mode_fails_quietly : fails_quietly wb legacy_mode.
Proof.
  unfold legacy_mode.
  apply fails_quietly_bind_r; [apply quiet_read_excel | intros df_sys].
  apply fails_quietly_bind_r; [apply quiet_load | intros d].
  apply fails_quietly_bind_r; [apply quiet_lift | intros [serial hostname]].
  apply fails_quietly_bind_r; [apply quiet_sheet_names | intros names].
  apply fails_quietly_bind_r.
  - destruct (mem "Management" names); [|apply quiet_ret].
    apply quiet_bind; [apply quiet_read_excel | intros df_m].
    apply quiet_bind; [apply quiet_load | intros m].
    destruct (negb (empty m)); [|apply quiet_ret].
    apply quiet_bind; [apply quiet_lift | intros c]. apply quiet_ret.
  - intros mgmt_ip. apply fails_quietly_bind_l, build_config_fails_quietly.
Qed.

Lemma inventory_row_malformed (col_map : dict) (r : row) (generated : list string)
    (w : world) :
  sheets w = wb ->
  sheets (snd (inventory_row col_map r generated w)) = wb
  /\ files (snd (inventory_row col_map r generated w)) = files w
  /\ (fst (inventory_row col_map r generated w) = Ok generated
      \/ is_ok (fst (inventory_row col_map r generated w)) = false).
Proof.
  intros Hw.
  destruct (inventory_field col_map r "serial") as [serial|e] eqn:Hs.
  2:{ unfold inventory_row, bindM, lift. rewrite Hs. cbn. auto. }
  destruct (inventory_field col_map r "hostname") as [hostname|e] eqn:Hh.
  2:{ unfold inventory_row, bindM, lift. rewrite Hs, Hh. cbn. auto. }
  destruct (inventory_field col_map r "mgmt_ip") as [mgmt_ip|e] eqn:Hi.
  2:{ unfold inventory_row, bindM, lift. rewrite Hs, Hh, Hi. cbn. auto. }
  destruct (placeholder serial) eqn:Hq.
  { unfold inventory_row, bindM, lift. rewrite Hs, Hh, Hi, Hq. cbn. auto. }
  destruct (inventory_row_qualifying col_map r generated w _ _ _ Hs Hh Hi Hq)
    as (w1 & (Hsh & Hfi & _) & ->).
  pose proof (assemble_raises (sheets w) df serial hostname mgmt_ip) as Hraise.
  rewrite Hw in Hraise. specialize (Hraise Hsnmp Hmalformed). rewrite Hw.
  destruct (assemble wb serial hostname mgmt_ip); [discriminate|].
  cbn. repeat split; try congruence. right. reflexivity.
Qed.

Lemma inventory_loop_malformed (col_map : dict) (rows : list row)
    (generated : list string) (w : world) :
  sheets w = wb ->
  files (snd (foldW (inventory_row col_map) rows generated w)) = files w
  /\ (fst (foldW (inventory_row col_map) rows generated w) = Ok generated
      \/ is_ok (fst (foldW (inventory_row col_map) rows generated w)) = false).
Proof.
  revert w. induction rows as [|r rows IH]; intros w Hw.
  - cbn. auto.
  - cbn [foldW]. unfold bindM.
    destruct (inventory_row_malformed col_map r generated w Hw)
      as (Hsh & Hfi & Hres).
    destruct (inventory_row col_map r generated w) as [[g|e] w1]; cbn [fst snd] in *.
    + destruct Hres as [Hres|Hres]; [|discriminate]. inversion Hres. subst g.
      destruct (IH w1 Hsh) as (H1 & H2). split; [congruence | exact H2].
    + split; [exact Hfi | right; reflexivity].
Qed.

End MalformedSnmp.





(* ===================================================================== *)
(** * Generators: when they raise *)
(* ===================================================================== *)

Lemma foldM_ok {A S} (body : A -> S -> result S) (l : list A) (acc : S) :
  (forall x a, In x l -> is_ok (body x a) = true) ->
  is_ok (foldM body l acc) = true.
Proof.
  revert acc. induction l as [|x l IH]; intros acc H; [reflexivity|].
  cbn [foldM]. pose proof (H x acc (or_introl eq_refl)) as Hx.
  destruct (body x acc) as [a|e]; [|discriminate]. cbn [bind].
  apply IH. intros y b Hy. apply H. right. exact Hy.
Qed.

Lemma bind_ok {A B} (m : result A) (k : A -> result B) :
  is_ok m = true -> (forall a, is_ok (k a) = true) -> is_ok (bind m k) = true.
Proof. destruct m; [intros _ H; apply H | discriminate]. Qed.

(** Closes a goal [is_ok body = true] whose reads have been resolved. *)
Ltac all_branches_ok :=
  cbn [bind];
  repeat match goal with
         | |- context [if ?b then _ else _] => destruct b
         end;
  reflexivity.

Section ReadsOnly.

Variables (cols : list string) (cells : list cell) (override_ip : option string).

Lemma ntp_row_ok acc :
  incl (mandatory NTP override_ip) cols ->
  is_ok (ntp_row (label cols cells) acc) = true.
Proof. intros Hcols. unfold ntp_row. present "NTP Server". all_branches_ok. Qed.

Lemma syslog_row_ok acc :
  incl (mandatory Syslog override_ip) cols ->
  is_ok (syslog_row (label cols cells) acc) = true.
Proof. intros Hcols. unfold syslog_row. present "Syslog Server". all_branches_ok. Qed.

Lemma tacacs_row_ok acc :
  incl (mandatory TACACS override_ip) cols ->
  is_ok (tacacs_row (label cols cells) acc) = true.
Proof.
  intros Hcols. unfold tacacs_row. present "TACACS Server". present "Secret".
  all_branches_ok.
Qed.

Lemma vlan_row_ok acc :
  incl (mandatory VLANs override_ip) cols ->
  is_ok (vlan_row (label cols cells) acc) = true.
Proof.
  intros Hcols. unfold vlan_row. present "VLAN ID". present "VLAN Name".
  all_branches_ok.
Qed.

Lemma interface_row_ok vlans_test acc :
  incl (mandatory Interfaces override_ip) cols ->
  is_ok (interface_row vlans_test (label cols cells) acc) = true.
Proof.
  intros Hcols. unfold interface_row. present "Interface". present "Mode".
  all_branches_ok.
Qed.

Lemma management_row_ok acc :
  incl (mandatory Management override_ip) cols ->
  is_ok (management_row override_ip (label cols cells) acc) = true.
Proof.
  intros Hcols. unfold management_row. cbn [mandatory] in Hcols.
  destruct (truthy override_ip).
  - present "Interface". present "Prefix Length". all_branches_ok.
  - present "Interface". present "IP Address". present "Prefix Length".
    all_branches_ok.
Qed.

End ReadsOnly.

(** X1: the generators of the NTP, Syslog, TACACS, VLANs, Interfaces and
    Management sheets never raise on a frame that has the columns they
    read by subscript, whatever the cells hold: they only read cells and
    format them. *)
Theorem reading_generators_never_raise
    (d : domain) (override_ip : option string) (cols : list string)
    (rows : list (list cell))
    (Hreads : reads_only d = true)
    (Hcols : incl (mandatory d override_ip) cols) :
  is_ok (mapper d override_ip (mkDataFrame cols rows)) = true.
Proof.
  destruct d; try discriminate; cbn [mapper];
    unfold generate_ntp_config, generate_syslog_config, generate_tacacs_config,
      generate_vlan_config, generate_interface_config, generate_management_config;
    (apply bind_ok; [|reflexivity]);
    apply foldM_ok; intros r a Hr;
    unfold iterrows in Hr; cbn [columns data] in Hr;
    apply in_map_iff in Hr; destruct Hr as (cells & <- & _);
    eauto using ntp_row_ok, syslog_row_ok, tacacs_row_ok, vlan_row_ok,
      interface_row_ok, management_row_ok.
Qed.

Lemma reading_generators_never_raise_witness :
  (reads_only Interfaces = true
   /\ incl (mandatory Interfaces None) ["Interface"; "Mode"; "Speed"])
  /\ is_ok (mapper Interfaces None
              (mkDataFrame ["Interface"; "Mode"; "Speed"]
                 [[Int 5; NaN; Int 100]; [Str "ge-0/0/1"; Str "trunk"]])) = true.
Proof.
  assert (H1 : reads_only Interfaces = true) by reflexivity.
  assert (H2 : incl (mandatory Interfaces None) ["Interface"; "Mode"; "Speed"]).
  { intros k Hk. simpl in *. tauto. }
  split; [auto|].
  exact (reading_generators_never_raise Interfaces None
           ["Interface"; "Mode"; "Speed"]
           [[Int 5; NaN; Int 100]; [Str "ge-0/0/1"; Str "trunk"]] H1 H2).
Defined.

Lemma lookup_label_absent (key : string) (cols : list string) (cells : list cell) :
  ~ In key cols -> lookup key (label cols cells) = None.
Proof.
  revert cells. induction cols as [|k cols IH]; intros cells H; [reflexivity|].
  simpl. destruct (String.eqb_spec k key) as [->|Hne].
  - exfalso. apply H. left. reflexivity.
  - apply IH. intros Hin. apply H. right. exact Hin.
Qed.

(** Reads the mandatory columns of the row at hand one after the other,
    until the one that is missing. *)
Ltac read_until_missing :=
  repeat match goal with
         | Hmiss : lookup ?key ?r = None |- context [getitem ?r ?key] =>
             unfold getitem at 1; rewrite Hmiss; reflexivity
         | |- context [bind (getitem ?r ?k) _] =>
             let E := fresh "E" in
             destruct (getitem r k) eqn:E; cbn [bind]; [|reflexivity]
         end.

Section MissingColumn.

Variables (r : row) (key : string) (override_ip : option string).
Hypothesis Hmissing : lookup key r = None.

Ltac pick_key H :=
  simpl in H;
  repeat match type of H with
         | _ \/ _ => destruct H as [H|H]
         | False => destruct H
         end;
  subst key.

Lemma system_row_missing acc :
  In key (mandatory System override_ip) -> is_ok (system_row r acc) = false.
Proof.
  intros H. unfold system_row. destruct acc. pick_key H; read_until_missing.
Qed.

Lemma ntp_row_missing acc :
  In key (mandatory NTP override_ip) -> is_ok (ntp_row r acc) = false.
Proof. intros H. unfold ntp_row. pick_key H; read_until_missing. Qed.

Lemma syslog_row_missing acc :
  In key (mandatory Syslog override_ip) -> is_ok (syslog_row r acc) = false.
Proof. intros H. unfold syslog_row. pick_key H; read_until_missing. Qed.

Lemma tacacs_row_missing acc :
  In key (mandatory TACACS override_ip) -> is_ok (tacacs_row r acc) = false.
Proof. intros H. unfold tacacs_row. pick_key H; read_until_missing. Qed.

Lemma vlan_row_missing acc :
  In key (mandatory VLANs override_ip) -> is_ok (vlan_row r acc) = false.
Proof. intros H. unfold vlan_row. pick_key H; read_until_missing. Qed.

Lemma irb_row_missing acc :
  In key (mandatory IRB_Interfaces override_ip) -> is_ok (irb_row r acc) = false.
Proof. intros H. unfold irb_row. pick_key H; read_until_missing. Qed.

Lemma interface_row_missing vlans_test acc :
  In key (mandatory Interfaces override_ip) ->
  is_ok (interface_row vlans_test r acc) = false.
Proof. intros H. unfold interface_row. pick_key H; read_until_missing. Qed.

Lemma management_row_missing acc :
  In key (mandatory Management override_ip) ->
  is_ok (management_row override_ip r acc) = false.
Proof.
  intros H. unfold management_row. cbn [mandatory] in H.
  destruct (truthy override_ip); pick_key H; read_until_missing.
Qed.

Lemma hardening_row_missing acc :
  In key (mandatory Hardening override_ip) -> is_ok (hardening_row r acc) = false.
Proof.
  intros H. unfold hardening_row. destruct acc. pick_key H; read_until_missing.
Qed.

Lemma snmp_row_missing acc :
  In key (mandatory SNMP override_ip) -> is_ok (snmp_row r acc) = false.
Proof. intros H. unfold snmp_row. pick_key H; read_until_missing. Qed.

End MissingColumn.

Lemma foldM_first_raises {A S} (body : A -> S -> result S) (x : A) (l : list A)
    (acc : S) :
  is_ok (body x acc) = false -> is_ok (foldM body (x :: l) acc) = false.
Proof. intros H. cbn [foldM]. apply bind_raises, H. Qed.

(** X2: when a frame lacks a column that the generator of its domain reads
    by subscript, the generator raises exactly when the frame has a row:
    the first row already raises, and a frame without rows gives the
    header and the closing line whatever its columns. *)
Theorem missing_column_raises_unless_empty
    (d : domain) (override_ip : option string) (cols : list string)
    (rows : list (list cell)) (key : string)
    (Hmandatory : In key (mandatory d override_ip))
    (Hmissing : ~ In key cols) :
  is_ok (mapper d override_ip (mkDataFrame cols rows)) = false <-> rows <> [].
Proof.
  split.
  - intros H ->. destruct d; vm_compute in H; discriminate.
  - intros Hrows. destruct rows as [|cells rows]; [contradiction|].
    pose proof (lookup_label_absent key cols cells Hmissing) as Hlookup.
    destruct d; cbn [mapper];
      unfold generate_system_config, generate_ntp_config, generate_syslog_config,
        generate_tacacs_config, generate_vlan_config, generate_irb_config,
        generate_interface_config, generate_management_config,
        generate_hardening_config, generate_snmp_config;
      lazymatch goal with
      | |- is_ok (bind (bind _ _) _) = false => apply bind_raises
      | _ => idtac
      end;
      apply bind_raises;
      unfold iterrows; cbn [columns data map];
      apply foldM_first_raises;
      eauto using system_row_missing, ntp_row_missing, syslog_row_missing,
        tacacs_row_missing, vlan_row_missing, irb_row_missing,
        interface_row_missing, management_row_missing, hardening_row_missing,
        snmp_row_missing.
Qed.

Lemma missing_column_raises_unless_empty_witness :
  (In "VLAN Name" (mandatory VLANs None) /\ ~ In "VLAN Name" ["VLAN ID"])
  /\ (is_ok (mapper VLANs None (mkDataFrame ["VLAN ID"] [[Int 10]])) = false
      <-> [[Int 10]] <> []).
Proof.
  assert (H1 : In "VLAN Name" (mandatory VLANs None)) by (simpl; tauto).
  assert (H2 : ~ In "VLAN Name" ["VLAN ID"]).
  { simpl. intros [H|[]]. discriminate H. }
  split; [auto|].
  exact (missing_column_raises_unless_empty VLANs None ["VLAN ID"] [[Int 10]]
           "VLAN Name" H1 H2).
Defined.

(* ===================================================================== *)
(** * Generators: rows put end to end *)
(* ===================================================================== *)

(** Walks through the reads and the tests of a loop body, on the two
    sides of an equation at once. *)
Ltac walk_body :=
  repeat (match goal with
          | |- context [getitem ?r ?k] => destruct (getitem r k)
          | |- context [as_str ?a ?c] => destruct (as_str a c)
          | |- context [split_pair ?c] => destruct (split_pair c) as [[? ?]|]
          | |- context [feature_template ?f] => destruct (feature_template f)
          | |- context [if ?b then _ else _] => destruct b
          end; cbn [bind]);
  unfold append; rewrite <- ?app_assoc; try reflexivity.

Section Shift.

Variables (r : row) (pre acc : list string).

Lemma ntp_row_shift :
  ntp_row r (pre ++ acc) = (x <- ntp_row r acc ;; Ok (pre ++ x)%list).
Proof. unfold ntp_row. walk_body. Qed.

Lemma syslog_row_shift :
  syslog_row r (pre ++ acc) = (x <- syslog_row r acc ;; Ok (pre ++ x)%list).
Proof. unfold syslog_row. walk_body. Qed.

Lemma tacacs_row_shift :
  tacacs_row r (pre ++ acc) = (x <- tacacs_row r acc ;; Ok (pre ++ x)%list).
Proof. unfold tacacs_row. walk_body. Qed.

Lemma vlan_row_shift :
  vlan_row r (pre ++ acc) = (x <- vlan_row r acc ;; Ok (pre ++ x)%list).
Proof. unfold vlan_row. walk_body. Qed.

Lemma irb_row_shift :
  irb_row r (pre ++ acc) = (x <- irb_row r acc ;; Ok (pre ++ x)%list).
Proof. unfold irb_row. walk_body. Qed.

Lemma interface_row_shift vlans_test :
  interface_row vlans_test r (pre ++ acc)
  = (x <- interface_row vlans_test r acc ;; Ok (pre ++ x)%list).
Proof. unfold interface_row. walk_body. Qed.

Lemma management_row_shift override_ip :
  management_row override_ip r (pre ++ acc)
  = (x <- management_row override_ip r acc ;; Ok (pre ++ x)%list).
Proof. unfold management_row. walk_body. Qed.

Lemma snmp_row_shift :
  snmp_row r (pre ++ acc) = (x <- snmp_row r acc ;; Ok (pre ++ x)%list).
Proof. unfold snmp_row. walk_body. Qed.

End Shift.

Lemma system_row_shift (r : row) (pre acc : list string) (sn : option cell) :
  system_row r ((pre ++ acc)%list, sn)
  = ('(x, sn') <- system_row r (acc, sn) ;; Ok ((pre ++ x)%list, sn')).
Proof.
  unfold system_row.
  repeat (match goal with
          | |- context [getitem ?r ?k] => destruct (getitem r k)
          | |- context [as_str ?a ?c] => destruct (as_str a c)
          | |- context [match config_map_cell ?c with _ => _ end] =>
              destruct (config_map_cell c) as [[?|]|]
          | |- context [if ?b then _ else _] => destruct b
          end; cbn [bind]);
  unfold append; rewrite <- ?app_assoc; reflexivity.
Qed.

(** The commands of a [System] row do not depend on the serial number
    found so far. *)
Lemma system_row_serial_free (r : row) (acc : list string) (sn sn' : option cell) :
  ('(x, _) <- system_row r (acc, sn) ;; Ok x)
  = ('(x, _) <- system_row r (acc, sn') ;; Ok x).
Proof.
  unfold system_row.
  repeat (match goal with
          | |- context [getitem ?r ?k] => destruct (getitem r k)
          | |- context [as_str ?a ?c] => destruct (as_str a c)
          | |- context [match config_map_cell ?c with _ => _ end] =>
              destruct (config_map_cell c) as [[?|]|]
          | |- context [if ?b then _ else _] => destruct b
          end; cbn [bind]);
  reflexivity.
Qed.

Lemma system_rows_serial_free (rows : list row) (acc : list string)
    (sn sn' : option cell) :
  ('(x, _) <- foldM system_row rows (acc, sn) ;; Ok x)
  = ('(x, _) <- foldM system_row rows (acc, sn') ;; Ok x).
Proof.
  revert acc sn sn'. induction rows as [|r rows IH]; intros acc sn sn';
    cbn [foldM]; [reflexivity|].
  pose proof (system_row_serial_free r acc sn sn') as H.
  destruct (system_row r (acc, sn)) as [[a s]|e];
    destruct (system_row r (acc, sn')) as [[a' s']|e']; cbn [bind] in *;
    try discriminate.
  - assert (E : forall a b : list string, Ok a = Ok b -> b = a)
      by (intros ? ? [=]; auto).
    apply E in H. subst a'. apply IH.
  - inversion H. reflexivity.
Qed.

(** The commands that the rows of a [System] frame add to [acc]. *)
Lemma system_rows_app (rows1 rows2 : list row) (acc : list string) :
  ('(x, _) <- foldM system_row (rows1 ++ rows2) (acc, None) ;; Ok x)
  = (x <- ('(x, _) <- foldM system_row rows1 (acc, None) ;; Ok x) ;;
     '(y, _) <- foldM system_row rows2 (x, None) ;; Ok y).
Proof.
  rewrite foldM_app.
  destruct (foldM system_row rows1 (acc, None)) as [[a s]|e]; cbn [bind];
    [|reflexivity].
  apply system_rows_serial_free.
Qed.

Lemma system_rows_shift (rows : list row) (pre acc : list string) (sn : option cell) :
  foldM system_row rows ((pre ++ acc)%list, sn)
  = ('(x, sn') <- foldM system_row rows (acc, sn) ;; Ok ((pre ++ x)%list, sn')).
Proof.
  revert acc sn. induction rows as [|r rows IH]; intros acc sn; cbn [foldM];
    [reflexivity|].
  rewrite system_row_shift.
  destruct (system_row r (acc, sn)) as [[a s]|e]; cbn [bind];
    [apply IH | reflexivity].
Qed.

Lemma foldM_shift (body : row -> list string -> result (list string))
    (rows : list row) (pre acc : list string) :
  (forall r pre acc, body r (pre ++ acc)%list = (x <- body r acc ;; Ok (pre ++ x)%list)) ->
  foldM body rows (pre ++ acc)%list
  = (x <- foldM body rows acc ;; Ok (pre ++ x)%list).
Proof.
  intros Hshift. revert acc.
  induction rows as [|r rows IH]; intros acc; cbn [foldM]; [reflexivity|].
  rewrite Hshift. destruct (body r acc) as [a|e]; cbn [bind]; [apply IH | reflexivity].
Qed.

Lemma body_of_section (header : string) (body : list string) :
  body_of (header :: body ++ [""]) = body.
Proof. unfold body_of. cbn [tl]. apply removelast_last. Qed.

(** A generator that runs over the rows from its header comment and closes
    with the empty line, on two runs of rows put end to end.  [run rows acc]
    is what the rows add to the commands [acc]. *)
Lemma section_of_two_runs (run : list row -> list string -> result (list string))
    (header : string) (rows1 rows2 : list row) (lines1 lines2 : list string) :
  (forall l1 l2 acc, run (l1 ++ l2)%list acc = (x <- run l1 acc ;; run l2 x)) ->
  (forall l pre acc, run l (pre ++ acc)%list = (x <- run l acc ;; Ok (pre ++ x)%list)) ->
  (commands <- run rows1 [header] ;; Ok (append commands "")) = Ok lines1 ->
  (commands <- run rows2 [header] ;; Ok (append commands "")) = Ok lines2 ->
  (commands <- run (rows1 ++ rows2)%list [header] ;; Ok (append commands ""))
  = Ok (header :: body_of lines1 ++ body_of lines2 ++ [""])%list.
Proof.
  intros Happ Hshift. rewrite Happ.
  change [header] with ([header] ++ [])%list.
  rewrite !(Hshift _ [header] []).
  destruct (run rows1 []) as [b1|]; cbn [bind]; [|discriminate].
  destruct (run rows2 []) as [b2|] eqn:E2; cbn [bind]; [|discriminate].
  intros H1 H2.
  assert (E : forall a b : list string, Ok a = Ok b -> b = a)
    by (intros a b [=]; auto).
  apply E in H1, H2. subst lines1 lines2.
  unfold append. cbn [app]. rewrite !body_of_section.
  change (header :: b1) with ([header] ++ b1)%list.
  rewrite <- (app_nil_r ([header] ++ b1)).
  rewrite (Hshift _ ([header] ++ b1)%list []), E2. cbn [bind].
  rewrite <- !app_assoc. reflexivity.
Qed.

Lemma system_mapper_form (override_ip : option string) (df : DataFrame) :
  mapper System override_ip df
  = (commands <-
       ('(x, _) <- foldM system_row (iterrows df) (["# System Configuration"], None) ;;
        Ok x) ;;
     Ok (append commands "")).
Proof.
  cbn [mapper]. unfold generate_system_config.
  destruct (foldM system_row (iterrows df) _) as [[c sn]|]; reflexivity.
Qed.



Lemma hardening_row_shift (r : row) (commands screens pre_c pre_s : list string) :
  hardening_row r ((pre_c ++ commands)%list, (pre_s ++ screens)%list)
  = ('(x, y) <- hardening_row r (commands, screens) ;;
     Ok ((pre_c ++ x)%list, (pre_s ++ y)%list)).
Proof.
  unfold hardening_row.
  repeat (match goal with
          | |- context [getitem ?r ?k] => destruct (getitem r k)
          | |- context [as_str ?a ?c] => destruct (as_str a c)
          | |- context [feature_template ?f] => destruct (feature_template f)
          | |- context [if ?b then _ else _] => destruct b
          end; cbn [bind]);
  unfold append; rewrite <- ?app_assoc; reflexivity.
Qed.

Lemma hardening_rows_shift (rows : list row) (commands screens pre_c pre_s : list string) :
  foldM hardening_row rows ((pre_c ++ commands)%list, (pre_s ++ screens)%list)
  = ('(x, y) <- foldM hardening_row rows (commands, screens) ;;
     Ok ((pre_c ++ x)%list, (pre_s ++ y)%list)).
Proof.
  revert commands screens.
  induction rows as [|r rows IH]; intros commands screens; cbn [foldM];
    [reflexivity|].
  rewrite hardening_row_shift.
  destruct (hardening_row r (commands, screens)) as [[a b]|e]; cbn [bind];
    [apply IH | reflexivity].
Qed.

(** X4: the Hardening generator keeps the screen commands apart: for a
    frame whose rows are two runs of rows put end to end, the section is
    the header comment, the other commands of both runs, then, when there
    is a screen command, an empty line, the heading of the screen
    commands and the screen commands of both runs, then the closing empty
    line.  So a screen row always lands after every other row, wherever
    it stands in the sheet. *)
Theorem hardening_screens_come_last
    (cols : list string) (rows1 rows2 : list (list cell)) :
  generate_hardening_config (mkDataFrame cols (rows1 ++ rows2))
  = ('(commands1, screens1) <- hardening_parts (mkDataFrame cols rows1) ;;
     '(commands2, screens2) <- hardening_parts (mkDataFrame cols rows2) ;;
     Ok (hardening_lines (commands1 ++ commands2) (screens1 ++ screens2))).
Proof.
  unfold generate_hardening_config, hardening_parts, iterrows.
  cbn [columns data]. rewrite map_app, foldM_app.
  change (["# Security Hardening Configuration"], @nil string)
    with ((["# Security Hardening Configuration"] ++ [])%list,
          (@nil string ++ [])%list).
  rewrite hardening_rows_shift.
  destruct (foldM hardening_row (map (label cols) rows1) ([], []))
    as [[c1 s1]|e]; cbn [bind]; [|reflexivity].
  rewrite <- (app_nil_r (_ ++ c1)), <- (app_nil_r ([] ++ s1)).
  rewrite hardening_rows_shift.
  destruct (foldM hardening_row (map (label cols) rows2) ([], []))
    as [[c2 s2]|e]; cbn [bind]; [|reflexivity].
  unfold hardening_lines, append. cbn [app].
  destruct (s1 ++ s2)%list; cbn [app]; rewrite <- ?app_assoc; reflexivity.
Qed.

(** A screen row that stands first in the sheet is emitted last. *)
Example screen_row_moves_down :
  generate_hardening_config
    (mkDataFrame ["Feature"; "Setting"]
       [ [Str "screen_syn_flood"; Int 1000]; [Str "ssh_root_login"; Str "deny"] ])
  = Ok [ "# Security Hardening Configuration";
         "set system services ssh root-login deny";
         "";
         "# IDS Screen Configuration";
         "set security screen ids-option untrust-screen syn-flood threshold 1000";
         "" ].
Proof. vm_compute. reflexivity. Qed.

(* ===================================================================== *)
(** * Where the serial number goes *)
(* ===================================================================== *)

(** A [System] row whose parameter is [serial_number] adds no command. *)
Lemma system_row_serial_number (r : row) (value : cell) (commands : list string)
    (sn : option cell) :
  getitem r "Parameter" = Ok (Str "serial_number") ->
  getitem r "Value" = Ok value ->
  ('(x, _) <- system_row r (commands, sn) ;; Ok x) = Ok commands.
Proof.
  intros Hp Hv. unfold system_row. rewrite Hp, Hv. cbn [bind].
  destruct (filled value); reflexivity.
Qed.

Lemma getitem_at (key : string) (cols : list string) (cells : list cell) (i : nat) :
  index_of key cols = Some i ->
  getitem (label cols cells) key = Ok (nth i cells NaN).
Proof. intros H. unfold getitem. rewrite (index_of_lookup _ _ _ _ H). reflexivity. Qed.

(** The commands of a [System] frame after the assignment of the serial
    number do not depend on the serial number assigned. *)
Lemma system_rows_any_serial (cols : list string) (p v : nat)
    (serial serial' : string) (rows : list (list cell)) (commands : list string)
    (sn sn' : option cell) :
  index_of "Parameter" cols = Some p ->
  index_of "Value" cols = Some v ->
  p <> v ->
  ('(x, _) <- foldM system_row
                (map (label cols) (map (assign_row p v "serial_number" serial) rows))
                (commands, sn) ;; Ok x)
  = ('(x, _) <- foldM system_row
                  (map (label cols) (map (assign_row p v "serial_number" serial') rows))
                  (commands, sn') ;; Ok x).
Proof.
  intros Hp Hv Hpv. revert commands sn sn'.
  induction rows as [|cells rows IH]; intros commands sn sn'; [reflexivity|].
  cbn [map foldM]. unfold assign_row at 1 3.
  destruct (eq_str (nth p cells NaN) "serial_number") eqn:Hserial.
  - assert (Hparam : forall s,
               getitem (label cols (set_nth v (Str s) cells)) "Parameter"
               = Ok (Str "serial_number")).
    { intros s. rewrite (getitem_at _ _ _ _ Hp), nth_set_nth_other by exact Hpv.
      destruct (nth p cells NaN) as [|t|z]; try discriminate.
      simpl in Hserial. apply String.eqb_eq in Hserial. subst t. reflexivity. }
    assert (Hvalue : forall s,
               getitem (label cols (set_nth v (Str s) cells)) "Value" = Ok (Str s)).
    { intros s. rewrite (getitem_at _ _ _ _ Hv), nth_set_nth_same. reflexivity. }
    pose proof (system_row_serial_number _ _ commands sn
                  (Hparam serial) (Hvalue serial)) as H1.
    pose proof (system_row_serial_number _ _ commands sn'
                  (Hparam serial') (Hvalue serial')) as H2.
    destruct (system_row (label cols (set_nth v (Str serial) cells)) (commands, sn))
      as [[c1 s1]|]; [|discriminate].
    destruct (system_row (label cols (set_nth v (Str serial') cells)) (commands, sn'))
      as [[c2 s2]|]; [|discriminate].
    cbn [bind] in *. inversion H1. inversion H2. subst. apply IH.
  - pose proof (system_row_serial_free (label cols cells) commands sn sn') as H.
    destruct (system_row (label cols cells) (commands, sn)) as [[c1 s1]|e1];
      destruct (system_row (label cols cells) (commands, sn')) as [[c2 s2]|e2];
      cbn [bind] in *; try discriminate.
    + inversion H. subst. apply IH.
    + inversion H. reflexivity.
Qed.

(** The columns of a frame after an assignment, and the position of its
    [Value] column, are the same whatever is assigned. *)
Lemma assigned_form (df : DataFrame) (p : nat) :
  index_of "Parameter" (columns df) = Some p ->
  exists cols v,
    index_of "Parameter" cols = Some p
    /\ index_of "Value" cols = Some v
    /\ p <> v
    /\ forall param value,
         assigned df param value
         = Ok (mkDataFrame cols (map (assign_row p v param value) (data df))).
Proof.
  intros Hp. unfold assigned. rewrite Hp.
  destruct (index_of "Value" (columns df)) as [v|] eqn:Hv.
  - exists (columns df), v. repeat split; try assumption.
    intros ->. apply index_of_nth in Hp, Hv.
    destruct Hp as (Hp & _), Hv as (Hv & _). congruence.
  - exists (columns df ++ ["Value"])%list, (length (columns df)).
    repeat split.
    + apply index_of_app, Hp.
    + apply index_of_app_new, Hv.
    + apply index_of_nth in Hp. lia.
Qed.

Lemma system_part_any_serial (wb : list (string * DataFrame))
    (serial serial' hostname : string) :
  system_part wb serial hostname = system_part wb serial' hostname.
Proof.
  unfold system_part. destruct (find_sheet "System" wb) as [df|]; [|reflexivity].
  destruct (index_of "Parameter" (columns df)) as [p|] eqn:Hp.
  2:{ unfold assigned. rewrite Hp. reflexivity. }
  destruct (assigned_form df p Hp) as (cols1 & v1 & Hp1 & Hv1 & Hpv1 & ->).
  cbn [bind].
  destruct (assigned_form (mkDataFrame cols1
              (map (assign_row p v1 "hostname" hostname) (data df))) p Hp1)
    as (cols2 & v2 & Hp2 & Hv2 & Hpv2 & Hassigned).
  rewrite !Hassigned. cbn [bind data]. unfold generate_system_config, iterrows.
  cbn [columns data].
  pose proof (system_rows_any_serial cols2 p v2 serial serial'
                (map (assign_row p v1 "hostname" hostname) (data df))
                ["# System Configuration"] None None Hp2 Hv2 Hpv2) as H.
  destruct (foldM system_row
              (map (label cols2)
                 (map (assign_row p v2 "serial_number" serial) _)) _)
    as [[c1 s1]|e1];
    destruct (foldM system_row
                (map (label cols2)
                   (map (assign_row p v2 "serial_number" serial') _)) _)
      as [[c2 s2]|e2];
    cbn [bind] in *; try discriminate; inversion H; reflexivity.
Qed.

(** X5: the serial number of a device appears in the header of its
    document and nowhere else: on the same workbook, with the same host
    name and management address, the lines for another serial number are
    the header for that serial number followed by the same lines after
    the seven header lines.  The [serial_number] row of the [System]
    sheet, which [build_config] overwrites, emits no command. *)
Theorem serial_changes_the_header_only
    (serial serial' hostname mgmt_ip : string) (w w' : world) (lines : list string)
    (Hsheets : sheets w' = sheets w)
    (Hlines : fst (build_config_lines serial hostname mgmt_ip w) = Ok lines) :
  fst (build_config_lines serial' hostname mgmt_ip w')
  = Ok (header serial' hostname mgmt_ip ++ skipn 7 lines)%list.
Proof.
  destruct (build_config_lines_spec serial hostname mgmt_ip w) as (w1 & Hrun & _).
  destruct (build_config_lines_spec serial' hostname mgmt_ip w') as (w1' & -> & _).
  rewrite Hrun in Hlines. cbn [fst] in *. rewrite Hsheets.
  unfold assemble in *.
  rewrite (system_part_any_serial _ serial' serial).
  destruct (system_part (sheets w) serial hostname) as [sys|]; cbn [bind] in *;
    [|discriminate].
  destruct (foldM (handled_part (sheets w)) (map fst (sheets w)) []) as [mid|];
    cbn [bind] in *; [|discriminate].
  destruct (management_part (sheets w) mgmt_ip) as [mg|]; cbn [bind] in *;
    [|discriminate].
  inversion Hlines. subst lines. reflexivity.
Qed.

Lemma serial_changes_the_header_only_witness :
  (sheets SampleDocuments.used_world = sheets (pristine SampleInventory.workbook)
   /\ fst (build_config_lines "XYZ789" "nan" "10.0.0.3"
             (pristine SampleInventory.workbook))
      = Ok SampleLines.third_switch)
  /\ fst (build_config_lines "ABC123" "nan" "10.0.0.3" SampleDocuments.used_world)
     = Ok (header "ABC123" "nan" "10.0.0.3" ++ skipn 7 SampleLines.third_switch)%list.
Proof.
  assert (H1 : sheets SampleDocuments.used_world
               = sheets (pristine SampleInventory.workbook)) by reflexivity.
  assert (H2 : fst (build_config_lines "XYZ789" "nan" "10.0.0.3"
                      (pristine SampleInventory.workbook))
               = Ok SampleLines.third_switch) by (vm_compute; reflexivity).
  split; [auto|].
  exact (serial_changes_the_header_only "XYZ789" "ABC123" "nan" "10.0.0.3"
           (pristine SampleInventory.workbook) SampleDocuments.used_world
           SampleLines.third_switch H1 H2).
Defined.

(* ===================================================================== *)
(** * The VLANs cell of an interface *)
(* ===================================================================== *)

(** X6: the MassGen script reads a blank [VLANs] cell, and the text
    [nan], as no VLAN at all: the row gives what a row with the empty
    text gives.  The V3 script tests the text against the empty text
    only, and the text of a blank cell is [nan]: for an access port with
    a blank [VLANs] cell it emits a [vlan members nan] line that the
    MassGen script does not. *)
Theorem blank_vlans_cell
    (r : row) (v : cell) (commands : list string) (interface : string)
    (Hblank : v = NaN \/ v = Str "nan")
    (Hinterface : interface <> "") :
  interface_row vlans_given (("VLANs", v) :: r) commands
  = interface_row vlans_given (("VLANs", Str "") :: r) commands
  /\ generate_interface_config
       (mkDataFrame ["Interface"; "Mode"; "VLANs"]
          [[Str interface; Str "access"; NaN]])
     = Ok [ "# Interface Configuration";
            "set interfaces " ++ interface ++ " unit 0 family ethernet-switching";
            "set interfaces " ++ interface
              ++ " unit 0 family ethernet-switching interface-mode access";
            "" ]
  /\ V3.generate_interface_config
       (mkDataFrame ["Interface"; "Mode"; "VLANs"]
          [[Str interface; Str "access"; NaN]])
     = Ok [ "# Interface Configuration";
            "set interfaces " ++ interface ++ " unit 0 family ethernet-switching";
            "set interfaces " ++ interface
              ++ " unit 0 family ethernet-switching interface-mode access";
            "set interfaces " ++ interface
              ++ " unit 0 family ethernet-switching vlan members nan";
            "" ].
Proof.
  split; [|split].
  - unfold interface_row.
    rewrite !getitem_cons_other, !get_cons_other, !get_cons_same by reflexivity.
    replace (vlans_given (py_str v)) with false
      by (destruct Hblank as [->| ->]; reflexivity).
    reflexivity.
  - unfold generate_interface_config, iterrows, interface_row.
    cbn [columns data map label hd tl foldM].
    rewrite getitem_cons_same, !getitem_cons_other, getitem_cons_same by reflexivity.
    cbn [bind]. rewrite (filled_text _ Hinterface). reflexivity.
  - unfold V3.generate_interface_config, iterrows, interface_row.
    cbn [columns data map label hd tl foldM].
    rewrite getitem_cons_same, !getitem_cons_other, getitem_cons_same by reflexivity.
    cbn [bind]. rewrite (filled_text _ Hinterface). reflexivity.
Qed.

Lemma blank_vlans_cell_witness :
  ((Str "nan" = NaN \/ Str "nan" = Str "nan") /\ "ge-0/0/1" <> "")
  /\ interface_row vlans_given
       (("VLANs", Str "nan") :: [("Interface", Str "ge-0/0/1"); ("Mode", Str "trunk")])
       []
     = interface_row vlans_given
         (("VLANs", Str "") :: [("Interface", Str "ge-0/0/1"); ("Mode", Str "trunk")])
         []
  /\ generate_interface_config
       (mkDataFrame ["Interface"; "Mode"; "VLANs"]
          [[Str "ge-0/0/1"; Str "access"; NaN]])
     = Ok [ "# Interface Configuration";
            "set interfaces " ++ "ge-0/0/1" ++ " unit 0 family ethernet-switching";
            "set interfaces " ++ "ge-0/0/1"
              ++ " unit 0 family ethernet-switching interface-mode access";
            "" ]
  /\ V3.generate_interface_config
       (mkDataFrame ["Interface"; "Mode"; "VLANs"]
          [[Str "ge-0/0/1"; Str "access"; NaN]])
     = Ok [ "# Interface Configuration";
            "set interfaces " ++ "ge-0/0/1" ++ " unit 0 family ethernet-switching";
            "set interfaces " ++ "ge-0/0/1"
              ++ " unit 0 family ethernet-switching interface-mode access";
            "set interfaces " ++ "ge-0/0/1"
              ++ " unit 0 family ethernet-switching vlan members nan";
            "" ].
Proof.
  assert (H1 : Str "nan" = NaN \/ Str "nan" = Str "nan") by (right; reflexivity).
  assert (H2 : "ge-0/0/1" <> "") by discriminate.
  split; [auto|].
  exact (blank_vlans_cell [("Interface", Str "ge-0/0/1"); ("Mode", Str "trunk")]
           (Str "nan") [] "ge-0/0/1" H1 H2).
Defined.

(* ===================================================================== *)
(** * The management address given by the inventory *)
(* ===================================================================== *)

Lemma foldM_map_ext {A B S} (f : A -> B) (body : B -> S -> result S)
    (body' : A -> S -> result S) (l : list A) (acc : S) :
  (forall x a, body (f x) a = body' x a) ->
  foldM body (map f l) acc = foldM body' l acc.
Proof.
  intros H. revert acc. induction l as [|x l IH]; intros acc; cbn [map foldM];
    [reflexivity|].
  rewrite H. destruct (body' x acc); cbn [bind]; auto.
Qed.

Lemma index_of_none_lookup (key : string) (cols : list string) (cells : list cell) :
  index_of key cols = None -> lookup key (label cols cells) = None.
Proof.
  revert cells. induction cols as [|k cols IH]; intros cells H; [reflexivity|].
  simpl in *. destruct (String.eqb k key); [discriminate|].
  destruct (index_of key cols); [discriminate|]. apply IH. reflexivity.
Qed.

Lemma lookup_set_nth_other (key col : string) (cols : list string)
    (cells : list cell) (i : nat) (v : cell) :
  index_of col cols = Some i -> key <> col ->
  lookup key (label cols (set_nth i v cells)) = lookup key (label cols cells).
Proof.
  intros Hi Hne. destruct (index_of key cols) as [j|] eqn:Hj.
  - rewrite !(index_of_lookup _ _ _ _ Hj). rewrite nth_set_nth_other; [reflexivity|].
    intros ->. apply index_of_nth in Hi, Hj. destruct Hi as [Hi _], Hj as [Hj _].
    congruence.
  - rewrite !index_of_none_lookup by assumption. reflexivity.
Qed.

Lemma lookup_set_nth_same (col : string) (cols : list string)
    (cells : list cell) (i : nat) (v : cell) :
  index_of col cols = Some i ->
  lookup col (label cols (set_nth i v cells)) = Some v.
Proof.
  intros Hi. rewrite (index_of_lookup _ _ _ _ Hi), nth_set_nth_same. reflexivity.
Qed.

(** X7: a management address given by the caller replaces the address
    of every row of the [Management] sheet: the section is the one of the
    sheet whose every [IP Address] cell holds that address.  An empty
    address is no address: the sheet's own column is read. *)
Theorem override_replaces_every_address
    (cols : list string) (rows : list (list cell)) (override_ip : string) (i : nat)
    (Hoverride : override_ip <> "")
    (Hcolumn : index_of "IP Address" cols = Some i) :
  generate_management_config (mkDataFrame cols rows) (Some override_ip)
  = generate_management_config
      (mkDataFrame cols (map (set_nth i (Str override_ip)) rows)) None
  /\ generate_management_config (mkDataFrame cols rows) (Some "")
     = generate_management_config (mkDataFrame cols rows) None.
Proof.
  split; [|reflexivity].
  unfold generate_management_config, iterrows. cbn [columns data].
  rewrite map_map.
  rewrite (foldM_map_ext (label cols) (management_row (Some override_ip))
             (fun cells => management_row (Some override_ip) (label cols cells)))
    by reflexivity.
  rewrite (foldM_map_ext (fun cells => label cols (set_nth i (Str override_ip) cells))
             (management_row None)
             (fun cells => management_row (Some override_ip) (label cols cells)));
    [reflexivity|].
  intros cells acc. unfold management_row, getitem, get.
  cbn [truthy value_of].
  apply String.eqb_neq in Hoverride. rewrite Hoverride. cbn [negb].
  rewrite (lookup_set_nth_same _ _ _ _ _ Hcolumn).
  rewrite !(lookup_set_nth_other _ _ _ _ _ _ Hcolumn) by discriminate.
  destruct (lookup "Interface" (label cols cells)); reflexivity.
Qed.

Lemma override_replaces_every_address_witness :
  ("10.0.0.9" <> ""
   /\ index_of "IP Address" ["Interface"; "IP Address"; "Prefix Length"] = Some 1)
  /\ generate_management_config
       (mkDataFrame ["Interface"; "IP Address"; "Prefix Length"]
          [[Str "me0"; Str "192.168.1.1"; Int 24]; [Str "vme"; Str "192.168.1.2"; Int 24]])
       (Some "10.0.0.9")
     = generate_management_config
         (mkDataFrame ["Interface"; "IP Address"; "Prefix Length"]
            (map (set_nth 1 (Str "10.0.0.9"))
               [[Str "me0"; Str "192.168.1.1"; Int 24];
                [Str "vme"; Str "192.168.1.2"; Int 24]])) None
  /\ generate_management_config
       (mkDataFrame ["Interface"; "IP Address"; "Prefix Length"]
          [[Str "me0"; Str "192.168.1.1"; Int 24]; [Str "vme"; Str "192.168.1.2"; Int 24]])
       (Some "")
     = generate_management_config
         (mkDataFrame ["Interface"; "IP Address"; "Prefix Length"]
            [[Str "me0"; Str "192.168.1.1"; Int 24];
             [Str "vme"; Str "192.168.1.2"; Int 24]]) None.
Proof.
  assert (H1 : "10.0.0.9" <> "") by discriminate.
  assert (H2 : index_of "IP Address" ["Interface"; "IP Address"; "Prefix Length"]
               = Some 1) by reflexivity.
  split; [auto|].
  exact (override_replaces_every_address
           ["Interface"; "IP Address"; "Prefix Length"]
           [[Str "me0"; Str "192.168.1.1"; Int 24]; [Str "vme"; Str "192.168.1.2"; Int 24]]
           "10.0.0.9" 1 H1 H2).
Defined.

(** Two management rows with addresses of their own get the same
    address. *)
Example two_management_rows_one_address :
  generate_management_config
    (mkDataFrame ["Interface"; "IP Address"; "Prefix Length"]
       [[Str "me0"; Str "192.168.1.1"; Int 24]; [Str "vme"; Str "192.168.1.2"; Int 24]])
    (Some "10.0.0.9")
  = Ok [ "# Management Interface Configuration";
         "set interfaces me0 unit 0 family inet address 10.0.0.9/24";
         "set interfaces vme unit 0 family inet address 10.0.0.9/24";
         "" ].
Proof. vm_compute. reflexivity. Qed.

(* ===================================================================== *)
(** * What a run writes and what it reports *)
(* ===================================================================== *)

Lemma placeholder_empty (serial : string) : placeholder serial = false -> serial <> "".
Proof. intros H ->. discriminate. Qed.

Lemma inventory_row_reports (col_map : dict) (r : row) (generated generated' : list string)
    (w : world) :
  fst (inventory_row col_map r generated w) = Ok generated' ->
  exists added,
    generated' = (generated ++ added)%list
    /\ map fst (files (snd (inventory_row col_map r generated w)))
       = (map fst (files w) ++ added)%list
    /\ Forall cfg_name added.
Proof.
  destruct (inventory_field col_map r "serial") as [serial|e] eqn:Hs.
  2:{ unfold inventory_row, bindM, lift. rewrite Hs. cbn. discriminate. }
  destruct (inventory_field col_map r "hostname") as [hostname|e] eqn:Hh.
  2:{ unfold inventory_row, bindM, lift. rewrite Hs, Hh. cbn. discriminate. }
  destruct (inventory_field col_map r "mgmt_ip") as [mgmt_ip|e] eqn:Hi.
  2:{ unfold inventory_row, bindM, lift. rewrite Hs, Hh, Hi. cbn. discriminate. }
  destruct (placeholder serial) eqn:Hq.
  { unfold inventory_row, bindM, lift. rewrite Hs, Hh, Hi, Hq. cbn.
    intros H. inversion H. subst. exists []. rewrite !app_nil_r. auto. }
  destruct (inventory_row_qualifying col_map r generated w _ _ _ Hs Hh Hi Hq)
    as (w1 & (Hsh & Hfi & _) & ->).
  destruct (lines <- assemble (sheets w) serial hostname mgmt_ip ;;
            Ok (PyStr.join newline lines)) as [text|e]; cbn [fst snd files];
    [|discriminate].
  intros H. inversion H. subst. exists [serial ++ ".cfg"].
  rewrite Hfi, map_app. repeat split. constructor; [|constructor].
  exists serial. split; [apply placeholder_empty, Hq | reflexivity].
Qed.

Lemma inventory_loop_reports (col_map : dict) (rows : list row)
    (generated generated' : list string) (w : world) :
  fst (foldW (inventory_row col_map) rows generated w) = Ok generated' ->
  exists added,
    generated' = (generated ++ added)%list
    /\ map fst (files (snd (foldW (inventory_row col_map) rows generated w)))
       = (map fst (files w) ++ added)%list
    /\ Forall cfg_name added.
Proof.
  revert generated w. induction rows as [|r rows IH]; intros generated w.
  - cbn. intros H. inversion H. subst. exists []. rewrite !app_nil_r. auto.
  - cbn [foldW]. unfold bindM.
    pose proof (inventory_row_reports col_map r generated) as Hrow.
    destruct (inventory_row col_map r generated w) as [[g|e] w1] eqn:Erow;
      [|discriminate].
    specialize (Hrow g w). rewrite Erow in Hrow.
    destruct (Hrow eq_refl) as (added1 & -> & Hfiles1 & Hall1). cbn [snd] in Hfiles1.
    intros H. destruct (IH _ _ H) as (added2 & -> & Hfiles2 & Hall2).
    exists (added1 ++ added2)%list. rewrite Hfiles2, Hfiles1, !app_assoc.
    repeat split. apply Forall_app. auto.
Qed.

Lemma inventory_mode_reports (generated : list string) (w : world) :
  fst (inventory_mode w) = Ok (Some generated) ->
  map fst (files (snd (inventory_mode w))) = (map fst (files w) ++ generated)%list
  /\ Forall cfg_name generated.
Proof.
  unfold inventory_mode, bindM, read_excel.
  destruct (find_sheet "Inventory" (sheets w)) as [df|]; [|discriminate].
  unfold modify, load. cbn [sheets heap files stdout].
  rewrite update_nth_length_app, nth_length_app. cbn [columns data].
  destruct (missing_columns (detect_columns (map PyStr.strip (columns df))));
    [|discriminate].
  match goal with
  | |- context [foldW ?body ?rows [] ?w0] =>
      pose proof (inventory_loop_reports (detect_columns (map PyStr.strip (columns df)))
                    rows [] ) as Hloop;
      destruct (foldW body rows [] w0) as [[g|e] w1] eqn:Eloop; [|discriminate]
  end.
  match type of Eloop with
  | foldW _ _ _ ?w0 = _ => specialize (Hloop g w0)
  end.
  rewrite Eloop in Hloop. destruct (Hloop eq_refl) as (added & Hg & Hfiles & Hall).
  cbn [app] in Hg. subst added. cbn [snd files] in Hfiles.
  unfold print, ret. cbn [fst snd files]. intros H. inversion H. subst.
  split; assumption.
Qed.

Lemma truthy_value (s : option string) : truthy s = true -> value_of s <> "".
Proof.
  destruct s as [s|]; [|discriminate]. cbn. intros H E. subst. discriminate.
Qed.

Lemma quiet_files {A} (m : M A) (w : world) :
  quiet m -> files (snd (m w)) = files w.
Proof. intros H. apply H. Qed.

Lemma legacy_mode_reports (generated : list string) (w w' : world) :
  legacy_mode w = (Ok (Some generated), w') ->
  map fst (files w') = (map fst (files w) ++ generated)%list
  /\ Forall cfg_name generated.
Proof.
  unfold legacy_mode. unfold bindM at 1.
  pose proof (quiet_read_excel "System" w) as (_ & Hf1).
  destruct (read_excel "System" w) as [[df_sys|e] w1]; [|discriminate].
  cbn [snd] in Hf1. unfold bindM at 1. unfold load at 1. cbn beta iota.
  unfold bindM at 1. unfold lift at 1.
  destruct (foldM legacy_row (iterrows (nth df_sys (heap w1) empty_frame)) (None, None))
    as [[serial hostname]|e]; [|discriminate].
  cbn beta iota. unfold bindM at 1. unfold sheet_names at 1. cbn beta iota.
  unfold bindM at 1.
  set (address := if mem "Management" (map fst (sheets w1)) then _ else _).
  assert (Haddress : quiet address).
  { subst address. destruct (mem "Management" (map fst (sheets w1))); [|apply quiet_ret].
    apply quiet_bind; [apply quiet_read_excel | intros df_m].
    apply quiet_bind; [apply quiet_load | intros m].
    destruct (negb (empty m)); [|apply quiet_ret].
    apply quiet_bind; [apply quiet_lift | intros c]. apply quiet_ret. }
  pose proof (Haddress w1) as (_ & Hf2).
  destruct (address w1) as [[mgmt_ip|e] w2]; [|discriminate].
  cbn [snd] in Hf2. unfold bindM at 1.
  match goal with
  | |- context [build_config ?s ?h ?ip w2] =>
      destruct (build_config_spec s h ip w2) as (w3 & -> & (_ & Hf3 & _))
  end.
  match goal with
  | |- context [bind ?m ?k] => destruct (bind m k) as [text|e]; [|discriminate]
  end.
  unfold bindM, write_text, print, ret. cbn [fst snd files].
  intros H. inversion H. subst generated. cbn [files].
  rewrite Hf3, Hf2, Hf1, map_app. split; [reflexivity|].
  constructor; [|constructor].
  destruct (truthy serial) eqn:Es.
  - eexists. split; [apply truthy_value, Es | reflexivity].
  - destruct (truthy hostname) eqn:Eh.
    + eexists. split; [apply truthy_value, Eh | reflexivity].
    + exists "switch". split; [discriminate | reflexivity].
Qed.

(** X8: when a run returns a list of file names, the files written
    during the run are the ones of the list, in its order, and each name
    is a stem that is not empty followed by [.cfg]; this holds in the
    inventory mode and in the legacy mode. *)
Theorem reported_files_are_the_written_ones
    (w : world) (generated : list string)
    (Hrun : fst (convert_excel_to_junos w) = Ok (Some generated)) :
  map fst (files (snd (convert_excel_to_junos w)))
  = (map fst (files w) ++ generated)%list
  /\ Forall cfg_name generated.
Proof.
  revert Hrun. unfold convert_excel_to_junos, try_except, bindM, sheet_names.
  destruct (mem "Inventory" (map fst (sheets w))).
  - pose proof (inventory_mode_reports generated w) as H.
    destruct (inventory_mode w) as [[g|e] w1]; cbn [fst snd] in *;
      [exact H | discriminate].
  - destruct (legacy_mode w) as [[g|e] w1] eqn:E; cbn [fst snd];
      [|discriminate].
    intros H. inversion H. subst g. exact (legacy_mode_reports _ _ _ E).
Qed.

Lemma reported_files_are_the_written_ones_witness :
  fst (convert_excel_to_junos SampleDocuments.used_world)
  = Ok (Some ["ABC123.cfg"; "XYZ789.cfg"])
  /\ map fst (files (snd (convert_excel_to_junos SampleDocuments.used_world)))
     = (map fst (files SampleDocuments.used_world)
          ++ ["ABC123.cfg"; "XYZ789.cfg"])%list
  /\ Forall cfg_name ["ABC123.cfg"; "XYZ789.cfg"].
Proof.
  assert (H : fst (convert_excel_to_junos SampleDocuments.used_world)
              = Ok (Some ["ABC123.cfg"; "XYZ789.cfg"])) by (vm_compute; reflexivity).
  split; [exact H|].
  exact (reported_files_are_the_written_ones SampleDocuments.used_world
           ["ABC123.cfg"; "XYZ789.cfg"] H).
Defined.

(* ===================================================================== *)
(** * The legacy mode: one file or none *)
(* ===================================================================== *)

Section Silent.

Context {A B : Type}.

Lemma silent_ret (a : A) : silent (ret a).
Proof. intros w. apply same_outside_heap_refl. Qed.

Lemma silent_lift (m : result A) : silent (lift m).
Proof. intros w. apply same_outside_heap_refl. Qed.

Lemma silent_bind (m : M A) (k : A -> M B) :
  silent m -> (forall a, silent (k a)) -> silent (bindM m k).
Proof.
  intros Hm Hk w. unfold bindM. specialize (Hm w).
  destruct (m w) as [[a|e] w1]; cbn [snd] in *; [|exact Hm].
  eapply same_outside_heap_trans; [exact Hm | apply Hk].
Qed.

End Silent.

Lemma silent_sheet_names : silent sheet_names.
Proof. intros w. apply same_outside_heap_refl. Qed.

Lemma silent_read_excel (name : string) : silent (read_excel name).
Proof.
  intros w. unfold read_excel.
  destruct (find_sheet name (sheets w)); repeat split.
Qed.

Lemma silent_load (ref : nat) : silent (load ref).
Proof. intros w. apply same_outside_heap_refl. Qed.

Lemma silent_build_config (serial_number hostname mgmt_ip : string) :
  silent (build_config serial_number hostname mgmt_ip).
Proof.
  intros w. destruct (build_config_spec serial_number hostname mgmt_ip w)
    as (w1 & -> & H). exact H.
Qed.

Lemma legacy_mode_outcome (w w' : world) (r : result (option (list string))) :
  legacy_mode w = (r, w') ->
  match r with
  | Ok (Some generated) =>
      exists name text,
        generated = [name]
        /\ files w' = (files w ++ [(name, text)])%list
        /\ stdout w' = (stdout w ++ [Written name])%list
  | Ok None => False
  | Raise _ => files w' = files w /\ stdout w' = stdout w
  end.
Proof.
  unfold legacy_mode. unfold bindM at 1.
  pose proof (silent_read_excel "System" w) as H1.
  destruct (read_excel "System" w) as [[df_sys|e] w1]; cbn [fst snd] in *.
  2:{ intros H. inversion H. subst. destruct H1 as (_ & ? & ?). auto. }
  unfold bindM at 1. unfold load at 1. cbn beta iota.
  unfold bindM at 1. unfold lift at 1.
  destruct (foldM legacy_row (iterrows (nth df_sys (heap w1) empty_frame)) (None, None))
    as [[serial hostname]|e]; cbn [fst snd].
  2:{ intros H. inversion H. subst. destruct H1 as (_ & ? & ?). auto. }
  cbn beta iota. unfold bindM at 1. unfold sheet_names at 1. cbn beta iota.
  unfold bindM at 1.
  set (address := if mem "Management" (map fst (sheets w1)) then _ else _).
  assert (Haddress : silent address).
  { subst address. destruct (mem "Management" (map fst (sheets w1))); [|apply silent_ret].
    apply silent_bind; [apply silent_read_excel | intros df_m].
    apply silent_bind; [apply silent_load | intros m].
    destruct (negb (empty m)); [|apply silent_ret].
    apply silent_bind; [apply silent_lift | intros c]. apply silent_ret. }
  pose proof (Haddress w1) as H2.
  destruct (address w1) as [[mgmt_ip|e] w2]; cbn [fst snd] in *.
  2:{ intros H. inversion H. subst.
      destruct H1 as (_ & ? & ?), H2 as (_ & ? & ?). split; congruence. }
  unfold bindM at 1.
  match goal with
  | |- context [build_config ?s ?h ?ip w2] =>
      pose proof (silent_build_config s h ip w2) as H3;
      destruct (build_config s h ip w2) as [[text|e] w3]; cbn [fst snd] in *
  end.
  2:{ intros H. inversion H. subst.
      destruct H1 as (_ & ? & ?), H2 as (_ & ? & ?), H3 as (_ & ? & ?).
      split; congruence. }
  unfold bindM, write_text, print, ret. cbn [fst snd files stdout].
  intros H. inversion H. subst. cbn [files stdout].
  destruct H1 as (_ & ? & ?), H2 as (_ & ? & ?), H3 as (_ & ? & ?).
  eexists _, text. repeat split; congruence.
Qed.



(* ===================================================================== *)
(** * The V3 script: what a run leaves *)
(* ===================================================================== *)

(** X10: the V3 script cannot do without a [System] sheet: the name
    [system_commands] is bound only when the sheet is there, so the run
    stops at [all_commands.extend(system_commands)], whatever the other
    sheets hold and whatever the output file asked for; it writes
    nothing, prints the error and returns nothing. *)
Theorem v3_needs_a_system_sheet
    (output_file : option string) (w : world)
    (Hsystem : find_sheet "System" (sheets w) = None) :
  V3.convert_excel_to_junos output_file w
  = (Ok None,
     mkWorld (sheets w) (heap w) (files w)
       (stdout w ++ [Error (UnboundLocalError "system_commands")])%list).
Proof.
  unfold V3.convert_excel_to_junos, try_except, bindM at 1.
  unfold V3.config_lines, V3.system_first, bindM, sheet_names.
  rewrite mem_find_sheet, Hsystem. reflexivity.
Qed.

Lemma v3_needs_a_system_sheet_witness :
  find_sheet "System" (sheets (pristine [("NTP", Sample.ntp)])) = None
  /\ V3.convert_excel_to_junos (Some "out.cfg") (pristine [("NTP", Sample.ntp)])
     = (Ok None,
        mkWorld (sheets (pristine [("NTP", Sample.ntp)]))
          (heap (pristine [("NTP", Sample.ntp)]))
          (files (pristine [("NTP", Sample.ntp)]))
          (stdout (pristine [("NTP", Sample.ntp)])
             ++ [Error (UnboundLocalError "system_commands")])%list).
Proof.
  assert (H : find_sheet "System" (sheets (pristine [("NTP", Sample.ntp)])) = None)
    by reflexivity.
  split; [exact H|].
  exact (v3_needs_a_system_sheet (Some "out.cfg") (pristine [("NTP", Sample.ntp)]) H).
Defined.

(** X11: a run of the V3 script writes one file, or prints the document,
    or prints an error, and nothing else.  The file is named by the
    output file asked for when there is one, else by the serial number
    of the [System] sheet, else by its host name; its name is never
    empty.  The document is printed when none of the three is there. *)
Theorem v3_writes_at_most_one_file (output_file : option string) (w : world) :
  (exists text name,
     outcome (V3.convert_excel_to_junos output_file w)
     = (Ok (Some (text, Some name)), (files w ++ [(name, text)])%list,
        (stdout w ++ [Written name])%list)
     /\ name <> ""
     /\ (truthy output_file = true -> name = value_of output_file)
     /\ (truthy output_file = false ->
         exists all_commands serial_number hostname,
           assemble_v3 (sheets w) = Ok (all_commands, serial_number, hostname)
           /\ name = (if V3.cell_truthy serial_number
                      then V3.cell_text serial_number
                      else V3.cell_text hostname) ++ ".cfg"))
  \/ (exists text,
        outcome (V3.convert_excel_to_junos output_file w)
        = (Ok (Some (text, None)), files w, (stdout w ++ [ConfigText text])%list)
        /\ truthy output_file = false)
  \/ (exists e,
        outcome (V3.convert_excel_to_junos output_file w)
        = (Ok None, files w, (stdout w ++ [Error e])%list)).
Proof.
  unfold outcome.
  destruct (V3.convert_excel_to_junos output_file w) as [r w'] eqn:E.
  cbn [fst snd]. revert E.
  unfold V3.convert_excel_to_junos, try_except. unfold bindM at 1.
  destruct (config_lines_v3_spec w) as (w1 & -> & (_ & Hf & Hs)).
  destruct (assemble_v3 (sheets w)) as [[[all_commands serial_number] hostname]|e].
  2:{ unfold bindM, print, ret. cbn [files stdout]. intros E. inversion E. subst.
      cbn [files stdout]. right. right. exists e. rewrite Hf, Hs. reflexivity. }
  cbn beta iota.
  destruct (truthy output_file) eqn:Eo.
  - rewrite Eo. destruct output_file as [o|]; [|discriminate].
    unfold bindM, write_text, print, ret. cbn [fst snd files stdout].
    intros E. inversion E. subst. cbn [files stdout].
    left. rewrite Hf, Hs. eexists _, _. split; [reflexivity|].
    split; [exact (truthy_value (Some o) Eo)|].
    split; [reflexivity | intros H; cbn in Eo, H; congruence].
  - destruct (V3.cell_truthy serial_number) eqn:Es.
    + cbn [truthy].
      replace (negb (V3.cell_text serial_number ++ ".cfg" =? ""))%string with true.
      2:{ destruct (V3.cell_text serial_number); reflexivity. }
      unfold bindM, write_text, print, ret. cbn [fst snd files stdout value_of].
      intros E. inversion E. subst. cbn [files stdout].
      left. rewrite Hf, Hs. eexists _, _. split; [reflexivity|].
      split; [destruct (V3.cell_text serial_number); discriminate|].
      split; [discriminate|]. intros _. eexists _, _, _. split; [reflexivity|].
      rewrite Es. reflexivity.
    + destruct (V3.cell_truthy hostname) eqn:Eh.
      * cbn [truthy].
        replace (negb (V3.cell_text hostname ++ ".cfg" =? ""))%string with true.
        2:{ destruct (V3.cell_text hostname); reflexivity. }
        unfold bindM, write_text, print, ret. cbn [fst snd files stdout value_of].
        intros E. inversion E. subst. cbn [files stdout].
        left. rewrite Hf, Hs. eexists _, _. split; [reflexivity|].
        split; [destruct (V3.cell_text hostname); discriminate|].
        split; [discriminate|]. intros _. eexists _, _, _. split; [reflexivity|].
        rewrite Es. reflexivity.
      * cbn [truthy].
        unfold bindM, print, ret. cbn [fst snd files stdout].
        intros E. inversion E. subst. cbn [files stdout].
        right. left. rewrite Hf, Hs. eexists. split; reflexivity.
Qed.

(* ===================================================================== *)
(** * Inventory mode: which column is taken for a field *)
(* ===================================================================== *)

Lemma detect_column_forms (col : string) :
  detect_column [] col = [("serial", col)]
  \/ detect_column [] col = [("hostname", col)]
  \/ detect_column [] col = [("mgmt_ip", col)]
  \/ detect_column [] col = [].
Proof.
  unfold detect_column.
  repeat match goal with
         | |- context [if ?b then _ else _] => destruct b
         end; cbn [dict_set]; auto.
Qed.

Lemma detect_column_get (d : dict) (col key : string) :
  dict_get key (detect_column d col)
  = match dict_get key (detect_column [] col) with
    | Some v => Some v
    | None => dict_get key d
    end.
Proof.
  unfold detect_column.
  repeat match goal with
         | |- context [if ?b then _ else _] => destruct b
         end;
    rewrite ?dict_get_set; cbn [dict_set dict_get];
    try match goal with
        | |- context [String.eqb ?a key] => destruct (String.eqb a key)
        end; reflexivity.
Qed.

Lemma taken_for_column (key col : string) :
  taken_for key col = true -> dict_get key (detect_column [] col) = Some col.
Proof.
  unfold taken_for.
  destruct (dict_get key (detect_column [] col)) as [v|] eqn:E; [|discriminate].
  intros _. destruct (detect_column_in [] col key v E) as [->|H];
    [reflexivity | discriminate].
Qed.

Lemma detect_columns_pass (after : list string) (d : dict) (key : string) :
  existsb (taken_for key) after = false ->
  dict_get key (fold_left detect_column after d) = dict_get key d.
Proof.
  revert d. induction after as [|c after IH]; intros d H; [reflexivity|].
  cbn [existsb] in H. apply orb_false_iff in H. destruct H as (Hc & Hafter).
  cbn [fold_left]. rewrite (IH _ Hafter), detect_column_get.
  unfold taken_for in Hc.
  destruct (dict_get key (detect_column [] c)); [discriminate | reflexivity].
Qed.

(** X12: the column taken for a field of the inventory is the last
    column of the sheet that the detection loop files under the field,
    whatever the columns before it; and a column is filed under one
    field at most, the first of [serial], [hostname] and [mgmt_ip] whose
    keyword its name holds. *)
Theorem last_matching_column_is_taken
    (before after : list string) (col key : string)
    (Hcol : taken_for key col = true)
    (Hafter : existsb (taken_for key) after = false) :
  dict_get key (detect_columns (before ++ col :: after)) = Some col
  /\ forall key', taken_for key' col = true -> key' = key.
Proof.
  split.
  - unfold detect_columns. rewrite fold_left_app. cbn [fold_left].
    rewrite (detect_columns_pass _ _ _ Hafter), detect_column_get.
    rewrite (taken_for_column _ _ Hcol). reflexivity.
  - intros key'. revert Hcol. unfold taken_for.
    destruct (detect_column_forms col) as [-> | [-> | [-> | ->]]]; cbn [dict_get];
      try discriminate;
      match goal with
      | |- context [String.eqb ?k key] =>
          destruct (String.eqb_spec k key) as [Hk|Hk]; [|discriminate];
          destruct (String.eqb_spec k key') as [Hk'|Hk']; [congruence | discriminate]
      end.
Qed.

Lemma last_matching_column_is_taken_witness :
  (taken_for "serial" "Serial of host" = true
   /\ existsb (taken_for "serial") ["Hostname"; "Mgmt IP"] = false)
  /\ dict_get "serial"
       (detect_columns (["Serial Number"; "#"] ++ "Serial of host"
                          :: ["Hostname"; "Mgmt IP"])%list)
     = Some "Serial of host"
  /\ forall key', taken_for key' "Serial of host" = true -> key' = "serial".
Proof.
  assert (H1 : taken_for "serial" "Serial of host" = true) by reflexivity.
  assert (H2 : existsb (taken_for "serial") ["Hostname"; "Mgmt IP"] = false)
    by reflexivity.
  split; [auto|].
  exact (last_matching_column_is_taken ["Serial Number"; "#"] ["Hostname"; "Mgmt IP"]
           "Serial of host" "serial" H1 H2).
Defined.

(* ===================================================================== *)
(** * The Jinja2 generator: templates that give nothing *)
(* ===================================================================== *)

(** X13: a template that is not found, whose rendering raises or that
    renders the empty text leaves no trace in the document: the document
    is the one made without its name in the list, wherever the name
    stands. *)
Theorem template_that_renders_nothing
    (device_ : Jinja.device) (env : Jinja.environment)
    (before after : list string) (tmpl_name : string) (now : Jinja.datetime)
    (Hnothing : renders_nothing env device_ tmpl_name = true) :
  Jinja.generate_device_config device_ env (before ++ tmpl_name :: after) now
  = Jinja.generate_device_config device_ env (before ++ after) now.
Proof.
  unfold Jinja.generate_device_config.
  destruct (dict_getitem device_ "serial") as [serial|e]; cbn [bind]; [|reflexivity].
  destruct (dict_getitem device_ "model") as [model|e]; cbn [bind]; [|reflexivity].
  rewrite foldM_skip; [reflexivity|].
  intros sections. unfold Jinja.section. unfold renders_nothing in Hnothing.
  destruct (Jinja.render_template env tmpl_name device_) as [rendered|e];
    [|discriminate].
  cbn [bind]. apply negb_true_iff in Hnothing. rewrite Hnothing. reflexivity.
Qed.

Lemma template_that_renders_nothing_witness :
  renders_nothing SampleJinja.env SampleJinja.device "syslog" = true
  /\ Jinja.generate_device_config SampleJinja.device SampleJinja.env
       (["ntp"] ++ "syslog" :: ["ntp"]) SampleJinja.midnight
     = Jinja.generate_device_config SampleJinja.device SampleJinja.env
         (["ntp"] ++ ["ntp"]) SampleJinja.midnight.
Proof.
  assert (H : renders_nothing SampleJinja.env SampleJinja.device "syslog" = true)
    by reflexivity.
  split; [exact H|].
  exact (template_that_renders_nothing SampleJinja.device SampleJinja.env
           ["ntp"] ["ntp"] "syslog" SampleJinja.midnight H).
Defined.

(* ===================================================================== *)
(** * The Jinja2 generator: the devices that are loaded *)
(* ===================================================================== *)

Lemma validate_complete (devices devices' : list Jinja.device) :
  JinjaMain.validate devices = JinjaMain.Returns devices' ->
  Forall (fun d => dict_mem "serial" d = true /\ dict_mem "model" d = true) devices'
  /\ map (dict_get "serial") devices' = map (dict_get "serial") devices.
Proof.
  revert devices'. induction devices as [|d devices IH]; intros devices'; cbn.
  - intros H. inversion H. subst. split; [constructor | reflexivity].
  - destruct (dict_mem "serial" d) eqn:Hs; cbn [negb]; [|discriminate].
    destruct (JinjaMain.validate devices) as [rest|code]; [|discriminate].
    destruct (IH rest eq_refl) as (Hall & Hserials).
    intros H. inversion H. subst. cbn [map]. rewrite Hserials. split.
    + constructor; [|exact Hall].
      destruct (dict_mem "model" d) eqn:Hm; cbn [negb]; [auto|].
      unfold dict_mem in *. rewrite !dict_get_set. cbn.
      destruct (dict_get "serial" d); [auto | discriminate].
    + f_equal. destruct (dict_mem "model" d); cbn [negb]; [reflexivity|].
      rewrite dict_get_set. reflexivity.
Qed.

Lemma render_template_ok (env : Jinja.environment) (device_ : Jinja.device)
    (tmpl_name : string) :
  found_or_missing env tmpl_name = true ->
  is_ok (Jinja.render_template env tmpl_name device_) = true.
Proof.
  unfold found_or_missing, Jinja.render_template.
  destruct (env (tmpl_name ++ ".j2")) as [tmpl|[]]; try discriminate; intros _;
    [|reflexivity].
  destruct (tmpl device_); reflexivity.
Qed.

Lemma complete_device_ok (device_ : Jinja.device) (env : Jinja.environment)
    (names : list string) (now : Jinja.datetime) :
  dict_mem "serial" device_ = true -> dict_mem "model" device_ = true ->
  forallb (found_or_missing env) names = true ->
  is_ok (Jinja.generate_device_config device_ env names now) = true.
Proof.
  intros Hs Hm Henv. unfold Jinja.generate_device_config, dict_getitem.
  unfold dict_mem in Hs, Hm.
  destruct (dict_get "serial" device_); [|discriminate].
  destruct (dict_get "model" device_); [|discriminate]. cbn [bind].
  apply bind_ok; [|reflexivity].
  apply foldM_ok. intros t sections Ht. unfold Jinja.section.
  rewrite forallb_forall in Henv.
  pose proof (render_template_ok env device_ t (Henv t Ht)) as Hr.
  destruct (Jinja.render_template env t device_) as [rendered|e]; [|discriminate].
  cbn [bind]. destruct (truthy rendered); reflexivity.
Qed.

(** X14: the devices that [load_devices] returns are as many as the
    entries of the file, none being empty-handed: each has its [serial],
    unchanged, and a [model]; so [generate_device_config] raises for none
    of them, whatever the clock, as long as the environment finds each
    template or reports it missing. *)
Theorem loaded_devices_are_complete
    (devices devices' : list Jinja.device)
    (Hloaded : JinjaMain.load_devices devices = JinjaMain.Returns devices') :
  devices' <> []
  /\ map (dict_get "serial") devices' = map (dict_get "serial") devices
  /\ Forall (fun d => dict_mem "serial" d = true /\ dict_mem "model" d = true) devices'
  /\ forall env names now,
       forallb (found_or_missing env) names = true ->
       Forall (fun d => is_ok (Jinja.generate_device_config d env names now) = true)
         devices'.
Proof.
  unfold JinjaMain.load_devices in Hloaded.
  destruct devices as [|d devices]; [discriminate|].
  destruct (validate_complete _ _ Hloaded) as (Hall & Hserials).
  split; [|split; [exact Hserials | split; [exact Hall|]]].
  - intros ->. discriminate.
  - intros env names now Henv. eapply Forall_impl; [|exact Hall].
    intros dev (Hs & Hm). apply complete_device_ok; assumption.
Qed.

Lemma loaded_devices_are_complete_witness :
  JinjaMain.load_devices SampleJinjaMain.devices
  = JinjaMain.Returns
      [ SampleJinja.device;
        [("serial", "FW3523AB0002"); ("hostname", "sw2"); ("model", "EX4100")] ]
  /\ [ SampleJinja.device;
       [("serial", "FW3523AB0002"); ("hostname", "sw2"); ("model", "EX4100")] ] <> []
  /\ map (dict_get "serial")
       [ SampleJinja.device;
         [("serial", "FW3523AB0002"); ("hostname", "sw2"); ("model", "EX4100")] ]
     = map (dict_get "serial") SampleJinjaMain.devices
  /\ Forall (fun d => dict_mem "serial" d = true /\ dict_mem "model" d = true)
       [ SampleJinja.device;
         [("serial", "FW3523AB0002"); ("hostname", "sw2"); ("model", "EX4100")] ]
  /\ forall env names now,
       forallb (found_or_missing env) names = true ->
       Forall (fun d => is_ok (Jinja.generate_device_config d env names now) = true)
         [ SampleJinja.device;
           [("serial", "FW3523AB0002"); ("hostname", "sw2"); ("model", "EX4100")] ].
Proof.
  assert (H : JinjaMain.load_devices SampleJinjaMain.devices
              = JinjaMain.Returns
                  [ SampleJinja.device;
                    [("serial", "FW3523AB0002"); ("hostname", "sw2");
                     ("model", "EX4100")] ]) by reflexivity.
  split; [exact H|].
  exact (loaded_devices_are_complete SampleJinjaMain.devices _ H).
Defined.

(* ===================================================================== *)
(** * The Jinja2 generator: what the main loop leaves *)
(* ===================================================================== *)

Lemma select_filter (wanted : string) (devices selected : list Jinja.device) :
  JinjaMain.select wanted devices = Ok selected ->
  selected = filter (fun d => serial_of d =? wanted) devices.
Proof.
  revert selected. induction devices as [|d devices IH]; intros selected; cbn.
  - intros H. inversion H. reflexivity.
  - unfold dict_getitem, serial_of.
    destruct (dict_get "serial" d) as [s|]; cbn [bind]; [|discriminate].
    destruct (JinjaMain.select wanted devices) as [rest|e]; cbn [bind];
      [|discriminate].
    intros H. inversion H. rewrite (IH rest eq_refl). reflexivity.
Qed.

Lemma device_loop (a : JinjaMain.args) (env : Jinja.environment)
    (runs : list (Jinja.device * Jinja.datetime))
    (ok failed ok' failed' : list string) (w w' : world) :
  foldW (JinjaMain.device_step a env) runs (ok, failed) w = (Ok (ok', failed'), w') ->
  failed' = failed
  /\ if JinjaMain.dry_run a then files w' = files w
     else
       stdout w' = stdout w
       /\ exists added,
            files w' = (files w ++ added)%list
            /\ map fst added = map (fun run => serial_of (fst run) ++ ".conf") runs
            /\ map (fun f => Ok (snd f)) added = documents a env runs.
Proof.
  revert ok failed w. induction runs as [|[d now] runs IH]; intros ok failed w.
  - cbn. intros H. inversion H. subst. split; [reflexivity|].
    destruct (JinjaMain.dry_run a); [reflexivity|].
    split; [reflexivity|]. exists []. rewrite app_nil_r. auto.
  - cbn [foldW]. unfold bindM at 1. unfold JinjaMain.device_step at 1.
    unfold bindM at 1. unfold lift at 1. unfold dict_getitem, serial_of. cbn [map fst snd].
    destruct (dict_get "serial" d) as [s|]; [|discriminate].
    unfold bindM at 1. unfold lift at 1. unfold documents. cbn [map fst snd].
    destruct (Jinja.generate_device_config d env (JinjaMain.templates_list a) now)
      as [config|e]; [|discriminate].
    destruct (JinjaMain.dry_run a) eqn:Hdry.
    + unfold bindM, print, ret. cbn beta iota. intros H.
      pose proof (IH _ _ _ H) as H'. exact H'.
    + unfold bindM, JinjaMain.write_config, bindM, write_text, ret. cbn beta iota.
      intros H. pose proof (IH _ _ _ H) as H'.
      cbn [files stdout] in H'.
      destruct H' as (Hfailed & Hout & added & Hfiles & Hnames & Hdocs).
      split; [exact Hfailed|]. split; [exact Hout|].
      exists ((s ++ ".conf", config) :: added). rewrite Hfiles, <- app_assoc.
      cbn [map fst snd app]. unfold documents in Hdocs. rewrite Hnames, Hdocs.
      auto.
Qed.



(** The two devices of the sample file, the second without a model and
    with a template that is missing: two files, in the order of the
    file. *)
Example two_devices_two_files :
  map fst (files (snd (JinjaMain.main SampleJinjaMain.all_devices
                         SampleJinjaMain.devices SampleJinja.env
                         SampleJinjaMain.clock (pristine []))))
  = ["FW3523AB0001.conf"; "FW3523AB0002.conf"].
Proof. vm_compute. reflexivity. Qed.

(* ===================================================================== *)
(** * The [System] sheet: parameters that are not known *)
(* ===================================================================== *)

Lemma unknown_parameter_is_not_serial (param : string) :
  unknown_parameter param = true -> (param =? "serial_number") = false.
Proof.
  unfold unknown_parameter, config_map.
  destruct (param =? "hostname"); [discriminate|].
  destruct (param =? "serial_number"); [discriminate | reflexivity].
Qed.

(** X16: a [System] row whose parameter is text that
    [generate_system_config] does not know (the names are compared as
    they are written, capitals included) is passed over without a word:
    the section and the serial number are those of the sheet without the
    row, whatever its value. *)
Theorem unknown_parameter_is_passed_over
    (cols : list string) (before after : list (list cell)) (cells : list cell)
    (param : string) (value : cell)
    (Hparam : lookup "Parameter" (label cols cells) = Some (Str param))
    (Hvalue : lookup "Value" (label cols cells) = Some value)
    (Hunknown : unknown_parameter param = true) :
  generate_system_config (mkDataFrame cols (before ++ cells :: after))
  = generate_system_config (mkDataFrame cols (before ++ after)).
Proof.
  unfold generate_system_config. rewrite foldM_rows_skip; [reflexivity|].
  intros [commands serial_number]. unfold system_row, getitem.
  rewrite Hparam, Hvalue. cbn [bind eq_str config_map_cell as_str].
  rewrite (unknown_parameter_is_not_serial _ Hunknown).
  unfold unknown_parameter in Hunknown.
  destruct (config_map param); [discriminate|].
  apply negb_true_iff in Hunknown. rewrite Hunknown.
  destruct (filled value); reflexivity.
Qed.

Lemma unknown_parameter_is_passed_over_witness :
  (lookup "Parameter" (label ["Parameter"; "Value"] [Str "Hostname"; Str "sw9"])
   = Some (Str "Hostname")
   /\ lookup "Value" (label ["Parameter"; "Value"] [Str "Hostname"; Str "sw9"])
      = Some (Str "sw9")
   /\ unknown_parameter "Hostname" = true)
  /\ generate_system_config
       (mkDataFrame ["Parameter"; "Value"]
          ([[Str "hostname"; Str "sw1"]] ++ [Str "Hostname"; Str "sw9"]
             :: [[Str "time_zone"; Str "UTC"]]))
     = generate_system_config
         (mkDataFrame ["Parameter"; "Value"]
            ([[Str "hostname"; Str "sw1"]] ++ [[Str "time_zone"; Str "UTC"]])).
Proof.
  assert (H1 : lookup "Parameter"
                 (label ["Parameter"; "Value"] [Str "Hostname"; Str "sw9"])
               = Some (Str "Hostname")) by reflexivity.
  assert (H2 : lookup "Value"
                 (label ["Parameter"; "Value"] [Str "Hostname"; Str "sw9"])
               = Some (Str "sw9")) by reflexivity.
  assert (H3 : unknown_parameter "Hostname" = true) by reflexivity.
  split; [auto|].
  exact (unknown_parameter_is_passed_over ["Parameter"; "Value"]
           [[Str "hostname"; Str "sw1"]] [[Str "time_zone"; Str "UTC"]]
           [Str "Hostname"; Str "sw9"] "Hostname" (Str "sw9") H1 H2 H3).
Defined.

Lemma value_without_name_raises (r : row) (acc : list string * option cell) :
  value_without_name r = true -> is_ok (system_row r acc) = false.
Proof.
  destruct acc as [commands serial_number].
  unfold value_without_name, system_row, getitem.
  destruct (lookup "Parameter" r) as [param|]; [|discriminate].
  destruct (lookup "Value" r) as [value|]; [|destruct param; discriminate].
  cbn [bind].
  destruct param as [|p|z]; try discriminate; intros ->; reflexivity.
Qed.

(** X17: a [System] row that has a value while its parameter cell is
    blank or a number stops [generate_system_config], wherever the row
    stands: the cell is no key of [config_map] and has no
    [startswith]. *)
Theorem value_without_name_stops_the_section
    (df : DataFrame)
    (Hrow : existsb value_without_name (iterrows df) = true) :
  is_ok (generate_system_config df) = false.
Proof.
  unfold generate_system_config. apply bind_raises.
  apply (foldM_raises system_row value_without_name); [|exact Hrow].
  intros r acc. apply value_without_name_raises.
Qed.

Lemma value_without_name_stops_the_section_witness :
  existsb value_without_name
    (iterrows (mkDataFrame ["Parameter"; "Value"]
                 [[Str "hostname"; Str "sw1"]; [NaN; Str "UTC"]])) = true
  /\ is_ok (generate_system_config
              (mkDataFrame ["Parameter"; "Value"]
                 [[Str "hostname"; Str "sw1"]; [NaN; Str "UTC"]])) = false.
Proof.
  assert (H : existsb value_without_name
                (iterrows (mkDataFrame ["Parameter"; "Value"]
                             [[Str "hostname"; Str "sw1"]; [NaN; Str "UTC"]]))
              = true) by reflexivity.
  split; [exact H|].
  exact (value_without_name_stops_the_section _ H).
Defined.

(* ===================================================================== *)
(** * Where the host name goes *)
(* ===================================================================== *)

Lemma assign_nothing (df : DataFrame) (p v : nat) (param value : string) :
  index_of "Parameter" (columns df) = Some p ->
  existsb (fun r => match lookup "Parameter" r with
                    | Some c => eq_str c param
                    | None => false
                    end)
    (iterrows df) = false ->
  map (assign_row p v param value) (data df) = data df.
Proof.
  intros Hp Hnone. unfold iterrows in Hnone. rewrite <- (map_id (data df)) at 2.
  apply map_ext_in. intros cells Hin. unfold assign_row.
  destruct (eq_str (nth p cells NaN) param) eqn:E; [|reflexivity].
  exfalso. assert (H : existsb (fun r => match lookup "Parameter" r with
                                         | Some c => eq_str c param
                                         | None => false
                                         end)
                         (map (label (columns df)) (data df)) = true).
  { apply existsb_exists. exists (label (columns df) cells). split.
    - apply in_map, Hin.
    - rewrite (index_of_lookup _ _ _ _ Hp). exact E. }
  congruence.
Qed.

Lemma system_part_any_hostname (wb : list (string * DataFrame))
    (serial hostname hostname' : string) :
  system_has "hostname" wb = false ->
  system_part wb serial hostname = system_part wb serial hostname'.
Proof.
  unfold system_has, system_part.
  destruct (find_sheet "System" wb) as [df|]; [|reflexivity].
  intros Hnone.
  destruct (index_of "Parameter" (columns df)) as [p|] eqn:Hp.
  2:{ unfold assigned. rewrite Hp. reflexivity. }
  destruct (assigned_form df p Hp) as (cols1 & v1 & Hp1 & Hv1 & Hpv1 & Hassigned).
  rewrite !Hassigned, !(assign_nothing df p v1 _ _ Hp Hnone). reflexivity.
Qed.

(** X18: the host name of a device reaches the commands only through the
    [hostname] row of the [System] sheet: the assignment
    [df.loc[df['Parameter'] == 'hostname', 'Value'] = hostname] adds no
    row.  On a workbook whose [System] sheet has no such row, or that has
    no [System] sheet, the lines for another host name are the header for
    that host name followed by the same lines: no [set system host-name]
    command carries the name of the device. *)
Theorem hostname_needs_its_row
    (serial hostname hostname' mgmt_ip : string) (w w' : world) (lines : list string)
    (Hsheets : sheets w' = sheets w)
    (Hrow : system_has "hostname" (sheets w) = false)
    (Hlines : fst (build_config_lines serial hostname mgmt_ip w) = Ok lines) :
  fst (build_config_lines serial hostname' mgmt_ip w')
  = Ok (header serial hostname' mgmt_ip ++ skipn 7 lines)%list.
Proof.
  destruct (build_config_lines_spec serial hostname mgmt_ip w) as (w1 & Hrun & _).
  destruct (build_config_lines_spec serial hostname' mgmt_ip w') as (w1' & -> & _).
  rewrite Hrun in Hlines. cbn [fst] in *. rewrite Hsheets.
  unfold assemble in *.
  rewrite (system_part_any_hostname _ serial hostname' hostname Hrow).
  destruct (system_part (sheets w) serial hostname) as [sys|]; cbn [bind] in *;
    [|discriminate].
  destruct (foldM (handled_part (sheets w)) (map fst (sheets w)) []) as [mid|];
    cbn [bind] in *; [|discriminate].
  destruct (management_part (sheets w) mgmt_ip) as [mg|]; cbn [bind] in *;
    [|discriminate].
  inversion Hlines. subst lines. reflexivity.
Qed.

Lemma hostname_needs_its_row_witness :
  (sheets (mkWorld SampleNoHostname.workbook [Sample.ntp] [("OLD.cfg", "# old")] [])
   = sheets (pristine SampleNoHostname.workbook)
   /\ system_has "hostname" (sheets (pristine SampleNoHostname.workbook)) = false
   /\ fst (build_config_lines "ABC123" "sw1" "10.0.0.1"
             (pristine SampleNoHostname.workbook))
      = Ok SampleNoHostname.lines)
  /\ fst (build_config_lines "ABC123" "sw2" "10.0.0.1"
            (mkWorld SampleNoHostname.workbook [Sample.ntp] [("OLD.cfg", "# old")] []))
     = Ok (header "ABC123" "sw2" "10.0.0.1" ++ skipn 7 SampleNoHostname.lines)%list.
Proof.
  assert (H1 : sheets (mkWorld SampleNoHostname.workbook [Sample.ntp]
                         [("OLD.cfg", "# old")] [])
               = sheets (pristine SampleNoHostname.workbook)) by reflexivity.
  assert (H2 : system_has "hostname" (sheets (pristine SampleNoHostname.workbook))
               = false) by reflexivity.
  assert (H3 : fst (build_config_lines "ABC123" "sw1" "10.0.0.1"
                      (pristine SampleNoHostname.workbook))
               = Ok SampleNoHostname.lines) by (vm_compute; reflexivity).
  split; [auto|].
  exact (hostname_needs_its_row "ABC123" "sw1" "sw2" "10.0.0.1"
           (pristine SampleNoHostname.workbook)
           (mkWorld SampleNoHostname.workbook [Sample.ntp] [("OLD.cfg", "# old")] [])
           SampleNoHostname.lines H1 H2 H3).
Defined.

(** The lines of the sample: the host name is in the header only. *)
Example no_host_name_command :
  SampleNoHostname.lines
  = ([ "# Juniper EX Switch Configuration";
      "# Generated from Excel template";
      "# Switch Serial Number: ABC123";
      "# Hostname           : sw1";
      "# Management IP      : 10.0.0.1";
      PyStr.times "#" 60;
      "";
      "# System Configuration";
      "set system time-zone UTC";
      "" ] ++ skipn 10 SampleNoHostname.lines)%list.
Proof. vm_compute. reflexivity. Qed.

(* ===================================================================== *)
(** * The legacy mode: the management address *)
(* ===================================================================== *)

Lemma legacy_mode_document (w w' : world) (m : DataFrame) (generated : list string) :
  find_sheet "Management" (sheets w) = Some m ->
  legacy_mode w = (Ok (Some generated), w') ->
  exists serial hostname lines name,
    generated = [name]
    /\ files w' = (files w ++ [(name, PyStr.join newline lines)])%list
    /\ assemble (sheets w) serial hostname (first_address m) = Ok lines.
Proof.
  intros Hm. unfold legacy_mode. unfold bindM at 1.
  pose proof (silent_read_excel "System" w) as H1.
  destruct (read_excel "System" w) as [[df_sys|e] w1]; cbn [fst snd] in *;
    [|discriminate].
  destruct H1 as (Hs1 & Hf1 & _).
  unfold bindM at 1. unfold load at 1. cbn beta iota.
  unfold bindM at 1. unfold lift at 1.
  destruct (foldM legacy_row (iterrows (nth df_sys (heap w1) empty_frame)) (None, None))
    as [[serial hostname]|e]; [|discriminate].
  cbn beta iota. unfold bindM at 1. unfold sheet_names at 1. cbn beta iota.
  rewrite mem_find_sheet, Hs1, Hm.
  unfold bindM at 1. unfold bindM at 1. unfold read_excel at 1. rewrite Hs1, Hm.
  unfold bindM at 1. unfold load at 1. cbn [heap]. rewrite nth_length_app.
  unfold first_address.
  assert (Haddress :
            forall (w2 : world) (k : string -> M (option (list string))),
              (let (r, w0) :=
                 (if negb (empty m)
                  then c <~ lift (getitem (hd [] (iterrows m)) "IP Address") ;;
                       ret (if notna c then py_str c else "0.0.0.0")
                  else ret "0.0.0.0") w2 in
               match r with
               | Ok a => k a w0
               | Raise e => (Raise e, w0)
               end) = (Ok (Some generated), w') ->
              k (if empty m then "0.0.0.0"
                 else match lookup "IP Address" (hd [] (iterrows m)) with
                      | Some c => if notna c then py_str c else "0.0.0.0"
                      | None => "0.0.0.0"
                      end) w2 = (Ok (Some generated), w')).
  { intros w2 k. destruct (empty m); cbn [negb]; [unfold ret; auto|].
    unfold bindM, lift, getitem, ret.
    destruct (lookup "IP Address" (hd [] (iterrows m))); [auto | discriminate]. }
  intros H. apply Haddress in H. clear Haddress. revert H.
  unfold bindM at 1.
  match goal with
  | |- context [build_config ?s ?h ?ip ?w2] =>
      destruct (build_config_spec s h ip w2) as (w3 & -> & (_ & Hf3 & _));
      pose (the_serial := s); pose (the_hostname := h)
  end.
  cbn [sheets] in *.
  match goal with
  | |- context [assemble ?wb ?s ?h ?ip] =>
      destruct (assemble wb s h ip) as [lines|e] eqn:Ha; cbn [bind]; [|discriminate]
  end.
  unfold bindM, write_text, print, ret. cbn [fst snd files].
  intros H. inversion H. subst. cbn [files].
  exists the_serial, the_hostname, lines. eexists.
  split; [reflexivity|]. split; [|exact Ha].
  rewrite Hf3. cbn [files]. rewrite Hf1. reflexivity.
Qed.

(** X19: without an [Inventory] sheet, the document that a run writes is
    the one of [build_config] for the address of the first row of the
    [Management] sheet, or for [0.0.0.0] when the sheet is empty or the
    cell is blank; and this address is the override of the [Management]
    section: it goes to every row of the sheet (see
    [generate_management_config]), whatever address the row has. *)
Theorem legacy_mode_takes_the_first_address
    (w : world) (m : DataFrame) (generated : list string)
    (Hlegacy : find_sheet "Inventory" (sheets w) = None)
    (Hmanagement : find_sheet "Management" (sheets w) = Some m)
    (Hrun : fst (convert_excel_to_junos w) = Ok (Some generated)) :
  exists serial hostname lines name,
    generated = [name]
    /\ files (snd (convert_excel_to_junos w))
       = (files w ++ [(name, PyStr.join newline lines)])%list
    /\ assemble (sheets w) serial hostname (first_address m) = Ok lines
    /\ management_part (sheets w) (first_address m)
       = generate_management_config m (Some (first_address m)).
Proof.
  revert Hrun. unfold convert_excel_to_junos, try_except, bindM, sheet_names.
  rewrite mem_find_sheet, Hlegacy.
  destruct (legacy_mode w) as [[g|e] w'] eqn:E; cbn [fst snd]; [|discriminate].
  intros H. inversion H. subst g.
  destruct (legacy_mode_document _ _ _ _ Hmanagement E)
    as (serial & hostname & lines & name & Hg & Hfiles & Hlines).
  exists serial, hostname, lines, name. repeat split; try assumption.
  unfold management_part. rewrite Hmanagement. reflexivity.
Qed.

Lemma legacy_mode_takes_the_first_address_witness :
  (find_sheet "Inventory" (sheets (pristine SampleLegacy.workbook)) = None
   /\ find_sheet "Management" (sheets (pristine SampleLegacy.workbook))
      = Some (mkDataFrame ["Interface"; "IP Address"; "Prefix Length"]
                [ [Str "me0"; Str "192.168.1.1"; Int 24];
                  [Str "vme"; Str "192.168.1.2"; Int 24] ])
   /\ fst (convert_excel_to_junos (pristine SampleLegacy.workbook))
      = Ok (Some ["ABC123.cfg"]))
  /\ exists serial hostname lines name,
       ["ABC123.cfg"] = [name]
       /\ files (snd (convert_excel_to_junos (pristine SampleLegacy.workbook)))
          = (files (pristine SampleLegacy.workbook)
               ++ [(name, PyStr.join newline lines)])%list
       /\ assemble (sheets (pristine SampleLegacy.workbook)) serial hostname
            (first_address
               (mkDataFrame ["Interface"; "IP Address"; "Prefix Length"]
                  [ [Str "me0"; Str "192.168.1.1"; Int 24];
                    [Str "vme"; Str "192.168.1.2"; Int 24] ]))
          = Ok lines
       /\ management_part (sheets (pristine SampleLegacy.workbook))
            (first_address
               (mkDataFrame ["Interface"; "IP Address"; "Prefix Length"]
                  [ [Str "me0"; Str "192.168.1.1"; Int 24];
                    [Str "vme"; Str "192.168.1.2"; Int 24] ]))
          = generate_management_config
              (mkDataFrame ["Interface"; "IP Address"; "Prefix Length"]
                 [ [Str "me0"; Str "192.168.1.1"; Int 24];
                   [Str "vme"; Str "192.168.1.2"; Int 24] ])
              (Some (first_address
                       (mkDataFrame ["Interface"; "IP Address"; "Prefix Length"]
                          [ [Str "me0"; Str "192.168.1.1"; Int 24];
                            [Str "vme"; Str "192.168.1.2"; Int 24] ]))).
Proof.
  assert (H1 : find_sheet "Inventory" (sheets (pristine SampleLegacy.workbook)) = None)
    by reflexivity.
  assert (H2 : find_sheet "Management" (sheets (pristine SampleLegacy.workbook))
               = Some (mkDataFrame ["Interface"; "IP Address"; "Prefix Length"]
                         [ [Str "me0"; Str "192.168.1.1"; Int 24];
                           [Str "vme"; Str "192.168.1.2"; Int 24] ]))
    by reflexivity.
  assert (H3 : fst (convert_excel_to_junos (pristine SampleLegacy.workbook))
               = Ok (Some ["ABC123.cfg"])) by (vm_compute; reflexivity).
  split; [auto|].
  exact (legacy_mode_takes_the_first_address (pristine SampleLegacy.workbook) _
           ["ABC123.cfg"] H1 H2 H3).
Defined.

(** The second row of the sample, whose own address is [192.168.1.2],
    gets the address of the first row. *)
Example second_row_gets_the_first_address :
  option_map (fun f => PyStr.contains
                         "set interfaces vme unit 0 family inet address 192.168.1.1/24"
                         (snd f))
    (hd_error (files (snd (convert_excel_to_junos (pristine SampleLegacy.workbook)))))
  = Some true.
Proof. vm_compute. reflexivity. Qed.
